(** * VoiceBook service layer: a shallow embedding and its properties

    The development follows the two copies of the service module found in the
    repository:

    - [services/firebaseService.ts], embedded in [Module Service];
    - the copy with day-sharded notifications, embedded in [Module Sharded].

    Both talk to the same backend.  [Module JsDate] models the part of the
    JavaScript [Date] object the code relies on, [Module Firestore] models the
    document store, its field transforms, its transactions and a log of the
    backend calls an operation issues. *)

From Stdlib Require Import ZArith Lia Ascii String.
From stdpp Require Import base option strings pretty list sorting gmap.

Open Scope Z_scope.

(* ===================================================================== *)
(** * The JavaScript [Date] object                                        *)
(* ===================================================================== *)

(** Time values are milliseconds since the epoch, as in ECMA-262 (Date
    objects, "Time Values and Time Range").  The names below are those of the
    abstract operations of the standard. *)
Module JsDate.

Definition msPerDay : Z := 86400000.
Definition msPerHour : Z := 3600000.
Definition msPerMinute : Z := 60000.
Definition msPerSecond : Z := 1000.

Definition Day (t : Z) : Z := t `div` msPerDay.
Definition TimeWithinDay (t : Z) : Z := t `mod` msPerDay.

Definition DaysInYear (y : Z) : Z :=
  if negb (y `mod` 4 =? 0) then 365
  else if negb (y `mod` 100 =? 0) then 366
  else if negb (y `mod` 400 =? 0) then 365
  else 366.

Definition DayFromYear (y : Z) : Z :=
  365 * (y - 1970) + (y - 1969) `div` 4 - (y - 1901) `div` 100
  + (y - 1601) `div` 400.

(** [YearFromTime t] is the largest [y] with [DayFromYear y <= Day t]; it is
    found by walking up from an under-estimate. *)
Fixpoint year_search (fuel : nat) (y day : Z) : Z :=
  match fuel with
  | O => y
  | S f =>
      if DayFromYear (y + 1) <=? day then year_search f (y + 1) day else y
  end.

Definition YearFromDay (day : Z) : Z :=
  year_search (Z.to_nat (Z.abs day `div` 100000 + 8))
              (1970 + Z.min (day `div` 365) (day `div` 366) - 2) day.

Definition YearFromTime (t : Z) : Z := YearFromDay (Day t).

Definition InLeapYear (t : Z) : Z :=
  if DaysInYear (YearFromTime t) =? 366 then 1 else 0.

Definition DayWithinYear (t : Z) : Z := Day t - DayFromYear (YearFromTime t).

(** Day number, within its year, of the first day of month [m] (0-based);
    [l] is 1 in a leap year. *)
Definition monthStart (m l : Z) : Z :=
  match m with
  | 0 => 0
  | 1 => 31
  | 2 => 59 + l
  | 3 => 90 + l
  | 4 => 120 + l
  | 5 => 151 + l
  | 6 => 181 + l
  | 7 => 212 + l
  | 8 => 243 + l
  | 9 => 273 + l
  | 10 => 304 + l
  | _ => 334 + l
  end.

Definition month_of (dwy l : Z) : Z :=
  if dwy <? 31 then 0
  else if dwy <? 59 + l then 1
  else if dwy <? 90 + l then 2
  else if dwy <? 120 + l then 3
  else if dwy <? 151 + l then 4
  else if dwy <? 181 + l then 5
  else if dwy <? 212 + l then 6
  else if dwy <? 243 + l then 7
  else if dwy <? 273 + l then 8
  else if dwy <? 304 + l then 9
  else if dwy <? 334 + l then 10
  else 11.

Definition MonthFromTime (t : Z) : Z :=
  month_of (DayWithinYear t) (InLeapYear t).

Definition DateFromTime (t : Z) : Z :=
  DayWithinYear t - monthStart (MonthFromTime t) (InLeapYear t) + 1.

Definition HourFromTime (t : Z) : Z := (t `div` msPerHour) `mod` 24.
Definition MinFromTime (t : Z) : Z := (t `div` msPerMinute) `mod` 60.
Definition SecFromTime (t : Z) : Z := (t `div` msPerSecond) `mod` 60.
Definition msFromTime (t : Z) : Z := t `mod` msPerSecond.

Definition MakeTime (h m s ms : Z) : Z :=
  h * msPerHour + m * msPerMinute + s * msPerSecond + ms.

Definition MakeDay (year month date : Z) : Z :=
  let ym := year + month `div` 12 in
  let mn := month `mod` 12 in
  DayFromYear ym + monthStart mn (if DaysInYear ym =? 366 then 1 else 0)
  + date - 1.

Definition MakeDate (day time : Z) : Z := day * msPerDay + time.

(** ** Local time

    [tza] is the offset of local time from UTC in milliseconds.  It is a
    fixed offset: daylight-saving transitions are not part of this model. *)
Definition LocalTime (tza t : Z) : Z := t + tza.
Definition UTC (tza t : Z) : Z := t - tza.

(** [Date.prototype.getDate] and [Date.prototype.setDate]. *)
Definition getDate (tza t : Z) : Z := DateFromTime (LocalTime tza t).

Definition setDate (tza t dt : Z) : Z :=
  let lt := LocalTime tza t in
  UTC tza (MakeDate (MakeDay (YearFromTime lt) (MonthFromTime lt) dt)
                    (TimeWithinDay lt)).

(** ** Decimal digits *)

Definition digit (n : Z) : ascii :=
  match n `mod` 10 with
  | 0 => "0" | 1 => "1" | 2 => "2" | 3 => "3" | 4 => "4"
  | 5 => "5" | 6 => "6" | 7 => "7" | 8 => "8" | _ => "9"
  end%char.

Definition digit_val (c : ascii) : option Z :=
  (if Ascii.eqb c "0" then Some 0 else if Ascii.eqb c "1" then Some 1
   else if Ascii.eqb c "2" then Some 2 else if Ascii.eqb c "3" then Some 3
   else if Ascii.eqb c "4" then Some 4 else if Ascii.eqb c "5" then Some 5
   else if Ascii.eqb c "6" then Some 6 else if Ascii.eqb c "7" then Some 7
   else if Ascii.eqb c "8" then Some 8 else if Ascii.eqb c "9" then Some 9
   else None)%char.

(** [fixed w n]: the last [w] decimal digits of [n], most significant
    first. *)
Fixpoint fixed (w : nat) (n : Z) : string :=
  match w with
  | O => ""
  | S w' => String (digit (n `div` 10 ^ Z.of_nat w')) (fixed w' n)
  end.

Fixpoint read_digits (w : nat) (acc : Z) (s : string) : option (Z * string) :=
  match w with
  | O => Some (acc, s)
  | S w' =>
      match s with
      | String c s' =>
          match digit_val c with
          | Some d => read_digits w' (acc * 10 + d) s'
          | None => None
          end
      | EmptyString => None
      end
  end.

Definition expect (c : ascii) (s : string) : option string :=
  match s with
  | String c' s' => if Ascii.eqb c c' then Some s' else None
  | EmptyString => None
  end.

(** ** [Date.prototype.toISOString]

    [YYYY-MM-DDTHH:mm:ss.sssZ]; years outside 0..9999 use the expanded form
    with a sign and six digits. *)
Definition iso_year (y : Z) : string :=
  if (0 <=? y) && (y <=? 9999) then fixed 4 y
  else (if y <? 0 then "-" else "+") +:+ fixed 6 (Z.abs y).

Definition toISOString (t : Z) : string :=
  iso_year (YearFromTime t) +:+ "-" +:+ fixed 2 (MonthFromTime t + 1) +:+ "-"
  +:+ fixed 2 (DateFromTime t) +:+ "T" +:+ fixed 2 (HourFromTime t) +:+ ":"
  +:+ fixed 2 (MinFromTime t) +:+ ":" +:+ fixed 2 (SecFromTime t) +:+ "."
  +:+ fixed 3 (msFromTime t) +:+ "Z".

(** ** [new Date(string)]

    Only the format written by [toISOString] with a four-digit year is
    recognised; every other string yields an invalid date ([None], the
    time value NaN). *)
Definition parse (s : string) : option Z :=
  '(y, s) ← read_digits 4 0 s;
  s ← expect "-" s;
  '(mo, s) ← read_digits 2 0 s;
  s ← expect "-" s;
  '(d, s) ← read_digits 2 0 s;
  s ← expect "T" s;
  '(h, s) ← read_digits 2 0 s;
  s ← expect ":" s;
  '(mi, s) ← read_digits 2 0 s;
  s ← expect ":" s;
  '(sec, s) ← read_digits 2 0 s;
  s ← expect "." s;
  '(ms, s) ← read_digits 3 0 s;
  s ← expect "Z" s;
  match s with
  | EmptyString =>
      if (1 <=? mo) && (mo <=? 12) && (1 <=? d) && (d <=? 31)
         && (h <=? 23) && (mi <=? 59) && (sec <=? 59)
      then Some (MakeDate (MakeDay y (mo - 1) d) (MakeTime h mi sec ms))
      else None
  | _ => None
  end.

(** A [Date] object: its time value, [None] for an invalid date. *)
Definition date := option Z.

Definition ofString (s : string) : date := parse s.
Definition ofTime (t : Z) : date := Some t.

(** [Number.prototype.toString] on the result of a getter: the decimal
    numeral, or [NaN] on an invalid date. *)
Definition numToString (n : option Z) : string :=
  match n with
  | Some z => pretty z
  | None => "NaN"
  end.

(** [String.prototype.padStart] with a one-character filler. *)
Definition padStart (n : nat) (c : ascii) (s : string) : string :=
  string_of_list_ascii (replicate (n - String.length s)%nat c) +:+ s.

Definition getUTCFullYear (d : date) : option Z := YearFromTime <$> d.
Definition getUTCMonth (d : date) : option Z := MonthFromTime <$> d.
Definition getUTCDate (d : date) : option Z := DateFromTime <$> d.
Definition getTime (d : date) : option Z := d.

(** The range in which [toISOString] writes a four-digit year:
    0000-01-01T00:00:00.000Z to 9999-12-31T23:59:59.999Z. *)
Definition four_digit_year (t : Z) : Prop :=
  -62167219200000 <= t <= 253402300799999.

(** ** Local time with daylight saving

    The offset of local time from UTC depends on the instant.  Of a zone,
    [offsetAt t] is [LocalTZA(t, true)], the offset in effect at the
    instant [t], and [offsetOfLocal t] is [LocalTZA(t, false)], the offset
    by which the local time value [t] is read back as an instant. *)
Record Zone := mkZone {
  offsetAt : Z -> Z;
  offsetOfLocal : Z -> Z;
}.

Definition fixedZone (tza : Z) : Zone := mkZone (λ _, tza) (λ _, tza).

Definition LocalTimeIn (zone : Zone) (t : Z) : Z := t + offsetAt zone t.
Definition UTCIn (zone : Zone) (t : Z) : Z := t - offsetOfLocal zone t.

Definition getDateIn (zone : Zone) (t : Z) : Z :=
  DateFromTime (LocalTimeIn zone t).

Definition setDateIn (zone : Zone) (t dt : Z) : Z :=
  let lt := LocalTimeIn zone t in
  UTCIn zone (MakeDate (MakeDay (YearFromTime lt) (MonthFromTime lt) dt)
                       (TimeWithinDay lt)).

End JsDate.

(* ===================================================================== *)
(** * The document store                                                  *)
(* ===================================================================== *)

Module Firestore.

(** ** Documents

    One record per collection, with the fields the service reads or
    writes.  A field that may be missing in a document is an [option]. *)

(** A time field holds either a backend [Timestamp] (given by its
    millisecond value, [Timestamp.toDate().getTime()]) or a string. *)
Inductive FsTime :=
| FsTimestamp (ms : Z)
| FsString (s : string).

(** The four-field object stored for a user inside other documents. *)
Record Author := mkAuthor {
  a_id : string;
  a_name : string;
  a_avatarUrl : string;
  a_username : string;
}.

Record NotificationSettings := mkSettings {
  likes : option bool;
  comments : option bool;
  friendRequests : option bool;
  campaignUpdates : option bool;
  groupPosts : option bool;
}.

(** [users/{uid}] *)
Record UserData := mkUserData {
  u_name : string;
  u_username : string;
  u_email : string;
  u_avatarUrl : string;
  u_friendIds : list string;
  u_notificationSettings : option NotificationSettings;
  u_createdAt : option FsTime;
  u_commentingSuspendedUntil : option FsTime;
  u_lastActiveTimestamp : option FsTime;
}.

(** The client-side [User]: the document data under its id. *)
Record User := mkUser { user_id : string; user_data : UserData }.

(** [friendRequests/{from_to}] *)
Record FriendRequest := mkFriendRequest {
  fr_from : Author;
  fr_to : Author;
  fr_status : string;
  fr_createdAt : Z;
}.

(** [users/{uid}/notifications/{id}] *)
Record UserNotification := mkUserNotification {
  un_type : string;
  un_user : Author;
  un_createdAt : Z;
  un_read : bool;
}.

Record Comment := mkComment {
  c_id : string;
  c_author : Author;
  c_text : option string;
  c_createdAt : option FsTime;
  c_reactions : option (gmap string string);
}.

Record PollOption := mkPollOption {
  po_text : string;
  po_votes : Z;
  po_votedBy : list string;
}.

Record Poll := mkPoll { poll_question : string; poll_options : list PollOption }.

(** [posts/{pid}] *)
Record PostData := mkPostData {
  p_author : Author;
  p_caption : option string;
  p_createdAt : option FsTime;
  p_reactions : option (gmap string string);
  p_comments : option (list Comment);
  p_commentCount : option Z;
  p_poll : option Poll;
}.

(** The client-side [Post]. *)
Record Post := mkPost { post_id : string; post_data : PostData }.

Record JoinRequest := mkJoinRequest {
  jr_user : Author;
  jr_answers : list string;
}.

(** [groups/{gid}] *)
Record GroupData := mkGroupData {
  g_creator : Author;
  g_name : string;
  g_description : string;
  g_coverPhotoUrl : string;
  g_privacy : string;
  g_requiresApproval : bool;
  g_category : string;
  g_members : list Author;
  g_memberCount : Z;
  g_admins : list Author;
  g_moderators : list Author;
  g_createdAt : FsTime;
  g_joinRequests : option (list JoinRequest);
  g_pinnedPostId : option string;
}.

Record Group := mkGroup { group_id : string; group_data : GroupData }.

(** A document of a daily notification collection
    [notifications_YYYY_MM_DD/{id}]. *)
Record ShardNotification := mkShardNotification {
  sn_recipientId : string;
  sn_type : string;
  sn_user : Author;
  sn_read : bool;
  sn_createdAt : FsTime;
  sn_post : option (string * string);
  sn_comment : option (string * string);
  sn_groupId : option string;
  sn_groupName : option string;
  sn_campaignName : option string;
  sn_rejectionReason : option string;
  sn_message : option string;
}.

#[export] Instance Author_eq_dec : EqDecision Author.
Proof. solve_decision. Defined.

#[export] Instance JoinRequest_eq_dec : EqDecision JoinRequest.
Proof. solve_decision. Defined.

(** ** The store *)

Record Store := mkStore {
  coll_users : gmap string UserData;
  coll_usernames : gmap string string;
  coll_friendRequests : gmap string FriendRequest;
  coll_posts : gmap string PostData;
  coll_groups : gmap string GroupData;
  coll_userNotifications : gmap (string * string) UserNotification;
  coll_shards : gmap string (gmap string ShardNotification);
}.

Definition emptyStore : Store := mkStore ∅ ∅ ∅ ∅ ∅ ∅ ∅.

Definition set_users (f : gmap string UserData -> gmap string UserData)
    (st : Store) : Store :=
  mkStore (f (coll_users st)) (coll_usernames st) (coll_friendRequests st)
          (coll_posts st) (coll_groups st) (coll_userNotifications st)
          (coll_shards st).

Definition set_friendRequests
    (f : gmap string FriendRequest -> gmap string FriendRequest)
    (st : Store) : Store :=
  mkStore (coll_users st) (coll_usernames st) (f (coll_friendRequests st))
          (coll_posts st) (coll_groups st) (coll_userNotifications st)
          (coll_shards st).

Definition set_posts (f : gmap string PostData -> gmap string PostData)
    (st : Store) : Store :=
  mkStore (coll_users st) (coll_usernames st) (coll_friendRequests st)
          (f (coll_posts st)) (coll_groups st) (coll_userNotifications st)
          (coll_shards st).

Definition set_groups (f : gmap string GroupData -> gmap string GroupData)
    (st : Store) : Store :=
  mkStore (coll_users st) (coll_usernames st) (coll_friendRequests st)
          (coll_posts st) (f (coll_groups st)) (coll_userNotifications st)
          (coll_shards st).

Definition set_userNotifications
    (f : gmap (string * string) UserNotification
         -> gmap (string * string) UserNotification)
    (st : Store) : Store :=
  mkStore (coll_users st) (coll_usernames st) (coll_friendRequests st)
          (coll_posts st) (coll_groups st) (f (coll_userNotifications st))
          (coll_shards st).

Definition set_shards
    (f : gmap string (gmap string ShardNotification)
         -> gmap string (gmap string ShardNotification))
    (st : Store) : Store :=
  mkStore (coll_users st) (coll_usernames st) (coll_friendRequests st)
          (coll_posts st) (coll_groups st) (coll_userNotifications st)
          (f (coll_shards st)).

(** ** Field transforms *)

(** [arrayUnion(x)]: append [x] unless an equal element is present. *)
Definition arrayUnion `{EqDecision A} (x : A) (l : list A) : list A :=
  if decide (x ∈ l) then l else l ++ [x].

(** [arrayRemove(x)]: drop every element equal to [x]. *)
Definition arrayRemove `{EqDecision A} (x : A) (l : list A) : list A :=
  filter (λ y, y ≠ x) l.

(** [increment(n)] *)
Definition increment (n : Z) (v : Z) : Z := v + n.

(** ** Backend calls and the world *)

(** The calls of the client SDK.  [RunTransaction] stands for a whole
    transaction; reads and writes made through the transaction object are
    part of it and are not calls of their own. *)
Inductive ApiCall :=
| GetDoc (path : string)
| GetDocs (collection : string)
| SetDoc (path : string)
| UpdateDoc (path : string)
| AddDoc (collection : string)
| DeleteDoc (path : string)
| BatchCommit (paths : list string)
| RunTransaction
| OnSnapshot (target : string).

#[export] Instance ApiCall_eq_dec : EqDecision ApiCall.
Proof. solve_decision. Defined.

Definition is_listener (c : ApiCall) : bool :=
  match c with OnSnapshot _ => true | _ => false end.

Definition is_one_shot_read (c : ApiCall) : bool :=
  match c with GetDoc _ | GetDocs _ => true | _ => false end.

Definition is_transaction (c : ApiCall) : bool :=
  match c with RunTransaction => true | _ => false end.

Definition is_plain_write (c : ApiCall) : bool :=
  match c with
  | SetDoc _ | UpdateDoc _ | AddDoc _ | DeleteDoc _ | BatchCommit _ => true
  | _ => false
  end.

Inductive Outcome (A : Type) :=
| Returned (a : A)
| Thrown (e : string).
Arguments Returned {A} a.
Arguments Thrown {A} e.

(** The world an operation runs in: the store, the calls issued so far
    (oldest first), the values the coming reads of the clock will give
    ([new Date()]), the offset of local time, and the coming
    auto-generated document ids. *)
Record World := mkWorld {
  store : Store;
  calls : list ApiCall;
  clock : nat -> Z;
  tza : Z;
  ids : nat -> string;
}.

Definition Fs (A : Type) : Type := World -> Outcome A * World.

#[export] Instance Fs_ret : MRet Fs := λ A a w, (Returned a, w).

#[export] Instance Fs_bind : MBind Fs := λ A B k m w,
  match m w with
  | (Returned a, w') => k a w'
  | (Thrown e, w') => (Thrown e, w')
  end.

Definition throw {A} (e : string) : Fs A := λ w, (Thrown e, w).

(** [try { m } catch (e) { h e }] *)
Definition try_catch {A} (m : Fs A) (h : string -> Fs A) : Fs A := λ w,
  match m w with
  | (Returned a, w') => (Returned a, w')
  | (Thrown e, w') => h e w'
  end.

Definition api (c : ApiCall) : Fs unit := λ w,
  (Returned (), mkWorld (store w) (calls w ++ [c]) (clock w) (tza w) (ids w)).

Definition readStore : Fs Store := λ w, (Returned (store w), w).

Definition putStore (st : Store) : Fs unit := λ w,
  (Returned (), mkWorld st (calls w) (clock w) (tza w) (ids w)).

(** [new Date()]: the next reading of the clock. *)
Definition newDate : Fs Z := λ w,
  (Returned (clock w O),
   mkWorld (store w) (calls w) (λ n, clock w (S n)) (tza w) (ids w)).

Definition localTZA : Fs Z := λ w, (Returned (tza w), w).

Definition autoId : Fs string := λ w,
  (Returned (ids w O),
   mkWorld (store w) (calls w) (clock w) (tza w) (λ n, ids w (S n))).

(** A write: [None] when its target document does not exist. *)
Definition Write : Type := Store -> option Store.

Definition commit (ws : list Write) (st : Store) : option Store :=
  foldl (λ acc w, acc ≫= w) (Some st) ws.

(** [getDoc(doc(db, path))] *)
Definition getDoc {A} (path : string) (read : Store -> option A)
  : Fs (option A) :=
  api (GetDoc path);; st ← readStore; mret (read st).

(** [updateDoc(ref, ...)]: rejects when the document does not exist. *)
Definition updateDoc (path : string) (w : Write) : Fs unit :=
  api (UpdateDoc path);; st ← readStore;
  match w st with
  | Some st' => putStore st'
  | None => throw "not-found"
  end.

(** [setDoc(ref, data)] *)
Definition setDoc (path : string) (w : Store -> Store) : Fs unit :=
  api (SetDoc path);; st ← readStore; putStore (w st).

(** [addDoc(collection(db, c), data)]: the document gets a fresh id. *)
Definition addDoc (collection : string) (w : string -> Store -> Store)
  : Fs string :=
  id ← autoId; api (AddDoc collection);; st ← readStore;
  putStore (w id st);; mret id.

(** [writeBatch(db)] ... [batch.commit()]: all writes or none. *)
Definition batchCommit (paths : list string) (ws : list Write) : Fs unit :=
  api (BatchCommit paths);; st ← readStore;
  match commit ws st with
  | Some st' => putStore st'
  | None => throw "not-found"
  end.

(** ** Transactions

    The body of [runTransaction] reads through [transaction.get] and
    queues its writes; they are applied together when the body returns,
    and not at all when it throws or when a queued update finds no
    document. *)
Definition Txn (A : Type) : Type := list Write -> Fs (A * list Write).

#[export] Instance Txn_ret : MRet Txn := λ A a ws, mret (a, ws).

#[export] Instance Txn_bind : MBind Txn := λ A B k m ws,
  '(a, ws') ← m ws; k a ws'.

Definition tx_throw {A} (e : string) : Txn A := λ _, throw e.

Definition tx_get {A} (read : Store -> option A) : Txn (option A) := λ ws,
  st ← readStore; mret (read st, ws).

Definition tx_write (w : Write) : Txn unit := λ ws, mret ((), ws ++ [w]).

Definition tx_lift {A} (m : Fs A) : Txn A := λ ws, a ← m; mret (a, ws).

Definition runTransaction {A} (body : Txn A) : Fs A :=
  api RunTransaction;;
  '(a, ws) ← body [];
  st ← readStore;
  match commit ws st with
  | Some st' => putStore st';; mret a
  | None => throw "not-found"
  end.

(** ** Typed reads and writes *)

Definition upd_user (uid : string) (f : UserData -> UserData) : Write :=
  λ st, u ← coll_users st !! uid; Some (set_users <[uid := f u]> st).

Definition upd_post (pid : string) (f : PostData -> PostData) : Write :=
  λ st, p ← coll_posts st !! pid; Some (set_posts <[pid := f p]> st).

Definition upd_group (gid : string) (f : GroupData -> GroupData) : Write :=
  λ st, g ← coll_groups st !! gid; Some (set_groups <[gid := f g]> st).

Definition put_userNotification (uid id : string) (n : UserNotification)
  : Write :=
  λ st, Some (set_userNotifications <[(uid, id) := n]> st).

Definition del_friendRequest (id : string) : Write :=
  λ st, Some (set_friendRequests (delete id) st).

(** Unfolds the monadic plumbing of an operation, keeping [commit]. *)
Ltac fs_steps :=
  cbv beta iota zeta delta
    [mbind mret Fs_bind Fs_ret Txn_bind Txn_ret tx_get tx_write tx_throw
     tx_lift runTransaction try_catch api readStore putStore throw getDoc
     updateDoc setDoc addDoc batchCommit newDate autoId localTZA];
  cbn [store calls clock tza ids app option_bind orb andb negb fst snd].

(** Unfolds the monadic plumbing of an operation. *)
Ltac fs_run :=
  cbv beta iota zeta delta
    [mbind mret Fs_bind Fs_ret Txn_bind Txn_ret tx_get tx_write tx_throw
     tx_lift runTransaction try_catch api readStore putStore throw getDoc
     updateDoc setDoc addDoc batchCommit newDate autoId localTZA
     commit foldl];
  cbn [store calls clock tza ids app option_bind orb andb negb fst snd].

(** ** Deletes and queries *)

(** [deleteDoc(ref)]: succeeds whether or not the document exists. *)
Definition deleteDoc (path : string) (w : Store -> Store) : Fs unit :=
  api (DeleteDoc path);; st ← readStore; putStore (w st).

(** [getDocs(query)]: the documents the query selects. *)
Definition getDocs {A} (target : string) (read : Store -> list A)
  : Fs (list A) :=
  api (GetDocs target);; st ← readStore; mret (read st).

Definition upd_userNotification (uid id : string)
    (f : UserNotification -> UserNotification) : Write :=
  λ st,
    n ← coll_userNotifications st !! (uid, id);
    Some (set_userNotifications <[(uid, id) := f n]> st).

End Firestore.

(* ===================================================================== *)
(** * [services/firebaseService.ts]                                       *)
(* ===================================================================== *)

(** Each definition bears the name of the function of
    [services/firebaseService.ts] it embeds.  An [async] function is a
    computation in [Fs]; a rejected promise is [Thrown]. *)
Module Service.
Import JsDate Firestore.

Definition CLOUDINARY_CLOUD_NAME : string := "deeieh2bd".
Definition CLOUDINARY_UPLOAD_PRESET : string := "Voicebook".

(** [String.prototype.toLowerCase], on the ASCII letters. *)
Definition lower_ascii (c : ascii) : ascii :=
  let n := nat_of_ascii c in
  if (65 <=? n)%nat && (n <=? 90)%nat then ascii_of_nat (n + 32) else c.

Fixpoint toLowerCase (s : string) : string :=
  match s with
  | EmptyString => EmptyString
  | String c s' => String (lower_ascii c) (toLowerCase s')
  end.

(** ** Helpers *)

(** A [Timestamp] becomes its ISO string, anything else is kept. *)
Definition timestampToISO (t : option FsTime) : option FsTime :=
  match t with
  | Some (FsTimestamp ms) => Some (FsString (toISOString ms))
  | _ => t
  end.

Definition docToUser (id : string) (data : UserData) : User :=
  mkUser id
    (mkUserData (u_name data) (u_username data) (u_email data)
       (u_avatarUrl data) (u_friendIds data) (u_notificationSettings data)
       (timestampToISO (u_createdAt data))
       (timestampToISO (u_commentingSuspendedUntil data))
       (timestampToISO (u_lastActiveTimestamp data))).

(** [x instanceof Timestamp ? x.toDate().toISOString()
                            : new Date().toISOString()] *)
Definition isoOrNow (t : option FsTime) : Fs FsTime :=
  match t with
  | Some (FsTimestamp ms) => mret (FsString (toISOString ms))
  | _ => now ← newDate; mret (FsString (toISOString now))
  end.

Definition commentToClient (c : Comment) : Fs Comment :=
  t ← isoOrNow (c_createdAt c);
  mret (mkComment (c_id c) (c_author c) (c_text c) (Some t) (c_reactions c)).

Fixpoint mapFs {A B} (f : A -> Fs B) (l : list A) : Fs (list B) :=
  match l with
  | [] => mret []
  | x :: l' => y ← f x; ys ← mapFs f l'; mret (y :: ys)
  end.

Definition docToPost (id : string) (data : PostData) : Fs Post :=
  t ← isoOrNow (p_createdAt data);
  cs ← mapFs commentToClient (default [] (p_comments data));
  mret (mkPost id
          (mkPostData (p_author data) (p_caption data) (Some t)
             (Some (default ∅ (p_reactions data))) (Some cs)
             (Some (default 0 (p_commentCount data))) (p_poll data))).

Definition memberObject (u : User) : Author :=
  mkAuthor (user_id u) (u_name (user_data u)) (u_avatarUrl (user_data u))
           (u_username (user_data u)).

(** ** The media upload helper *)

Record Blob := mkBlob { blob_type : string; blob_data : string }.

Inductive FormValue :=
| FormFile (file : Blob) (fileName : string)
| FormText (value : string).

Record Request := mkRequest {
  req_url : string;
  req_method : string;
  req_body : list (string * FormValue);
}.

(** What [fetch] resolves to: the [ok] flag and the outcome of
    [response.json()], [None] when the body is not JSON. *)
Record Response := mkResponse {
  ok : bool;
  json : option (gmap string string);
}.

Record Upload := mkUpload { url : option string; type : option string }.

Definition uploadRequest (file : Blob) (fileName : string) : Request :=
  let resourceType :=
    if String.prefix "video" (blob_type file) then "video"
    else if String.prefix "image" (blob_type file) then "image"
    else if String.prefix "audio" (blob_type file) then "video"
    else "auto" in
  mkRequest
    ("https://api.cloudinary.com/v1_1/" +:+ CLOUDINARY_CLOUD_NAME +:+ "/"
     +:+ resourceType +:+ "/upload")
    "POST"
    [("file", FormFile file fileName);
     ("upload_preset", FormText CLOUDINARY_UPLOAD_PRESET)].

(** [fetch] is the network: [None] when the request itself fails. *)
Definition uploadMediaToCloudinary (fetch : Request -> option Response)
    (file : Blob) (fileName : string) : Outcome Upload :=
  match fetch (uploadRequest file fileName) with
  | None => Thrown "TypeError: Failed to fetch"
  | Some response =>
      if negb (ok response) then
        match json response with
        | Some _ => Thrown "Failed to upload media to Cloudinary"
        | None => Thrown "SyntaxError"
        end
      else
        match json response with
        | Some data =>
            Returned (mkUpload (data !! "secure_url") (data !! "resource_type"))
        | None => Thrown "SyntaxError"
        end
  end.

(** ** Authentication and profiles *)

(** Registers the listener; the value is what the first snapshot hands to
    the callback. *)
Definition listenToCurrentUser (userId : string) : Fs (option User) :=
  api (OnSnapshot ("users/" +:+ userId));;
  st ← readStore;
  mret (docToUser userId <$> coll_users st !! userId).

Definition isUsernameTaken (username : string) : Fs bool :=
  usernameDoc ← getDoc ("usernames/" +:+ toLowerCase username)
                  (λ st, coll_usernames st !! toLowerCase username);
  mret (bool_decide (is_Some usernameDoc)).

Definition getUserProfileById (uid : string) : Fs (option User) :=
  userDoc ← getDoc ("users/" +:+ uid) (λ st, coll_users st !! uid);
  mret (docToUser uid <$> userDoc).

(** ** Friends *)

Record AddFriendResult := mkAddFriendResult {
  success : bool;
  reason : option string;
}.

(** [serverTimestamp()]: the time of the write. *)
Definition serverTimestamp : Fs Z := newDate.

Definition addFriend (currentUserId targetUserId : string)
  : Fs AddFriendResult :=
  if decide (currentUserId = "") then
    mret (mkAddFriendResult false (Some "not_signed_in"))
  else
    sender ← getUserProfileById currentUserId;
    receiver ← getUserProfileById targetUserId;
    match sender, receiver with
    | Some sender, Some receiver =>
        try_catch
          (let requestId := currentUserId +:+ "_" +:+ targetUserId in
           now ← serverTimestamp;
           setDoc ("friendRequests/" +:+ requestId)
             (set_friendRequests
                <[requestId :=
                    mkFriendRequest (memberObject sender)
                      (memberObject receiver) "pending" now]>);;
           mret (mkAddFriendResult true None))
          (λ _, mret (mkAddFriendResult false (Some "permission_denied")))
    | _, _ => mret (mkAddFriendResult false (Some "user_not_found"))
    end.

Definition add_friend (friend : string) (u : UserData) : UserData :=
  mkUserData (u_name u) (u_username u) (u_email u) (u_avatarUrl u)
    (arrayUnion friend (u_friendIds u)) (u_notificationSettings u)
    (u_createdAt u) (u_commentingSuspendedUntil u) (u_lastActiveTimestamp u).

Definition acceptFriendRequest (currentUserId requestingUserId : string)
  : Fs unit :=
  let requestId := requestingUserId +:+ "_" +:+ currentUserId in
  notificationId ← autoId;
  runTransaction (
    requestDoc ← tx_get (λ st, coll_friendRequests st !! requestId);
    match requestDoc with
    | Some request =>
        if decide (fr_status request = "pending") then
          currentUserDoc ← tx_get (λ st, coll_users st !! currentUserId);
          match currentUserDoc with
          | None => tx_throw "Current user profile not found."
          | Some currentUserData =>
              tx_write (upd_user currentUserId (add_friend requestingUserId));;
              tx_write (upd_user requestingUserId (add_friend currentUserId));;
              now ← tx_lift serverTimestamp;
              tx_write (put_userNotification requestingUserId notificationId
                (mkUserNotification "friend_request_approved"
                   (mkAuthor currentUserId (u_name currentUserData)
                      (u_avatarUrl currentUserData)
                      (u_username currentUserData))
                   now false));;
              tx_write (del_friendRequest requestId)
          end
        else tx_throw "Friend request not found or already handled."
    | None => tx_throw "Friend request not found or already handled."
    end).

Inductive FriendshipStatus :=
| FRIENDS
| REQUEST_SENT
| PENDING_APPROVAL
| NOT_FRIENDS.

Definition checkFriendshipStatus (currentUserId profileUserId : string)
  : Fs FriendshipStatus :=
  user ← getUserProfileById currentUserId;
  let friendIds := from_option (λ u, u_friendIds (user_data u)) [] user in
  if bool_decide (profileUserId ∈ friendIds)
  then mret FRIENDS
  else
    try_catch
      (let sent := currentUserId +:+ "_" +:+ profileUserId in
       let received := profileUserId +:+ "_" +:+ currentUserId in
       sentSnap ← getDoc ("friendRequests/" +:+ sent)
                    (λ st, coll_friendRequests st !! sent);
       receivedSnap ← getDoc ("friendRequests/" +:+ received)
                        (λ st, coll_friendRequests st !! received);
       match sentSnap, receivedSnap with
       | Some r, _ =>
           if decide (fr_status r = "accepted") then mret FRIENDS
           else mret REQUEST_SENT
       | None, Some r =>
           if decide (fr_status r = "accepted") then mret FRIENDS
           else mret PENDING_APPROVAL
       | None, None => mret NOT_FRIENDS
       end)
      (λ _, mret NOT_FRIENDS).

(** ** Reactions *)

Definition with_reactions (r : gmap string string) (p : PostData) : PostData :=
  mkPostData (p_author p) (p_caption p) (p_createdAt p) (Some r)
             (p_comments p) (p_commentCount p) (p_poll p).

Definition with_comments (cs : list Comment) (p : PostData) : PostData :=
  mkPostData (p_author p) (p_caption p) (p_createdAt p) (p_reactions p)
             (Some cs) (p_commentCount p) (p_poll p).

Definition with_poll (q : Poll) (p : PostData) : PostData :=
  mkPostData (p_author p) (p_caption p) (p_createdAt p) (p_reactions p)
             (p_comments p) (p_commentCount p) (Some q).

(** The toggle shared by [reactToPost] and [reactToComment]:
    [if (reactions[userId] === newReaction) delete reactions[userId];
     else reactions[userId] = newReaction]. *)
Definition toggle (userId newReaction : string) (reactions : gmap string string)
  : gmap string string :=
  if decide (reactions !! userId = Some newReaction)
  then delete userId reactions
  else <[userId := newReaction]> reactions.

Definition reactToPost (postId userId newReaction : string) : Fs bool :=
  try_catch
    (runTransaction (
       postDoc ← tx_get (λ st, coll_posts st !! postId);
       match postDoc with
       | None => tx_throw "Post does not exist!"
       | Some postData =>
           let reactions := default ∅ (p_reactions postData) in
           tx_write (upd_post postId
                       (with_reactions (toggle userId newReaction reactions)))
       end);;
     mret true)
    (λ _, mret false).

Definition comment_with_reactions (r : gmap string string) (c : Comment)
  : Comment :=
  mkComment (c_id c) (c_author c) (c_text c) (c_createdAt c) (Some r).

Definition reactToComment (postId commentId userId newReaction : string)
  : Fs bool :=
  try_catch
    (runTransaction (
       postDoc ← tx_get (λ st, coll_posts st !! postId);
       match postDoc with
       | None => tx_throw "Post does not exist!"
       | Some postData =>
           let comments := default [] (p_comments postData) in
           match list_find (λ c, c_id c = commentId) comments with
           | None => tx_throw "Comment not found!"
           | Some (commentIndex, comment) =>
               let reactions := default ∅ (c_reactions comment) in
               let comments' :=
                 <[commentIndex :=
                     comment_with_reactions
                       (toggle userId newReaction reactions) comment]>
                   comments in
               tx_write (upd_post postId (with_comments comments'))
           end
       end);;
     mret true)
    (λ _, mret false).

(** ** Polls *)

Definition hasVoted (userId : string) (poll : Poll) : bool :=
  existsb (λ opt, bool_decide (userId ∈ po_votedBy opt)) (poll_options poll).

Definition vote (userId : string) (optionIndex : Z) (poll : Poll) : Poll :=
  mkPoll (poll_question poll)
    (imap (λ index option,
             if decide (Z.of_nat index = optionIndex)
             then mkPollOption (po_text option) (po_votes option + 1)
                               (po_votedBy option ++ [userId])
             else option)
          (poll_options poll)).

Definition voteOnPoll (userId postId : string) (optionIndex : Z)
  : Fs (option Post) :=
  try_catch
    (runTransaction (
       postDoc ← tx_get (λ st, coll_posts st !! postId);
       match postDoc with
       | None => tx_throw "Post does not exist!"
       | Some postData =>
           match p_poll postData with
           | None => tx_throw "This post does not have a poll."
           | Some poll =>
               if hasVoted userId poll then
                 post ← tx_lift (docToPost postId postData);
                 mret (Some post)
               else if (optionIndex <? 0)
                       || (Z.of_nat (length (poll_options poll)) <=? optionIndex)
               then tx_throw "Invalid poll option index."
               else
                 let updatedPoll := vote userId optionIndex poll in
                 tx_write (upd_post postId (with_poll updatedPoll));;
                 post ← tx_lift (docToPost postId postData);
                 mret (Some (mkPost (post_id post)
                               (with_poll updatedPoll (post_data post))))
           end
       end))
    (λ _, mret None).

(** ** Groups *)

Definition with_membership (members : list Author) (memberCount : Z)
    (admins moderators : list Author) (g : GroupData) : GroupData :=
  mkGroupData (g_creator g) (g_name g) (g_description g) (g_coverPhotoUrl g)
    (g_privacy g) (g_requiresApproval g) (g_category g) members memberCount
    admins moderators (g_createdAt g) (g_joinRequests g) (g_pinnedPostId g).

Definition with_joinRequests (rs : list JoinRequest) (g : GroupData)
  : GroupData :=
  mkGroupData (g_creator g) (g_name g) (g_description g) (g_coverPhotoUrl g)
    (g_privacy g) (g_requiresApproval g) (g_category g) (g_members g)
    (g_memberCount g) (g_admins g) (g_moderators g) (g_createdAt g)
    (Some rs) (g_pinnedPostId g).

Definition with_createdAt (t : FsTime) (g : GroupData) : GroupData :=
  mkGroupData (g_creator g) (g_name g) (g_description g) (g_coverPhotoUrl g)
    (g_privacy g) (g_requiresApproval g) (g_category g) (g_members g)
    (g_memberCount g) (g_admins g) (g_moderators g) t
    (g_joinRequests g) (g_pinnedPostId g).

Definition with_pinnedPostId (pid : option string) (g : GroupData)
  : GroupData :=
  mkGroupData (g_creator g) (g_name g) (g_description g) (g_coverPhotoUrl g)
    (g_privacy g) (g_requiresApproval g) (g_category g) (g_members g)
    (g_memberCount g) (g_admins g) (g_moderators g) (g_createdAt g)
    (g_joinRequests g) pid.

Definition createGroup (creator : Author)
    (name description coverPhotoUrl privacy : string)
    (requiresApproval : bool) (category : string) : Fs Group :=
  stamp ← serverTimestamp;
  let newGroupData :=
    mkGroupData creator name description coverPhotoUrl privacy
      requiresApproval category [creator] 1 [creator] [] (FsTimestamp stamp)
      None None in
  id ← addDoc "groups" (λ id, set_groups <[id := newGroupData]>);
  now ← newDate;
  mret (mkGroup id (with_createdAt (FsString (toISOString now)) newGroupData)).

Definition joinGroup (userId groupId : string) (answers : list string)
  : Fs bool :=
  user ← getUserProfileById userId;
  match user with
  | None => mret false
  | Some user =>
      updateDoc ("groups/" +:+ groupId)
        (upd_group groupId (λ g,
           with_membership (arrayUnion (memberObject user) (g_members g))
             (increment 1 (g_memberCount g)) (g_admins g) (g_moderators g) g));;
      mret true
  end.

Definition without (userId : string) (l : list Author) : list Author :=
  filter (λ m, a_id m ≠ userId) l.

Definition leaveGroup (userId groupId : string) : Fs bool :=
  try_catch
    (runTransaction (
       groupDoc ← tx_get (λ st, coll_groups st !! groupId);
       match groupDoc with
       | None => tx_throw "Group not found"
       | Some groupData =>
           tx_write (upd_group groupId (λ g,
             with_membership (without userId (g_members groupData))
               (increment (-1) (g_memberCount g))
               (without userId (g_admins groupData))
               (without userId (g_moderators groupData)) g))
       end);;
     mret true)
    (λ _, mret false).

Definition removeGroupMember (groupId : string) (userToRemove : User)
  : Fs bool :=
  try_catch
    (runTransaction (
       groupDoc ← tx_get (λ st, coll_groups st !! groupId);
       match groupDoc with
       | None => tx_throw "Group not found"
       | Some groupData =>
           let isAlreadyMember :=
             existsb (λ m, bool_decide (a_id m = user_id userToRemove))
                     (g_members groupData) in
           let memberCountChange :=
             if isAlreadyMember then increment (-1) else increment 0 in
           tx_write (upd_group groupId (λ g,
             with_membership
               (without (user_id userToRemove) (g_members groupData))
               (memberCountChange (g_memberCount g))
               (without (user_id userToRemove) (g_admins groupData))
               (without (user_id userToRemove) (g_moderators groupData)) g))
       end);;
     mret true)
    (λ _, mret false).

Definition approveJoinRequest (groupId userId : string) : Fs bool :=
  try_catch
    (runTransaction (
       groupDoc ← tx_get (λ st, coll_groups st !! groupId);
       match groupDoc with
       | None => tx_throw "Group not found"
       | Some groupData =>
           let joinRequests := default [] (g_joinRequests groupData) in
           match list_find (λ r, a_id (jr_user r) = userId) joinRequests with
           | None => mret ()
           | Some (_, request) =>
               let userToApprove := jr_user request in
               let updatedRequests :=
                 filter (λ r, a_id (jr_user r) ≠ userId) joinRequests in
               let memberObject :=
                 mkAuthor (a_id userToApprove) (a_name userToApprove)
                   (a_avatarUrl userToApprove) (a_username userToApprove) in
               tx_write (upd_group groupId (λ g,
                 with_joinRequests updatedRequests
                   (with_membership (arrayUnion memberObject (g_members g))
                      (increment 1 (g_memberCount g)) (g_admins g)
                      (g_moderators g) g)))
           end
       end);;
     mret true)
    (λ _, mret false).

(** The settings form: a field left undefined is dropped by
    [removeUndefined] and keeps its stored value. *)
Record GroupSettings := mkGroupSettings {
  gs_name : option string;
  gs_description : option string;
  gs_coverPhotoUrl : option string;
  gs_privacy : option string;
  gs_requiresApproval : option bool;
  gs_category : option string;
}.

Definition apply_settings (s : GroupSettings) (g : GroupData) : GroupData :=
  mkGroupData (g_creator g) (default (g_name g) (gs_name s))
    (default (g_description g) (gs_description s))
    (default (g_coverPhotoUrl g) (gs_coverPhotoUrl s))
    (default (g_privacy g) (gs_privacy s))
    (default (g_requiresApproval g) (gs_requiresApproval s))
    (default (g_category g) (gs_category s)) (g_members g) (g_memberCount g)
    (g_admins g) (g_moderators g) (g_createdAt g) (g_joinRequests g)
    (g_pinnedPostId g).

Definition updateGroupSettings (groupId : string) (settings : GroupSettings)
  : Fs bool :=
  updateDoc ("groups/" +:+ groupId) (upd_group groupId (apply_settings settings));;
  mret true.

Definition pinPost (groupId postId : string) : Fs bool :=
  updateDoc ("groups/" +:+ groupId)
    (upd_group groupId (with_pinnedPostId (Some postId)));;
  mret true.

(** ** Notifications kept under the user *)

Definition set_read (n : UserNotification) : UserNotification :=
  mkUserNotification (un_type n) (un_user n) (un_createdAt n) true.

Definition markNotificationsAsRead (userId : string)
    (notificationIds : list string) : Fs unit :=
  if decide (length notificationIds = 0%nat) then mret ()
  else
    batchCommit
      (map (λ id, "users/" +:+ userId +:+ "/notifications/" +:+ id)
           notificationIds)
      (map (λ id, upd_userNotification userId id set_read) notificationIds).

(** ** Reading several profiles *)

(** [Array.prototype.slice(i, j)] for [0 <= i <= j]. *)
Definition slice {A} (i j : nat) (l : list A) : list A :=
  take (j - i) (drop i l).

(** The chunks of the loop
    [for (let i = 0; i < userIds.length; i += 10)
       userIds.slice(i, i + 10)]; the loop makes at most
    [userIds.length] turns. *)
Fixpoint chunksFrom (turns i : nat) (userIds : list string)
  : list (list string) :=
  match turns with
  | O => []
  | S turns' =>
      if decide (i < length userIds)%nat
      then slice i (i + 10) userIds :: chunksFrom turns' (i + 10) userIds
      else []
  end.

Definition chunks (userIds : list string) : list (list string) :=
  chunksFrom (length userIds) 0 userIds.

(** The documents of [query(usersRef, where(documentId(), 'in', chunk))].
    Their order in the snapshot is the backend's; here it is the order in
    which the map lists them, and no property below depends on it. *)
Definition usersIn (chunk : list string) (st : Store)
  : list (string * UserData) :=
  filter (λ e, e.1 ∈ chunk) (map_to_list (coll_users st)).

Definition getUsersByIds (userIds : list string) : Fs (list User) :=
  if decide (length userIds = 0%nat) then mret []
  else
    userSnapshots ←
      mapFs (λ chunk, getDocs ("users?id in " +:+ String.concat "," chunk)
                        (usersIn chunk))
            (chunks userIds);
    mret (concat (map (map (λ e, docToUser e.1 e.2)) userSnapshots)).



(** ** Ending a request or a friendship *)

Definition declineFriendRequest (currentUserId requestingUserId : string)
  : Fs unit :=
  let requestId := requestingUserId +:+ "_" +:+ currentUserId in
  deleteDoc ("friendRequests/" +:+ requestId)
    (set_friendRequests (delete requestId)).

Definition remove_friend (friend : string) (u : UserData) : UserData :=
  mkUserData (u_name u) (u_username u) (u_email u) (u_avatarUrl u)
    (arrayRemove friend (u_friendIds u)) (u_notificationSettings u)
    (u_createdAt u) (u_commentingSuspendedUntil u) (u_lastActiveTimestamp u).

Definition unfriendUser (currentUserId targetUserId : string) : Fs bool :=
  try_catch
    (runTransaction (
       tx_write (upd_user currentUserId (remove_friend targetUserId));;
       tx_write (upd_user targetUserId (remove_friend currentUserId)));;
     mret true)
    (λ _, mret false).

Definition cancelFriendRequest (currentUserId targetUserId : string)
  : Fs bool :=
  let requestId := currentUserId +:+ "_" +:+ targetUserId in
  try_catch
    (deleteDoc ("friendRequests/" +:+ requestId)
       (set_friendRequests (delete requestId));;
     mret true)
    (λ _, mret false).

(** ** Deleting a post *)

Definition deletePost (postId userId : string) : Fs bool :=
  try_catch
    (postDoc ← getDoc ("posts/" +:+ postId) (λ st, coll_posts st !! postId);
     match postDoc with
     | None => throw "Post not found"
     | Some postData =>
         if decide (a_id (p_author postData) ≠ userId) then mret false
         else
           deleteDoc ("posts/" +:+ postId) (set_posts (delete postId));;
           mret true
     end)
    (λ _, mret false).

(** ** Roles and join requests *)

Definition promoteGroupMember (groupId : string) (userToPromote : User)
    (newRole : string) : Fs bool :=
  try_catch
    (runTransaction (
       groupDoc ← tx_get (λ st, coll_groups st !! groupId);
       match groupDoc with
       | None => tx_throw "Group not found"
       | Some groupData =>
           let userObject := memberObject userToPromote in
           let updatedAdmins :=
             without (user_id userToPromote) (g_admins groupData) in
           let updatedModerators :=
             without (user_id userToPromote) (g_moderators groupData) in
           let updatedAdmins :=
             if decide (newRole = "Admin") then updatedAdmins ++ [userObject]
             else updatedAdmins in
           let updatedModerators :=
             if decide (newRole = "Admin") then updatedModerators
             else updatedModerators ++ [userObject] in
           tx_write (upd_group groupId (λ g,
             with_membership (g_members g) (g_memberCount g) updatedAdmins
               updatedModerators g))
       end);;
     mret true)
    (λ _, mret false).

Definition demoteGroupMember (groupId : string) (userToDemote : User)
    (oldRole : string) : Fs bool :=
  try_catch
    (runTransaction (
       groupDoc ← tx_get (λ st, coll_groups st !! groupId);
       match groupDoc with
       | None => tx_throw "Group not found"
       | Some groupData =>
           if decide (oldRole = "Admin") then
             let updatedAdmins :=
               without (user_id userToDemote) (g_admins groupData) in
             tx_write (upd_group groupId (λ g,
               with_membership (g_members g) (g_memberCount g) updatedAdmins
                 (g_moderators g) g))
           else
             let updatedModerators :=
               without (user_id userToDemote) (g_moderators groupData) in
             tx_write (upd_group groupId (λ g,
               with_membership (g_members g) (g_memberCount g) (g_admins g)
                 updatedModerators g))
       end);;
     mret true)
    (λ _, mret false).

Definition rejectJoinRequest (groupId userId : string) : Fs bool :=
  try_catch
    (runTransaction (
       groupDoc ← tx_get (λ st, coll_groups st !! groupId);
       match groupDoc with
       | None => tx_throw "Group not found"
       | Some groupData =>
           let updatedRequests :=
             filter (λ r, a_id (jr_user r) ≠ userId)
                    (default [] (g_joinRequests groupData)) in
           tx_write (upd_group groupId (with_joinRequests updatedRequests))
       end);;
     mret true)
    (λ _, mret false).

End Service.

(* ===================================================================== *)
(** * The service module with day-sharded notifications                   *)
(* ===================================================================== *)

(** The second copy of the service module: it has [getDailyCollectionName],
    [_createNotification] and the sharded [listenToNotifications] and
    [markNotificationsAsRead]. *)
Module Sharded.
Import JsDate Firestore.

(** ** Helpers *)

(** The argument of [getDailyCollectionName]: [Date | string]. *)
Inductive DateArg :=
| ADate (d : JsDate.date)
| AString (s : string).

Definition getDailyCollectionName (date : DateArg) : string :=
  let d := match date with
           | AString s => JsDate.ofString s
           | ADate d => d
           end in
  let year := numToString (getUTCFullYear d) in
  let month := padStart 2 "0" (numToString ((λ m, m + 1) <$> getUTCMonth d)) in
  let day := padStart 2 "0" (numToString (getUTCDate d)) in
  "notifications_" +:+ year +:+ "_" +:+ month +:+ "_" +:+ day.

Record NotificationOptions := mkOptions {
  o_post : option (string * string);
  o_comment : option (string * string);
  o_groupId : option string;
  o_groupName : option string;
  o_campaignName : option string;
  o_rejectionReason : option string;
  o_message : option string;
}.

Definition noOptions : NotificationOptions :=
  mkOptions None None None None None None None.

(** [x !== false] *)
Definition notFalse (x : option bool) : bool :=
  match x with
  | Some false => false
  | _ => true
  end.

Fixpoint property {V} (table : list (string * V)) (key : string) : option V :=
  match table with
  | [] => None
  | (k, v) :: rest => if decide (k = key) then Some v else property rest key
  end.

Definition noSettings : NotificationSettings :=
  mkSettings None None None None None.

Definition isEnabled (settings : NotificationSettings) (type : string) : bool :=
  default true
    (property
       [("like", notFalse (likes settings));
        ("comment", notFalse (comments settings));
        ("mention", true);
        ("friend_request", notFalse (friendRequests settings));
        ("friend_request_approved", true);
        ("campaign_approved", notFalse (campaignUpdates settings));
        ("campaign_rejected", notFalse (campaignUpdates settings));
        ("admin_announcement", true);
        ("admin_warning", true);
        ("group_post", notFalse (groupPosts settings));
        ("group_join_request", true);
        ("group_request_approved", true)]
       type).

Definition put_shard (collectionName id : string) (n : ShardNotification)
    (st : Store) : Store :=
  set_shards
    (λ m, <[collectionName := <[id := n]> (default ∅ (m !! collectionName))]> m)
    st.

Definition _createNotification (recipientId type : string) (actor : User)
    (options : NotificationOptions) : Fs unit :=
  if decide (recipientId = user_id actor) then mret ()
  else
    try_catch
      (recipientDoc ← getDoc ("users/" +:+ recipientId)
                        (λ st, coll_users st !! recipientId);
       match recipientDoc with
       | None => mret ()
       | Some recipient =>
           let settings :=
             default noSettings (u_notificationSettings recipient) in
           if negb (isEnabled settings type) then mret ()
           else
             today ← newDate;
             let collectionName := getDailyCollectionName (ADate (ofTime today)) in
             let actorInfo :=
               mkAuthor (user_id actor) (u_name (user_data actor))
                 (u_avatarUrl (user_data actor))
                 (u_username (user_data actor)) in
             now ← newDate;
             let notificationData :=
               mkShardNotification recipientId type actorInfo false
                 (FsString (toISOString now)) (o_post options)
                 (o_comment options) (o_groupId options)
                 (o_groupName options) (o_campaignName options)
                 (o_rejectionReason options) (o_message options) in
             addDoc collectionName
               (λ id, put_shard collectionName id notificationData);;
             mret ()
       end)
      (λ _, mret ()).

(** ** Notifications (sharded daily) *)

(** The client-side [Notification]: [{ id, ...data, createdAt }]; the
    [createdAt] of the object shadows that of the document data. *)
Record Notification := mkNotification {
  n_id : string;
  n_createdAt : string;
  n_doc : ShardNotification;
}.

(** A JavaScript [Map] with string keys: entries in insertion order. *)
Definition JsMap (V : Type) : Type := list (string * V).

Fixpoint map_set {V} (k : string) (v : V) (m : JsMap V) : JsMap V :=
  match m with
  | [] => [(k, v)]
  | (k', v') :: m' =>
      if decide (k' = k) then (k, v) :: m' else (k', v') :: map_set k v m'
  end.

Definition map_has {V} (k : string) (m : JsMap V) : bool :=
  bool_decide (is_Some (property m k)).

Definition map_delete {V} (k : string) (m : JsMap V) : JsMap V :=
  filter (λ e, e.1 ≠ k) m.

Definition map_values {V} (m : JsMap V) : list V := m.*2.

(** [Array.prototype.sort(compareFn)]: a stable sort.  [compareFn a b] is
    [None] when the comparator yields NaN, which [sort] reads as 0. *)
Section sort.
Context {A : Type} (compareFn : A -> A -> option Z).

Definition precedes (a b : A) : bool :=
  match compareFn a b with
  | Some v => v <=? 0
  | None => true
  end.

Fixpoint sort_insert (x : A) (l : list A) : list A :=
  match l with
  | [] => [x]
  | y :: l' => if precedes x y then x :: y :: l' else y :: sort_insert x l'
  end.

Fixpoint sort (l : list A) : list A :=
  match l with
  | [] => []
  | x :: l' => sort_insert x (sort l')
  end.
End sort.

(** [(a, b) => new Date(b.createdAt).getTime()
             - new Date(a.createdAt).getTime()] *)
Definition newestFirst (a b : Notification) : option Z :=
  tb ← getTime (ofString (n_createdAt b));
  ta ← getTime (ofString (n_createdAt a));
  Some (tb - ta).

Definition processAndCallback (dailyNotifications : JsMap (list Notification))
  : list Notification :=
  let combined := concat (map_values dailyNotifications) in
  take 50 (sort newestFirst combined).

(** The collection the [i]-th turn of the loop subscribes to. *)
Definition shardOfTurn (i : nat) : Fs string :=
  date ← newDate;
  tz ← localTZA;
  let date := setDate tz date (getDate tz date - Z.of_nat i) in
  mret (getDailyCollectionName (ADate (ofTime date))).

Fixpoint subscribe (userId : string) (turns : list nat) : Fs (list string) :=
  match turns with
  | [] => mret []
  | i :: rest =>
      collectionName ← shardOfTurn i;
      api (OnSnapshot (collectionName +:+ "?recipientId==" +:+ userId));;
      names ← subscribe userId rest;
      mret (collectionName :: names)
  end.

(** Registers the thirty listeners; the value is the list of the
    collections listened to, in the order of the loop. *)
Definition listenToNotifications (userId : string) : Fs (list string) :=
  subscribe userId (seq 0 30).

(** What the backend hands to the listener of one collection. *)
Definition queryShard (collectionName userId : string) (st : Store)
  : list (string * ShardNotification) :=
  filter (λ e, sn_recipientId e.2 = userId)
         (map_to_list (default ∅ (coll_shards st !! collectionName))).

Definition toNotification (doc : string * ShardNotification)
  : Fs Notification :=
  createdAt ←
    match sn_createdAt doc.2 with
    | FsTimestamp ms => mret (toISOString ms)
    | FsString _ => now ← newDate; mret (toISOString now)
    end;
  mret (mkNotification doc.1 createdAt doc.2).

Fixpoint mapFs {A B} (f : A -> Fs B) (l : list A) : Fs (list B) :=
  match l with
  | [] => mret []
  | x :: l' => y ← f x; ys ← mapFs f l'; mret (y :: ys)
  end.

(** The listener of [collectionName] receives a snapshot: the new state
    of [dailyNotifications] and the list handed to [callback]. *)
Definition onSnapshotNext (collectionName : string)
    (docs : list (string * ShardNotification))
    (dailyNotifications : JsMap (list Notification))
  : Fs (JsMap (list Notification) * list Notification) :=
  notifications ← mapFs toNotification docs;
  let daily := map_set collectionName notifications dailyNotifications in
  mret (daily, processAndCallback daily).

(** The listener of [collectionName] receives an error. *)
Definition onSnapshotError (collectionName : string)
    (dailyNotifications : JsMap (list Notification))
  : JsMap (list Notification) * option (list Notification) :=
  if map_has collectionName dailyNotifications then
    let daily := map_delete collectionName dailyNotifications in
    (daily, Some (processAndCallback daily))
  else (dailyNotifications, None).

Definition mark_read (n : ShardNotification) : ShardNotification :=
  mkShardNotification (sn_recipientId n) (sn_type n) (sn_user n) true
    (sn_createdAt n) (sn_post n) (sn_comment n) (sn_groupId n)
    (sn_groupName n) (sn_campaignName n) (sn_rejectionReason n)
    (sn_message n).

Definition upd_shard (collectionName id : string)
    (f : ShardNotification -> ShardNotification) : Write :=
  λ st,
    shard ← coll_shards st !! collectionName;
    n ← shard !! id;
    Some (set_shards <[collectionName := <[id := f n]> shard]> st).

Definition groupByCollection (notificationsToMark : list Notification)
  : JsMap (list string) :=
  foldl (λ grouped n,
           let collectionName := getDailyCollectionName (AString (n_createdAt n)) in
           let grouped :=
             if map_has collectionName grouped then grouped
             else map_set collectionName [] grouped in
           map_set collectionName
             (default [] (property grouped collectionName) ++ [n_id n]) grouped)
        [] notificationsToMark.

(** The documents [markNotificationsAsRead] updates, as
    (collection, id) pairs in the order of the batch. *)
Definition markTargets (notificationsToMark : list Notification)
  : list (string * string) :=
  '(collectionName, ids) ← groupByCollection notificationsToMark;
  id ← ids;
  [(collectionName, id)].

Definition markNotificationsAsRead (userId : string)
    (notificationsToMark : list Notification) : Fs unit :=
  if decide (length notificationsToMark = 0%nat) then mret ()
  else
    let targets := markTargets notificationsToMark in
    batchCommit (map (λ t, t.1 +:+ "/" +:+ t.2) targets)
                (map (λ t, upd_shard t.1 t.2 mark_read) targets).

Definition isUsernameTaken (username : string) : Fs bool :=
  usernameDoc ← getDoc ("usernames/" +:+ Service.toLowerCase username)
                  (λ st, coll_usernames st !! Service.toLowerCase username);
  mret (bool_decide (is_Some usernameDoc)).

Definition getUserProfileById (uid : string) : Fs (option User) :=
  userDoc ← getDoc ("users/" +:+ uid) (λ st, coll_users st !! uid);
  mret (Service.docToUser uid <$> userDoc).

(** ** Mentions *)

(** [\w] *)
Definition isWordChar (c : ascii) : bool :=
  let n := nat_of_ascii c in
  ((48 <=? n) && (n <=? 57) || (65 <=? n) && (n <=? 90)
   || (97 <=? n) && (n <=? 122) || (n =? 95))%nat.

(** A mention that has been read up to here, if it has a name. *)
Definition emit (cur : option string) : list string :=
  match cur with
  | Some (String c name) => ["@" +:+ String c name]
  | _ => []
  end.

(** [text.match(/@([\w_]+)/g) || []]: the matches from left to right.
    [cur] is the name read since the last [@], when the scan is past an
    [@] with only word characters after it. *)
Fixpoint matchMentions (cur : option string) (text : string) : list string :=
  match text with
  | EmptyString => emit cur
  | String c rest =>
      if isWordChar c then
        matchMentions ((λ name, name +:+ String c "") <$> cur) rest
      else
        emit cur
        ++ matchMentions (if decide (c = "@"%char) then Some "" else None) rest
  end.

(** [m.substring(1)] *)
Definition substring1 (m : string) : string :=
  match m with
  | EmptyString => EmptyString
  | String _ rest => rest
  end.

(** [[...new Set(l)]]: the first occurrence of each element, in order. *)
Definition unique (l : list string) : list string :=
  foldl (λ seen x, if decide (x ∈ seen) then seen else seen ++ [x]) [] l.

Fixpoint lookupUsernames (usernames : list string) : Fs (list string) :=
  match usernames with
  | [] => mret []
  | username :: rest =>
      userDoc ← getDoc ("usernames/" +:+ username)
                  (λ st, coll_usernames st !! username);
      userIds ← lookupUsernames rest;
      mret (match userDoc with
            | Some userId => userId :: userIds
            | None => userIds
            end)
  end.

Definition _parseMentions (text : string) : Fs (list string) :=
  let mentions := matchMentions None text in
  if decide (mentions = []) then mret []
  else
    let usernames :=
      map (λ m, Service.toLowerCase (substring1 m)) mentions in
    lookupUsernames (unique usernames).

(** ** Chats *)

(** The comparison of [Array.prototype.sort()] without a comparator: by
    the strings' code units. *)
Definition compareStrings (a b : string) : option Z :=
  Some (match String.compare a b with
        | Lt => -1
        | Eq => 0
        | Gt => 1
        end).

(** [[user1Id, user2Id].sort().join('_')] *)
Definition getChatId (user1Id user2Id : string) : string :=
  String.concat "_" (sort compareStrings [user1Id; user2Id]).

(** ** Ending a friendship *)

Definition unfriendUser (currentUserId targetUserId : string) : Fs bool :=
  try_catch
    (batchCommit ["users/" +:+ currentUserId; "users/" +:+ targetUserId]
       [upd_user currentUserId (Service.remove_friend targetUserId);
        upd_user targetUserId (Service.remove_friend currentUserId)];;
     mret true)
    (λ _, mret false).

(** ** [_createNotification] for any actor and options

    The parameter [actor] is typed [User], but call sites also pass objects
    with fewer fields, such as [{ id: 'admin', name: 'VoiceBook Admin' } as
    User], and options whose nested object holds [undefined], such as
    [comment: { id, text: newComment.text?.substring(0, 50) }] for a comment
    without text.  A field of the actor that is [undefined] ends up inside
    the nested [user] object of the document.  [removeUndefined] drops
    [undefined] at the top level only, and the backend client, set up here
    without [ignoreUndefinedProperties], rejects a document that holds
    [undefined]: [addDoc] throws before anything is sent, inside the
    [try].  A write that is sent is taken to be accepted. *)
Record Actor := mkActor {
  actor_id : option string;
  actor_name : option string;
  actor_avatarUrl : option string;
  actor_username : option string;
}.

(** A [User] with all its fields, as an actor. *)
Definition actorOf (u : User) : Actor :=
  mkActor (Some (user_id u)) (Some (u_name (user_data u)))
    (Some (u_avatarUrl (user_data u))) (Some (u_username (user_data u))).

(** [actorInfo], when none of its four fields is [undefined]. *)
Definition actorInfo (actor : Actor) : option Author :=
  id ← actor_id actor;
  name ← actor_name actor;
  avatarUrl ← actor_avatarUrl actor;
  username ← actor_username actor;
  Some (mkAuthor id name avatarUrl username).

(** The options as a caller gives them: a nested object has its two keys,
    each of which may hold [undefined]. *)
Definition Nested : Type := option string * option string.

Record GivenOptions := mkGiven {
  g_post : option Nested;
  g_comment : option Nested;
  g_groupId : option string;
  g_groupName : option string;
  g_campaignName : option string;
  g_rejectionReason : option string;
  g_message : option string;
}.

Definition givenOf (o : NotificationOptions) : GivenOptions :=
  mkGiven ((λ p, (Some p.1, Some p.2)) <$> o_post o)
    ((λ c, (Some c.1, Some c.2)) <$> o_comment o)
    (o_groupId o) (o_groupName o) (o_campaignName o) (o_rejectionReason o)
    (o_message o).

(** A nested object as the backend client takes it: an option left out is
    dropped by [removeUndefined]; an object with an [undefined] inside is
    rejected ([None]). *)
Definition nested (n : option Nested) : option (option (string * string)) :=
  match n with
  | None => Some None
  | Some (Some a, Some b) => Some (Some (a, b))
  | Some _ => None
  end.

Definition _createNotificationFrom (recipientId type : string) (actor : Actor)
    (options : GivenOptions) : Fs unit :=
  if decide (actor_id actor = Some recipientId) then mret ()
  else
    try_catch
      (recipientDoc ← getDoc ("users/" +:+ recipientId)
                        (λ st, coll_users st !! recipientId);
       match recipientDoc with
       | None => mret ()
       | Some recipient =>
           let settings :=
             default noSettings (u_notificationSettings recipient) in
           if negb (isEnabled settings type) then mret ()
           else
             today ← newDate;
             let collectionName := getDailyCollectionName (ADate (ofTime today)) in
             now ← newDate;
             match actorInfo actor, nested (g_post options),
                   nested (g_comment options) with
             | Some actorInfo, Some post, Some comment =>
                 let notificationData :=
                   mkShardNotification recipientId type actorInfo false
                     (FsString (toISOString now)) post comment
                     (g_groupId options) (g_groupName options)
                     (g_campaignName options) (g_rejectionReason options)
                     (g_message options) in
                 addDoc collectionName
                   (λ id, put_shard collectionName id notificationData);;
                 mret ()
             | _, _, _ => throw "invalid-argument"
             end
       end)
      (λ _, mret ()).

(** ** [listenToNotifications] in a time zone

    [getDate] and [setDate] work in the local time of the device, whose
    offset from UTC changes with daylight saving. *)
Definition shardOfTurnIn (zone : Zone) (i : nat) : Fs string :=
  date ← newDate;
  let date := setDateIn zone date (getDateIn zone date - Z.of_nat i) in
  mret (getDailyCollectionName (ADate (ofTime date))).

Fixpoint subscribeIn (zone : Zone) (userId : string) (turns : list nat)
  : Fs (list string) :=
  match turns with
  | [] => mret []
  | i :: rest =>
      collectionName ← shardOfTurnIn zone i;
      api (OnSnapshot (collectionName +:+ "?recipientId==" +:+ userId));;
      names ← subscribeIn zone userId rest;
      mret (collectionName :: names)
  end.

Definition listenToNotificationsIn (zone : Zone) (userId : string)
  : Fs (list string) :=
  subscribeIn zone userId (seq 0 30).

End Sharded.

(* ===================================================================== *)
(** * Observations                                                        *)
(* ===================================================================== *)

(** What the properties below look at in a store. *)
Module Observe.
Import Firestore.

(** The reactions map of a post, [post.reactions || {}]. *)
Definition reactionsOf (st : Store) (postId : string) : gmap string string :=
  default ∅ (coll_posts st !! postId ≫= p_reactions).

(** The poll of a post. *)
Definition pollOf (st : Store) (postId : string) : option Poll :=
  coll_posts st !! postId ≫= p_poll.

(** [memberCount] equals the length of [members] in group [groupId]. *)
Definition counterAgrees (st : Store) (groupId : string) : Prop :=
  exists g, coll_groups st !! groupId = Some g
            /\ g_memberCount g = Z.of_nat (length (g_members g)).

(** The notification stored under [collectionName/id]. *)
Definition storedNotification (st : Store) (collectionName id : string)
  : option ShardNotification :=
  match coll_shards st !! collectionName with
  | Some shard => shard !! id
  | None => None
  end.

(** Id, [createdAt] and type of the notifications handed to a callback. *)
Definition summary (delivered : Outcome (list Sharded.Notification))
  : option (list (string * string * string)) :=
  match delivered with
  | Returned l =>
      Some (map (λ n, (Sharded.n_id n, Sharded.n_createdAt n,
                       sn_type (Sharded.n_doc n))) l)
  | Thrown _ => None
  end.



(** A call that is a real-time listener or a transaction. *)
Definition listenerOrTransaction (c : ApiCall) : Prop :=
  is_listener c = true \/ is_transaction c = true.

(** The calls an operation adds to the log of world [w]. *)
Definition issued {A} (op : Fs A) (w : World) : list ApiCall :=
  drop (length (calls w)) (calls (op w).2).

(** The list an operation returned, empty when it threw. *)
Definition returned {A} (result : Outcome (list A) * World) : list A :=
  match result.1 with
  | Returned l => l
  | Thrown _ => []
  end.

(** The votes of a poll agree with its lists of voters, and nobody is
    listed twice. *)
Definition pollConsistent (poll : Poll) : Prop :=
  Forall (λ o, po_votes o = Z.of_nat (length (po_votedBy o)))
         (poll_options poll)
  /\ NoDup (concat (map po_votedBy (poll_options poll))).

(** The comments of a post, [post.comments || []]. *)
Definition commentsOf (st : Store) (postId : string) : list Comment :=
  default [] (coll_posts st !! postId ≫= p_comments).

(** No user of the group is listed both as admin and as moderator. *)
Definition rolesDisjoint (g : GroupData) : Prop :=
  forall a m, a ∈ g_admins g -> m ∈ g_moderators g -> a_id a ≠ a_id m.

(** The user is in none of the lists of the group. *)
Definition absentFrom (g : GroupData) (userId : string) : Prop :=
  (userId ∉ a_id <$> g_members g)
  /\ (userId ∉ a_id <$> g_admins g)
  /\ (userId ∉ a_id <$> g_moderators g).

(** A time field as handed to the client: the ISO string of the stored
    [Timestamp], or, when the stored value is no [Timestamp], the ISO string
    of a reading of the clock of [w]. *)
Definition isoOf (w : World) (stored client : option FsTime) : Prop :=
  match stored with
  | Some (FsTimestamp ms) => client = Some (FsString (JsDate.toISOString ms))
  | _ => exists k, client = Some (FsString (JsDate.toISOString (clock w k)))
  end.

(** [client] is the stored comment as handed to the client: all its
    fields, with [createdAt] as an ISO string. *)
Definition clientComment (w : World) (stored client : Comment) : Prop :=
  c_id client = c_id stored
  /\ c_author client = c_author stored
  /\ c_text client = c_text stored
  /\ c_reactions client = c_reactions stored
  /\ isoOf w (c_createdAt stored) (c_createdAt client).

(** [post] is the document [data] of [posts/id] as handed to the client:
    all its fields under its id, with the dates as ISO strings and the
    defaults [{}], [[]] and [0] for missing reactions, comments and
    comment count. *)
Definition clientPost (w : World) (id : string) (data : PostData) (post : Post)
  : Prop :=
  post_id post = id
  /\ p_author (post_data post) = p_author data
  /\ p_caption (post_data post) = p_caption data
  /\ isoOf w (p_createdAt data) (p_createdAt (post_data post))
  /\ p_reactions (post_data post) = Some (default ∅ (p_reactions data))
  /\ (exists comments,
        p_comments (post_data post) = Some comments
        /\ Forall2 (clientComment w) (default [] (p_comments data)) comments)
  /\ p_commentCount (post_data post) = Some (default 0 (p_commentCount data))
  /\ p_poll (post_data post) = p_poll data.

(** Every character of [s] is a word character, [\w]. *)
Definition wordChars (s : string) : Prop :=
  Forall (λ c, Sharded.isWordChar c = true) (list_ascii_of_string s).

(** A run of word characters cannot go on into [rest]: [rest] is empty or
    starts with a character that is no word character. *)
Definition endsWord (rest : string) : Prop :=
  match rest with
  | EmptyString => True
  | String c _ => Sharded.isWordChar c = false
  end.




End Observe.

(* ===================================================================== *)
(** * Sample data                                                         *)
(* ===================================================================== *)

Module Samples.
Import JsDate Firestore Service Sharded.

Definition sampleBlob : Blob := mkBlob "image/png" "89504e47".

Definition sampleFetch (r : Request) : option Response :=
  if decide (req_method r = "POST") then
    Some (mkResponse true
            (Some (<["secure_url" := "https://res.cloudinary.com/deeieh2bd/a.png"]>
                     (<["resource_type" := "image"]> ∅))))
  else None.

Definition aliceData : UserData :=
  mkUserData "Alice" "alice" "alice@example.com" "a.png" [] None None None None.

Definition bobData : UserData :=
  mkUserData "Bob" "bob" "bob@example.com" "b.png" []
    (Some (mkSettings (Some false) None None None None)) None None None.

Definition alice : User := mkUser "u1" aliceData.
Definition bob : User := mkUser "u2" bobData.

Definition aliceMember : Author := memberObject alice.
Definition bobMember : Author := memberObject bob.

Definition sampleUsers : gmap string UserData :=
  <["u1" := aliceData]> (<["u2" := bobData]> ∅).

(** 2024-12-31T23:59:59.999Z, the last millisecond of a UTC day. *)
Definition lastMs : Z := 1735689599999.

Definition sampleIds (n : nat) : string := "id" +:+ pretty n.

Definition worldOf (st : Store) (firstRead : Z) : World :=
  mkWorld st [] (λ n, firstRead + Z.of_nat n) 21600000 sampleIds.

Definition usersOnly : Store := set_users (λ _, sampleUsers) emptyStore.

(** A world whose clock stands still at [t]. *)
Definition frozenAt (st : Store) (t : Z) : World :=
  mkWorld st [] (λ _, t) 21600000 sampleIds.

(** The world [w] at a later time: the clock now reads [t]. *)
Definition laterOn (w : World) (t : Z) : World :=
  mkWorld (store w) (calls w) (λ n, t + Z.of_nat n) (tza w) (ids w).

(** Bob likes a post of Alice on 30 December 2024 at 10:00 UTC and comments
    on it on 31 December at 10:00 UTC. *)
Definition afterLike : World :=
  (_createNotification "u1" "like" bob noOptions
     (worldOf usersOnly 1735552800000)).2.

Definition afterComment : World :=
  (_createNotification "u1" "comment" bob noOptions
     (laterOn afterLike 1735639200000)).2.

(** Alice's listener receives, on 31 December at 12:00 UTC, the snapshot of
    the collection of 31 December and then that of 30 December. *)
Definition twoSnapshots : Outcome (list Notification) :=
  let w := laterOn afterComment 1735646400000 in
  let first :=
    onSnapshotNext "notifications_2024_12_31"
      (queryShard "notifications_2024_12_31" "u1" (store w)) [] in
  let second daily :=
    onSnapshotNext "notifications_2024_12_30"
      (queryShard "notifications_2024_12_30" "u1" (store w)) daily in
  (('(daily, _) ← first; '(_, delivered) ← second daily; mret delivered) w).1.

Definition likedPost : PostData :=
  mkPostData aliceMember (Some "hello") (Some (FsTimestamp 1735600000000))
    (Some (<["u2" := "like"]> ∅)) None None None.

Definition withPost : Store := set_posts <["p1" := likedPost]> usersOnly.

Definition samplePoll : Poll :=
  mkPoll "Tea or coffee?"
    [mkPollOption "tea" 1 ["u2"]; mkPollOption "coffee" 0 []].

Definition pollPost : PostData :=
  mkPostData aliceMember (Some "vote") (Some (FsTimestamp 1735600000000))
    None None None (Some samplePoll).

Definition withPoll : Store := set_posts <["p2" := pollPost]> usersOnly.

(** A group as [createGroup] leaves it: Alice is its only member. *)
Definition clubData : GroupData :=
  mkGroupData aliceMember "Club" "A club" "club.png" "public" false "General"
    [aliceMember] 1 [aliceMember] [] (FsTimestamp 1735600000000) None None.

Definition withGroup : Store := set_groups <["g1" := clubData]> usersOnly.

(** Bob has asked Alice to be his friend. *)
Definition pendingRequest : FriendRequest :=
  mkFriendRequest bobMember aliceMember "pending" 1735600000000.

Definition withRequest : Store :=
  set_friendRequests <["u2_u1" := pendingRequest]> usersOnly.

(** Alice has accepted Bob's request. *)
Definition befriended : World :=
  (Service.acceptFriendRequest "u1" "u2" (worldOf withRequest 0)).2.

(** A post of Alice with one comment, by Bob. *)
Definition sampleComment : Comment :=
  mkComment "c1" bobMember (Some "nice") (Some (FsTimestamp 1735600000000))
    None.

Definition commentedPost : PostData :=
  mkPostData aliceMember (Some "hello") (Some (FsTimestamp 1735600000000))
    None (Some [sampleComment]) (Some 1) None.

Definition withComment : Store := set_posts <["p3" := commentedPost]> usersOnly.

(** Bob has asked to join Alice's club. *)
Definition askedClub : GroupData :=
  mkGroupData aliceMember "Club" "A club" "club.png" "private" true "General"
    [aliceMember] 1 [aliceMember] [] (FsTimestamp 1735600000000)
    (Some [mkJoinRequest bobMember ["hello"]]) None.

Definition withJoinRequest : Store := set_groups <["g1" := askedClub]> usersOnly.


(** The options of a notification about a comment that has no text:
    [comment: { id, text: undefined }]. *)
Definition voiceCommentOptions : GivenOptions :=
  mkGiven (Some (Some "p1", Some "hello")) (Some (Some "c1", None))
    None None None None None.

(** Europe/London in 2024: summer time, one hour ahead of UTC, from
    31 March 01:00 UTC to 27 October 01:00 UTC.  A local time that the
    change skips or repeats is read with the offset in effect before the
    change. *)
Definition london2024 : Zone :=
  mkZone
    (λ t, if (1711846800000 <=? t) && (t <? 1729990800000)
          then 3600000 else 0)
    (λ t, if (1711850400000 <=? t) && (t <? 1729994400000)
          then 3600000 else 0).

End Samples.

(* ===================================================================== *)
(** * Properties                                                          *)
(* ===================================================================== *)

Module JsDateFacts.
Import JsDate.

Lemma DayFromYear_succ y : DayFromYear (y + 1) = DayFromYear y + DaysInYear y.
Proof.
  unfold DayFromYear, DaysInYear.
  destruct (Z.eqb_spec (y `mod` 4) 0), (Z.eqb_spec (y `mod` 100) 0),
    (Z.eqb_spec (y `mod` 400) 0); simpl; Z.div_mod_to_equations; lia.
Qed.

Lemma DaysInYear_bounds y : 365 <= DaysInYear y <= 366.
Proof. unfold DaysInYear. repeat case_match; lia. Qed.

Lemma year_search_spec fuel : forall y day,
  DayFromYear y <= day -> day < DayFromYear y + 365 * Z.of_nat fuel ->
  DayFromYear (year_search fuel y day) <= day
  < DayFromYear (year_search fuel y day + 1).
Proof.
  induction fuel as [|f IH]; intros y day Hlo Hhi; simpl.
  - lia.
  - destruct (Z.leb_spec (DayFromYear (y + 1)) day).
    + apply IH; [lia|]. rewrite DayFromYear_succ.
      pose proof (DaysInYear_bounds y). lia.
    + lia.
Qed.

Lemma YearFromDay_spec day :
  DayFromYear (YearFromDay day) <= day < DayFromYear (YearFromDay day + 1).
Proof.
  unfold YearFromDay. apply year_search_spec.
  - unfold DayFromYear. Z.div_mod_to_equations. lia.
  - unfold DayFromYear. rewrite Z2Nat.id by (Z.div_mod_to_equations; lia).
    Z.div_mod_to_equations. lia.
Qed.

Lemma DayWithinYear_bounds t :
  0 <= DayWithinYear t < DaysInYear (YearFromTime t).
Proof.
  unfold DayWithinYear, YearFromTime.
  pose proof (YearFromDay_spec (Day t)) as H.
  rewrite DayFromYear_succ in H. lia.
Qed.

Lemma InLeapYear_cases t :
  (InLeapYear t = 1 /\ DaysInYear (YearFromTime t) = 366) \/
  (InLeapYear t = 0 /\ DaysInYear (YearFromTime t) = 365).
Proof.
  unfold InLeapYear. pose proof (DaysInYear_bounds (YearFromTime t)).
  destruct (Z.eqb_spec (DaysInYear (YearFromTime t)) 366); lia.
Qed.

Lemma month_of_bounds dwy l : 0 <= month_of dwy l <= 11.
Proof. unfold month_of. repeat case_match; lia. Qed.

Lemma MonthFromTime_bounds t : 0 <= MonthFromTime t <= 11.
Proof. apply month_of_bounds. Qed.

Lemma month_of_date dwy l :
  0 <= dwy < 365 + l -> 0 <= l <= 1 ->
  1 <= dwy - monthStart (month_of dwy l) l + 1 <= 31.
Proof.
  intros Hd Hl. unfold month_of.
  repeat (match goal with
          | |- context [?a <? ?b] => destruct (Z.ltb_spec a b)
          end; simpl; try lia).
Qed.

Lemma DateFromTime_bounds t : 1 <= DateFromTime t <= 31.
Proof.
  unfold DateFromTime, MonthFromTime.
  pose proof (DayWithinYear_bounds t). pose proof (InLeapYear_cases t).
  apply month_of_date; lia.
Qed.

(** [MakeDay] rebuilds the day number from the civil date, and is linear in
    the day of the month. *)
Lemma MakeDay_fields t k :
  MakeDay (YearFromTime t) (MonthFromTime t) (DateFromTime t + k) = Day t + k.
Proof.
  pose proof (MonthFromTime_bounds t) as Hm.
  unfold MakeDay.
  rewrite Z.div_small, Z.mod_small, Z.add_0_r by lia.
  fold (InLeapYear t). unfold DateFromTime, DayWithinYear. lia.
Qed.

Lemma Day_TimeWithinDay t : MakeDate (Day t) (TimeWithinDay t) = t.
Proof.
  unfold MakeDate, Day, TimeWithinDay, msPerDay.
  Z.div_mod_to_equations. lia.
Qed.

(** [date.setDate(date.getDate() - i)] moves the date back by exactly [i]
    days when local time is at a fixed offset from UTC. *)
Lemma setDate_getDate_minus tza t i :
  setDate tza t (getDate tza t - i) = t - i * msPerDay.
Proof.
  unfold setDate, getDate, UTC.
  replace (DateFromTime (LocalTime tza t) - i)
    with (DateFromTime (LocalTime tza t) + - i) by lia.
  rewrite MakeDay_fields.
  pose proof (Day_TimeWithinDay (LocalTime tza t)) as H.
  unfold MakeDate, LocalTime in *. lia.
Qed.

Lemma Day_shift t i : Day (t - i * msPerDay) = Day t - i.
Proof.
  unfold Day, msPerDay. Z.div_mod_to_equations. lia.
Qed.

Lemma four_digit_year_range t :
  four_digit_year t -> 0 <= YearFromTime t <= 9999.
Proof.
  unfold four_digit_year, YearFromTime. intros Ht.
  pose proof (YearFromDay_spec (Day t)) as H.
  assert (-719528 <= Day t <= 2932896) as Hd
    by (unfold Day, msPerDay; Z.div_mod_to_equations; lia).
  revert H. generalize (YearFromDay (Day t)) as y. intros y.
  unfold DayFromYear. Z.div_mod_to_equations. lia.
Qed.

(** ** Digits and the ISO format *)

Lemma digit_val_digit n : digit_val (digit n) = Some (n `mod` 10).
Proof.
  unfold digit. pose proof (Z.mod_pos_bound n 10 ltac:(lia)) as Hb.
  assert (n `mod` 10 = 0 \/ n `mod` 10 = 1 \/ n `mod` 10 = 2 \/
          n `mod` 10 = 3 \/ n `mod` 10 = 4 \/ n `mod` 10 = 5 \/
          n `mod` 10 = 6 \/ n `mod` 10 = 7 \/ n `mod` 10 = 8 \/
          n `mod` 10 = 9) as Hc by lia.
  destruct Hc as [-> | [-> | [-> | [-> | [-> | [-> | [-> | [-> | [-> | ->]]]]]]]]];
    reflexivity.
Qed.

Lemma append_cons c (s r : string) : String c s +:+ r = String c (s +:+ r).
Proof. reflexivity. Qed.

Lemma append_nil (r : string) : "" +:+ r = r.
Proof. reflexivity. Qed.

Lemma read_digits_fixed w : forall n acc rest,
  read_digits w acc (fixed w n +:+ rest)
  = Some (acc * 10 ^ Z.of_nat w + n `mod` 10 ^ Z.of_nat w, rest).
Proof.
  induction w as [|w IH]; intros n acc rest.
  - simpl. f_equal. f_equal. rewrite Z.mod_1_r. lia.
  - cbn [fixed]. rewrite append_cons. cbn [read_digits].
    rewrite digit_val_digit, IH.
    f_equal. f_equal.
    rewrite Nat2Z.inj_succ, Z.pow_succ_r by lia.
    assert (0 < 10 ^ Z.of_nat w) as Hp by (apply Z.pow_pos_nonneg; lia).
    rewrite (Z.mul_comm 10), Z.rem_mul_r by lia. lia.
Qed.

Lemma read_digits_small w n rest :
  0 <= n < 10 ^ Z.of_nat w ->
  read_digits w 0 (fixed w n +:+ rest) = Some (n, rest).
Proof.
  intros Hn. rewrite read_digits_fixed, Z.mod_small by lia. reflexivity.
Qed.

Lemma MakeTime_fields t :
  MakeTime (HourFromTime t) (MinFromTime t) (SecFromTime t) (msFromTime t)
  = TimeWithinDay t.
Proof.
  unfold MakeTime, HourFromTime, MinFromTime, SecFromTime, msFromTime,
    TimeWithinDay, msPerHour, msPerMinute, msPerSecond, msPerDay.
  Z.div_mod_to_equations. lia.
Qed.

Lemma parse_fields y mo d h mi sec ms :
  0 <= y <= 9999 -> 1 <= mo <= 12 -> 1 <= d <= 31 -> 0 <= h <= 23 ->
  0 <= mi <= 59 -> 0 <= sec <= 59 -> 0 <= ms <= 999 ->
  parse (fixed 4 y +:+ "-" +:+ fixed 2 mo +:+ "-" +:+ fixed 2 d +:+ "T"
         +:+ fixed 2 h +:+ ":" +:+ fixed 2 mi +:+ ":" +:+ fixed 2 sec +:+ "."
         +:+ fixed 3 ms +:+ "Z")
  = Some (MakeDate (MakeDay y (mo - 1) d) (MakeTime h mi sec ms)).
Proof.
  intros Hy Hmo Hd Hh Hmi Hs Hms. unfold parse.
  repeat (rewrite read_digits_small by (simpl; lia);
          rewrite ?append_cons, ?append_nil;
          cbn [mbind option_bind expect Ascii.eqb Bool.eqb]).
  destruct (Z.leb_spec 1 mo), (Z.leb_spec mo 12), (Z.leb_spec 1 d),
    (Z.leb_spec d 31), (Z.leb_spec h 23), (Z.leb_spec mi 59),
    (Z.leb_spec sec 59); try lia.
  reflexivity.
Qed.

(** [new Date(d.toISOString())] has the time value of [d]. *)
Lemma parse_toISOString t : four_digit_year t -> parse (toISOString t) = Some t.
Proof.
  intros Ht. pose proof (four_digit_year_range t Ht) as Hy.
  pose proof (MonthFromTime_bounds t). pose proof (DateFromTime_bounds t).
  unfold toISOString, iso_year.
  destruct (Z.leb_spec 0 (YearFromTime t)), (Z.leb_spec (YearFromTime t) 9999);
    try lia.
  cbn [andb]. rewrite parse_fields.
  - replace (MonthFromTime t + 1 - 1) with (MonthFromTime t) by lia.
    pose proof (MakeDay_fields t 0) as Hd. rewrite Z.add_0_r in Hd.
    rewrite Hd, Z.add_0_r, MakeTime_fields, Day_TimeWithinDay. reflexivity.
  - lia.
  - lia.
  - lia.
  - unfold HourFromTime. Z.div_mod_to_equations. lia.
  - unfold MinFromTime. Z.div_mod_to_equations. lia.
  - unfold SecFromTime. Z.div_mod_to_equations. lia.
  - unfold msFromTime, msPerSecond. Z.div_mod_to_equations. lia.
Qed.

End JsDateFacts.

(* ===================================================================== *)
(** * Properties of [services/firebaseService.ts]                         *)
(* ===================================================================== *)

Module ServiceFacts.
Import JsDate Firestore Service Observe Samples.

(** ** The media upload helper *)

(** C7. [uploadMediaToCloudinary] posts the file to the media host; when
    the answer is ok and carries a JSON body it returns the body's
    [secure_url] with its [resource_type]; when the answer is not ok it
    throws, and so returns no URL. *)
Theorem uploadMediaToCloudinary_spec fetch file fileName response :
  fetch (uploadRequest file fileName) = Some response ->
  (req_method (uploadRequest file fileName) = "POST"
   /\ String.prefix "https://api.cloudinary.com/v1_1/deeieh2bd/"
        (req_url (uploadRequest file fileName)) = true
   /\ req_body (uploadRequest file fileName)
      = [("file", FormFile file fileName);
         ("upload_preset", FormText "Voicebook")])
  /\ (ok response = true -> forall data, json response = Some data ->
      uploadMediaToCloudinary fetch file fileName
      = Returned (mkUpload (data !! "secure_url") (data !! "resource_type")))
  /\ (ok response = false ->
      exists e, uploadMediaToCloudinary fetch file fileName = Thrown e).
Proof.
  intros Hfetch. split; [|split].
  - split; [reflexivity|]. split; [|reflexivity].
    unfold uploadRequest.
    destruct (String.prefix "video" _); [reflexivity|].
    destruct (String.prefix "image" _); [reflexivity|].
    destruct (String.prefix "audio" _); reflexivity.
  - intros Hok data Hjson. unfold uploadMediaToCloudinary.
    rewrite Hfetch, Hok, Hjson. reflexivity.
  - intros Hok. unfold uploadMediaToCloudinary. rewrite Hfetch, Hok.
    destruct (json response); eauto.
Qed.

Lemma uploadMediaToCloudinary_spec_witness :
  uploadMediaToCloudinary sampleFetch sampleBlob "a.png"
  = Returned (mkUpload (Some "https://res.cloudinary.com/deeieh2bd/a.png")
                       (Some "image")).
Proof.
  exact (proj1 (proj2 (uploadMediaToCloudinary_spec sampleFetch sampleBlob
                         "a.png" _ eq_refl)) eq_refl _ eq_refl).
Defined.

(** ** Computations that issue no backend call *)

Lemma quiet_ret {A} (a : A) w : calls ((mret a : Fs A) w).2 = calls w.
Proof. reflexivity. Qed.

Lemma quiet_bind {A B} (m : Fs A) (k : A -> Fs B) :
  (forall w, calls (m w).2 = calls w) ->
  (forall a w, calls (k a w).2 = calls w) ->
  forall w, calls ((m ≫= k) w).2 = calls w.
Proof.
  intros Hm Hk w. fs_steps. specialize (Hm w).
  destruct (m w) as [[a|e] w']; cbn in *; [by rewrite Hk|done].
Qed.

Lemma tquiet_bind {A B} (m : Txn A) (k : A -> Txn B) :
  (forall ws w, calls (m ws w).2 = calls w) ->
  (forall a ws w, calls (k a ws w).2 = calls w) ->
  forall ws w, calls ((m ≫= k) ws w).2 = calls w.
Proof.
  intros Hm Hk ws w. fs_steps. specialize (Hm ws w).
  destruct (m ws w) as [[[a ws']|e] w']; cbn in *; [by rewrite Hk|done].
Qed.

Lemma tquiet_ret {A} (a : A) ws w : calls ((mret a : Txn A) ws w).2 = calls w.
Proof. reflexivity. Qed.

Lemma tquiet_get {A} (read : Store -> option A) ws w :
  calls (tx_get read ws w).2 = calls w.
Proof. reflexivity. Qed.

Lemma tquiet_write wr ws w : calls (tx_write wr ws w).2 = calls w.
Proof. reflexivity. Qed.

Lemma tquiet_throw {A} e ws w : calls (tx_throw (A:=A) e ws w).2 = calls w.
Proof. reflexivity. Qed.

Lemma tquiet_lift {A} (m : Fs A) :
  (forall w, calls (m w).2 = calls w) ->
  forall ws w, calls (tx_lift m ws w).2 = calls w.
Proof.
  intros Hm ws w. fs_steps. specialize (Hm w).
  destruct (m w) as [[a|e] w']; done.
Qed.

(** A transaction whose body issues no call of its own is one call. *)
Lemma runTransaction_calls {A} (body : Txn A) w :
  (forall ws w, calls (body ws w).2 = calls w) ->
  calls (runTransaction body w).2 = calls w ++ [RunTransaction].
Proof.
  intros Hbody. fs_steps.
  specialize (Hbody [] (mkWorld (store w) (calls w ++ [RunTransaction])
                                (clock w) (tza w) (ids w))).
  destruct (body [] _) as [[[a ws]|e] w']; cbn in *; [|done].
  destruct (commit ws (store w')); done.
Qed.

Lemma try_catch_calls {A} (m : Fs A) (h : string -> Fs A) w :
  (forall e w, calls (h e w).2 = calls w) ->
  calls (try_catch m h w).2 = calls (m w).2.
Proof.
  intros Hh. unfold try_catch. destruct (m w) as [[a|e] w']; [done|].
  apply Hh.
Qed.

Lemma then_ret_calls {A B} (m : Fs A) (b : B) w :
  calls ((m;; mret b) w).2 = calls (m w).2.
Proof. fs_steps. destruct (m w) as [[a|e] w']; done. Qed.

Lemma autoId_bind_calls {A} (k : string -> Fs A) cs w :
  (forall id w', calls (k id w').2 = calls w' ++ cs) ->
  calls ((autoId ≫= k) w).2 = calls w ++ cs.
Proof. intros Hk. fs_steps. by rewrite Hk. Qed.

(** Reduces a goal on the calls of a transactional operation to its
    branches. *)
Ltac quiet_body :=
  repeat first
    [ apply tquiet_ret | apply tquiet_get | apply tquiet_write
    | apply tquiet_throw | apply quiet_ret
    | apply tquiet_bind; [|intros ?]
    | apply tquiet_lift; [intros ?]
    | intros ? ?
    | progress cbv beta zeta
    | match goal with
      | |- context [match ?x with _ => _ end] => destruct x
      end ].

Ltac transaction_calls :=
  rewrite ?try_catch_calls by (intros; reflexivity);
  rewrite ?then_ret_calls;
  apply runTransaction_calls; quiet_body.

Lemma getUserProfileById_run uid w :
  getUserProfileById uid w
  = (Returned (docToUser uid <$> coll_users (store w) !! uid),
     mkWorld (store w) (calls w ++ [GetDoc ("users/" +:+ uid)]) (clock w)
             (tza w) (ids w)).
Proof. reflexivity. Qed.

(** ** Friends *)

Lemma elem_of_arrayUnion `{EqDecision A} (x : A) (l : list A) :
  x ∈ arrayUnion x l.
Proof.
  unfold arrayUnion. destruct (decide (x ∈ l)); [done|].
  apply elem_of_app. right. by apply list_elem_of_singleton.
Qed.

Lemma arrayUnion_keeps `{EqDecision A} (x y : A) (l : list A) :
  y ∈ l -> y ∈ arrayUnion x l.
Proof.
  intros Hy. unfold arrayUnion. destruct (decide (x ∈ l)); [done|].
  apply elem_of_app. by left.
Qed.

Lemma accept_commit st cur req nid notif rid cu :
  coll_users st !! cur = Some cu ->
  commit [upd_user cur (add_friend req); upd_user req (add_friend cur);
          put_userNotification req nid notif; del_friendRequest rid] st
  = match <[cur := add_friend req cu]> (coll_users st) !! req with
    | Some ru =>
        Some (set_friendRequests (delete rid)
                (set_userNotifications <[(req, nid) := notif]>
                   (set_users
                      (λ _, <[req := add_friend cur ru]>
                              (<[cur := add_friend req cu]> (coll_users st)))
                      st)))
    | None => None
    end.
Proof.
  intros Hcu. unfold commit. cbn [foldl mbind option_bind].
  unfold upd_user at 2. rewrite Hcu. cbn [mbind option_bind].
  unfold upd_user. cbn [coll_users set_users].
  destruct (<[cur:=add_friend req cu]> (coll_users st) !! req); reflexivity.
Qed.

Lemma acceptFriendRequest_calls_aux currentUserId requestingUserId w :
  calls (acceptFriendRequest currentUserId requestingUserId w).2
  = calls w ++ [RunTransaction].
Proof.
  unfold acceptFriendRequest. apply autoId_bind_calls. intros id w'.
  transaction_calls.
Qed.

(** C1. [acceptFriendRequest] issues exactly one backend call, a
    transaction.  When the request document [requestingUserId_currentUserId]
    is missing or not pending it throws and the store is unchanged; more
    generally, whenever it throws the store is unchanged.  When the request
    is pending and both profiles exist it returns, and then each user's id
    is in the other's [friendIds], the requesting user has a new
    [friend_request_approved] notification, the request document is gone,
    and nothing else has changed. *)
Theorem acceptFriendRequest_atomic currentUserId requestingUserId w :
  let requestId := requestingUserId +:+ "_" +:+ currentUserId in
  let result := acceptFriendRequest currentUserId requestingUserId w in
  calls result.2 = calls w ++ [RunTransaction]
  /\ (coll_friendRequests (store w) !! requestId = None
      \/ (exists request,
            coll_friendRequests (store w) !! requestId = Some request
            /\ fr_status request ≠ "pending") ->
      (exists e, result.1 = Thrown e) /\ store result.2 = store w)
  /\ (forall e, result.1 = Thrown e -> store result.2 = store w)
  /\ (forall request cu ru,
        coll_friendRequests (store w) !! requestId = Some request ->
        fr_status request = "pending" ->
        coll_users (store w) !! currentUserId = Some cu ->
        coll_users (store w) !! requestingUserId = Some ru ->
        result.1 = Returned ()
        /\ (exists cu',
              coll_users (store result.2) !! currentUserId = Some cu'
              /\ requestingUserId ∈ u_friendIds cu'
              /\ forall x, x ∈ u_friendIds cu -> x ∈ u_friendIds cu')
        /\ (exists ru',
              coll_users (store result.2) !! requestingUserId = Some ru'
              /\ currentUserId ∈ u_friendIds ru'
              /\ forall x, x ∈ u_friendIds ru -> x ∈ u_friendIds ru')
        /\ (forall other, other ≠ currentUserId -> other ≠ requestingUserId ->
            coll_users (store result.2) !! other = coll_users (store w) !! other)
        /\ coll_userNotifications (store result.2)
           = <[(requestingUserId, ids w O) :=
                 mkUserNotification "friend_request_approved"
                   (mkAuthor currentUserId (u_name cu) (u_avatarUrl cu)
                             (u_username cu))
                   (clock w O) false]> (coll_userNotifications (store w))
        /\ coll_friendRequests (store result.2)
           = delete requestId (coll_friendRequests (store w))
        /\ coll_usernames (store result.2) = coll_usernames (store w)
        /\ coll_posts (store result.2) = coll_posts (store w)
        /\ coll_groups (store result.2) = coll_groups (store w)
        /\ coll_shards (store result.2) = coll_shards (store w)).
Proof.
  intros requestId result. subst result.
  unfold acceptFriendRequest. fold requestId. fs_steps.
  destruct (coll_friendRequests (store w) !! requestId) as [request|] eqn:Hreq.
  2:{ cbn. split; [done|]. split; [eauto|]. split; [done|].
      intros ???; discriminate. }
  destruct (decide (fr_status request = "pending")) as [Hpending|Hhandled].
  2:{ cbn. split; [done|]. split; [eauto|]. split; [done|].
      intros ???? Heq; congruence. }
  fs_steps.
  destruct (coll_users (store w) !! currentUserId) as [cu|] eqn:Hcu.
  2:{ cbn. split; [done|].
      split; [intros [?|(? & ? & ?)]; congruence|]. split; [done|].
      intros ??????; discriminate. }
  unfold serverTimestamp. fs_steps. rewrite (accept_commit _ _ _ _ _ _ _ Hcu).
  destruct (decide (requestingUserId = currentUserId)) as [->|Hne].
  - rewrite lookup_insert_eq. cbn.
    split; [done|]. split; [intros [?|(? & ? & ?)]; congruence|].
    split; [intros ?; discriminate|].
    intros request' cu' ru Hr' _ Hcu' Hru.
    assert (cu' = cu) as -> by congruence. assert (ru = cu) as -> by congruence.
    split; [done|].
    split.
    { eexists. split; [apply lookup_insert_eq|]. cbn. split.
      - apply elem_of_arrayUnion.
      - intros x Hx. by do 2 apply arrayUnion_keeps. }
    split.
    { eexists. split; [apply lookup_insert_eq|]. cbn. split.
      - apply elem_of_arrayUnion.
      - intros x Hx. by do 2 apply arrayUnion_keeps. }
    split; [intros other Ho _; by rewrite !lookup_insert_ne|].
    done.
  - rewrite lookup_insert_ne by done.
    destruct (coll_users (store w) !! requestingUserId) as [ru|] eqn:Hru.
    2:{ cbn. split; [done|]. split; [intros [?|(? & ? & ?)]; congruence|].
        split; [done|]. intros ??????; discriminate. }
    cbn. split; [done|]. split; [intros [?|(? & ? & ?)]; congruence|].
    split; [intros ?; discriminate|].
    intros request' cu' ru' Hr' _ Hcu' Hru'.
    assert (cu' = cu) as -> by congruence. assert (ru' = ru) as -> by congruence.
    split; [done|].
    split.
    { eexists. split; [rewrite lookup_insert_ne by done; apply lookup_insert_eq|].
      cbn. split; [apply elem_of_arrayUnion|].
      intros x Hx. by apply arrayUnion_keeps. }
    split.
    { eexists. split; [apply lookup_insert_eq|].
      cbn. split; [apply elem_of_arrayUnion|].
      intros x Hx. by apply arrayUnion_keeps. }
    split; [intros other Ho1 Ho2; by rewrite !lookup_insert_ne|].
    done.
Qed.

Lemma acceptFriendRequest_atomic_witness :
  exists cu',
    coll_users (store (acceptFriendRequest "u1" "u2" (worldOf withRequest 0)).2)
    !! "u1" = Some cu'
    /\ "u2" ∈ u_friendIds cu'.
Proof.
  destruct (proj2 (proj2 (proj2 (acceptFriendRequest_atomic "u1" "u2"
                                   (worldOf withRequest 0))))
              pendingRequest aliceData bobData eq_refl eq_refl eq_refl eq_refl)
    as (_ & (cu' & Hcu & Hin & _) & _).
  exists cu'. split; [exact Hcu | exact Hin].
Defined.

(** ** Reactions *)

Lemma toggle_lookup userId r (m : gmap string string) :
  toggle userId r m !! userId
  = if decide (m !! userId = Some r) then None else Some r.
Proof.
  unfold toggle. destruct (decide (m !! userId = Some r)).
  - apply lookup_delete_eq.
  - apply lookup_insert_eq.
Qed.

Lemma toggle_lookup_ne userId other r (m : gmap string string) :
  other ≠ userId -> toggle userId r m !! other = m !! other.
Proof.
  intros Hne. unfold toggle. destruct (decide (m !! userId = Some r)).
  - by apply lookup_delete_ne.
  - by apply lookup_insert_ne.
Qed.

Lemma toggle_twice userId r (m : gmap string string) :
  toggle userId r (toggle userId r m)
  = if decide (m !! userId = Some r) then m else delete userId m.
Proof.
  unfold toggle at 1. rewrite toggle_lookup.
  destruct (decide (m !! userId = Some r)) as [Heq|Hne].
  - rewrite decide_False by discriminate. unfold toggle.
    rewrite decide_True by done. rewrite insert_delete_eq.
    by apply insert_id.
  - rewrite decide_True by done. unfold toggle.
    rewrite decide_False by done. apply delete_insert_eq.
Qed.

Lemma reactToPost_run postId userId r w postData :
  coll_posts (store w) !! postId = Some postData ->
  reactToPost postId userId r w
  = (Returned true,
     mkWorld
       (set_posts
          <[postId := with_reactions
                        (toggle userId r (default ∅ (p_reactions postData)))
                        postData]> (store w))
       (calls w ++ [RunTransaction]) (clock w) (tza w) (ids w)).
Proof.
  intros Hpost.
  unfold reactToPost. fs_run. rewrite Hpost. fs_run.
  unfold upd_post. rewrite Hpost. reflexivity.
Qed.

(** C2, as amended.  On a post that exists, [reactToPost] succeeds and
    rewrites only the [reactions] field of that post: the entry of
    [userId] is removed when it already was [r] and set to [r] otherwise,
    every other entry and every other field is kept.  Applying it twice
    with the same [userId] and [r] gives back the original reactions map
    when the user had no entry or had [r]; when the user had another
    reaction, the two calls leave the user without an entry. *)
Theorem reactToPost_toggles postId userId r w postData :
  coll_posts (store w) !! postId = Some postData ->
  let reactions := default ∅ (p_reactions postData) in
  let w' := (reactToPost postId userId r w).2 in
  let w'' := (reactToPost postId userId r w').2 in
  (reactToPost postId userId r w).1 = Returned true
  /\ (exists postData',
        store w' = set_posts <[postId := postData']> (store w)
        /\ p_reactions postData' = Some (reactionsOf (store w') postId)
        /\ p_author postData' = p_author postData
        /\ p_caption postData' = p_caption postData
        /\ p_createdAt postData' = p_createdAt postData
        /\ p_comments postData' = p_comments postData
        /\ p_commentCount postData' = p_commentCount postData
        /\ p_poll postData' = p_poll postData)
  /\ reactionsOf (store w') postId !! userId
     = (if decide (reactions !! userId = Some r) then None else Some r)
  /\ (forall other, other ≠ userId ->
      reactionsOf (store w') postId !! other = reactions !! other)
  /\ (reactions !! userId = None \/ reactions !! userId = Some r ->
      reactionsOf (store w'') postId = reactions)
  /\ (forall r', reactions !! userId = Some r' -> r' ≠ r ->
      reactionsOf (store w'') postId = delete userId reactions).
Proof.
  intros Hpost reactions w' w''.
  assert (coll_posts (store w') !! postId
          = Some (with_reactions (toggle userId r reactions) postData)) as Hpost'.
  { subst w'. rewrite (reactToPost_run _ _ _ _ _ Hpost). cbn.
    apply lookup_insert_eq. }
  assert (reactionsOf (store w') postId = toggle userId r reactions) as Hr'.
  { unfold reactionsOf. rewrite Hpost'. reflexivity. }
  assert (reactionsOf (store w'') postId
          = toggle userId r (toggle userId r reactions)) as Hr''.
  { subst w''. rewrite (reactToPost_run _ _ _ _ _ Hpost').
    unfold reactionsOf. cbn. rewrite lookup_insert_eq. reflexivity. }
  split; [by rewrite (reactToPost_run _ _ _ _ _ Hpost)|].
  split.
  { exists (with_reactions (toggle userId r reactions) postData).
    split; [subst w'; by rewrite (reactToPost_run _ _ _ _ _ Hpost)|].
    rewrite Hr'. repeat split. }
  rewrite Hr', Hr'', toggle_twice.
  split; [apply toggle_lookup|].
  split; [intros other Hne; by apply toggle_lookup_ne|].
  split.
  - intros [Hnone | Hsame].
    + rewrite decide_False by (rewrite Hnone; discriminate).
      by apply delete_id.
    + by rewrite decide_True.
  - intros r' Hr Hne. rewrite decide_False; [done|].
    rewrite Hr. congruence.
Qed.

Lemma reactToPost_toggles_witness :
  reactionsOf (store (reactToPost "p1" "u2" "like" (worldOf withPost 0)).2) "p1"
  !! "u2" = None.
Proof.
  exact (proj1 (proj2 (proj2 (reactToPost_toggles "p1" "u2" "like"
                                (worldOf withPost 0) likedPost eq_refl)))).
Defined.

(** C2 as first stated fails: a user who had reacted with "like" and
    reacts twice with "love" ends without a reaction, so the two calls do
    not restore the original reactions map. *)
Lemma reactToPost_twice_not_identity :
  let w := worldOf withPost 0 in
  let w' := (reactToPost "p1" "u2" "love" w).2 in
  let w'' := (reactToPost "p1" "u2" "love" w').2 in
  reactionsOf (store w'') "p1" ≠ reactionsOf (store w) "p1".
Proof.
  intros w w' w'' Heq.
  apply (f_equal (λ m : gmap string string, m !! "u2")) in Heq.
  vm_compute in Heq. discriminate.
Qed.

(** ** Polls *)

Lemma isoOrNow_returns t w :
  exists v w', isoOrNow t w = (Returned v, w')
               /\ store w' = store w /\ calls w' = calls w.
Proof.
  destruct t as [[ms|s]|]; unfold isoOrNow; fs_run; eauto.
Qed.

Lemma commentToClient_returns c w :
  exists v w', commentToClient c w = (Returned v, w')
               /\ store w' = store w /\ calls w' = calls w.
Proof.
  unfold commentToClient.
  destruct (isoOrNow_returns (c_createdAt c) w) as (t & w1 & Ht & Hs1 & Hc1).
  fs_run. rewrite Ht. eauto.
Qed.

Lemma mapFs_commentToClient_returns cs : forall w,
  exists v w', mapFs commentToClient cs w = (Returned v, w')
               /\ store w' = store w /\ calls w' = calls w.
Proof.
  induction cs as [|c cs IH]; intros w.
  - cbn [mapFs]. fs_run. eauto.
  - cbn [mapFs].
    destruct (commentToClient_returns c w) as (t & w1 & Ht & Hs1 & Hc1).
    destruct (IH w1) as (v & w2 & Hv & Hs2 & Hc2).
    fs_run. rewrite Ht, Hv.
    eexists _, _. split; [reflexivity|]. split; congruence.
Qed.

Lemma docToPost_returns id data w :
  exists post w',
    docToPost id data w = (Returned post, w')
    /\ store w' = store w /\ calls w' = calls w
    /\ post_id post = id /\ p_poll (post_data post) = p_poll data.
Proof.
  unfold docToPost.
  destruct (isoOrNow_returns (p_createdAt data) w) as (t & w1 & Ht & Hs1 & Hc1).
  destruct (mapFs_commentToClient_returns (default [] (p_comments data)) w1)
    as (cs & w2 & Hcs & Hs2 & Hc2).
  fs_run. rewrite Ht. fs_run. rewrite Hcs.
  eexists _, _. split; [reflexivity|]. repeat split; congruence.
Qed.

(** The clock of [w'] is that of [w] after some readings. *)
Lemma isoOf_later w w' stored client (j : nat) :
  (forall n, clock w' n = clock w (j + n)%nat) ->
  isoOf w' stored client -> isoOf w stored client.
Proof.
  intros Hclock. unfold isoOf.
  destruct stored as [[ms|str]|]; [done| |];
    intros [k ->]; exists (j + k)%nat; by rewrite Hclock.
Qed.

Lemma isoOrNow_client t w :
  exists v w',
    isoOrNow t w = (Returned v, w')
    /\ store w' = store w /\ calls w' = calls w
    /\ isoOf w t (Some v)
    /\ exists j : nat, forall n, clock w' n = clock w (j + n)%nat.
Proof.
  destruct t as [[ms|str]|]; unfold isoOrNow; fs_run.
  - eexists _, _. split; [reflexivity|]. repeat split. by exists O.
  - eexists _, _. split; [reflexivity|]. repeat split; [by exists O|].
    by exists 1%nat.
  - eexists _, _. split; [reflexivity|]. repeat split; [by exists O|].
    by exists 1%nat.
Qed.

Lemma commentToClient_client c w :
  exists v w',
    commentToClient c w = (Returned v, w')
    /\ store w' = store w /\ calls w' = calls w
    /\ clientComment w c v
    /\ exists j : nat, forall n, clock w' n = clock w (j + n)%nat.
Proof.
  unfold commentToClient.
  destruct (isoOrNow_client (c_createdAt c) w)
    as (t & w1 & Ht & Hs1 & Hc1 & Hiso & j & Hclock).
  fs_run. rewrite Ht.
  eexists _, _. split; [reflexivity|]. split; [done|]. split; [done|].
  split; [by repeat split|]. by exists j.
Qed.

Lemma mapFs_commentToClient_client cs : forall w,
  exists v w',
    mapFs commentToClient cs w = (Returned v, w')
    /\ store w' = store w /\ calls w' = calls w
    /\ Forall2 (clientComment w) cs v.
Proof.
  induction cs as [|c cs IH]; intros w.
  - cbn [mapFs]. fs_run. eexists _, _. split; [reflexivity|].
    repeat split. constructor.
  - cbn [mapFs].
    destruct (commentToClient_client c w)
      as (t & w1 & Ht & Hs1 & Hc1 & Hclient & j & Hclock).
    destruct (IH w1) as (v & w2 & Hv & Hs2 & Hc2 & Hall).
    fs_run. rewrite Ht, Hv.
    eexists _, _. split; [reflexivity|].
    split; [congruence|]. split; [congruence|].
    constructor; [done|].
    eapply Forall2_impl; [exact Hall|].
    intros stored client (? & ? & ? & ? & Hiso').
    repeat split; try done. by eapply isoOf_later.
Qed.

Lemma docToPost_client id data w :
  exists post w',
    docToPost id data w = (Returned post, w')
    /\ store w' = store w /\ calls w' = calls w
    /\ clientPost w id data post.
Proof.
  unfold docToPost.
  destruct (isoOrNow_client (p_createdAt data) w)
    as (t & w1 & Ht & Hs1 & Hc1 & Hiso & j & Hclock).
  destruct (mapFs_commentToClient_client (default [] (p_comments data)) w1)
    as (cs & w2 & Hcs & Hs2 & Hc2 & Hall).
  fs_run. rewrite Ht. fs_run. rewrite Hcs.
  eexists _, _. split; [reflexivity|].
  split; [congruence|]. split; [congruence|].
  unfold clientPost. cbn. repeat split; try done.
  exists cs. split; [done|].
  eapply Forall2_impl; [exact Hall|].
  intros stored client (? & ? & ? & ? & Hiso').
  repeat split; try done. by eapply isoOf_later.
Qed.

Lemma hasVoted_spec userId poll :
  hasVoted userId poll = true
  <-> exists opt, opt ∈ poll_options poll /\ userId ∈ po_votedBy opt.
Proof.
  unfold hasVoted. rewrite existsb_exists. split.
  - intros (opt & Hin & Hv). exists opt. split.
    + by apply list_elem_of_In.
    + by apply bool_decide_eq_true in Hv.
  - intros (opt & Hin & Hv). exists opt. split.
    + by apply list_elem_of_In.
    + by apply bool_decide_eq_true.
Qed.

Lemma vote_lookup userId optionIndex poll (i : nat) opt :
  poll_options poll !! i = Some opt ->
  poll_options (vote userId optionIndex poll) !! i
  = Some (if decide (Z.of_nat i = optionIndex)
          then mkPollOption (po_text opt) (po_votes opt + 1)
                            (po_votedBy opt ++ [userId])
          else opt).
Proof.
  intros Hi. unfold vote. cbn [poll_options].
  rewrite list_lookup_imap, Hi. reflexivity.
Qed.

(** C10. [voteOnPoll] lets a user vote at most once.  If [userId] is in
    the [votedBy] list of some option, the store is unchanged and the
    current post is returned: the stored document as handed to the client,
    with all its fields.  Otherwise, for an index within range, the
    chosen option gets one more vote and [userId] at the end of its
    [votedBy], the other options are kept, and the post with the new poll
    is returned: the stored document as handed to the client, with the new
    poll in place of the old.  For a missing post, a post without a poll, or
    (the user not having voted) an index out of range, the result is null
    and the store is unchanged. *)
Theorem voteOnPoll_spec userId postId optionIndex w :
  let result := voteOnPoll userId postId optionIndex w in
  (forall postData poll,
      coll_posts (store w) !! postId = Some postData ->
      p_poll postData = Some poll ->
      (exists opt, opt ∈ poll_options poll /\ userId ∈ po_votedBy opt) ->
      store result.2 = store w
      /\ exists post, result.1 = Returned (Some post)
                      /\ post_id post = postId
                      /\ p_poll (post_data post) = Some poll
                      /\ clientPost w postId postData post)
  /\ (forall postData poll,
        coll_posts (store w) !! postId = Some postData ->
        p_poll postData = Some poll ->
        ¬ (exists opt, opt ∈ poll_options poll /\ userId ∈ po_votedBy opt) ->
        0 <= optionIndex < Z.of_nat (length (poll_options poll)) ->
        exists poll',
          store result.2
          = set_posts <[postId := with_poll poll' postData]> (store w)
          /\ pollOf (store result.2) postId = Some poll'
          /\ poll_question poll' = poll_question poll
          /\ length (poll_options poll') = length (poll_options poll)
          /\ (forall (i : nat) opt,
                poll_options poll !! i = Some opt ->
                poll_options poll' !! i
                = Some (if decide (Z.of_nat i = optionIndex)
                        then mkPollOption (po_text opt) (po_votes opt + 1)
                                          (po_votedBy opt ++ [userId])
                        else opt))
          /\ exists post, result.1 = Returned (Some post)
                          /\ post_id post = postId
                          /\ p_poll (post_data post) = Some poll'
                          /\ clientPost w postId (with_poll poll' postData)
                               post)
  /\ (coll_posts (store w) !! postId = None
      \/ (exists postData, coll_posts (store w) !! postId = Some postData
                           /\ p_poll postData = None)
      \/ (exists postData poll,
             coll_posts (store w) !! postId = Some postData
             /\ p_poll postData = Some poll
             /\ ¬ (exists opt,
                     opt ∈ poll_options poll /\ userId ∈ po_votedBy opt)
             /\ (optionIndex < 0
                 \/ Z.of_nat (length (poll_options poll)) <= optionIndex)) ->
      result.1 = Returned None /\ store result.2 = store w).
Proof.
  intros result. subst result. split; [|split].
  - intros postData poll Hpost Hpoll Hvoted.
    apply hasVoted_spec in Hvoted.
    destruct (docToPost_client postId postData
                (mkWorld (store w) (calls w ++ [RunTransaction]) (clock w)
                         (tza w) (ids w)))
      as (post & w1 & Hdoc & Hs & Hc & Hclient).
    unfold voteOnPoll. fs_run. rewrite Hpost, Hpoll, Hvoted. fs_run.
    rewrite Hdoc. cbn. split; [done|].
    exists post. split; [done|].
    destruct Hclient as (Hid & Hfields). split; [done|].
    split; [|by split].
    destruct Hfields as (_ & _ & _ & _ & _ & _ & Hp). congruence.
  - intros postData poll Hpost Hpoll Hfresh Hrange.
    assert (hasVoted userId poll = false) as Hnv.
    { destruct (hasVoted userId poll) eqn:E; [|done].
      apply hasVoted_spec in E. done. }
    destruct (docToPost_client postId postData
                (mkWorld (store w) (calls w ++ [RunTransaction]) (clock w)
                         (tza w) (ids w)))
      as (post & w1 & Hdoc & Hs & Hc & Hclient).
    assert (voteOnPoll userId postId optionIndex w
            = (Returned
                 (Some (mkPost (post_id post)
                          (with_poll (vote userId optionIndex poll)
                             (post_data post)))),
               mkWorld
                 (set_posts
                    <[postId := with_poll (vote userId optionIndex poll)
                                  postData]> (store w))
                 (calls w1) (clock w1) (tza w1) (ids w1))) as Hrun.
    { unfold voteOnPoll. fs_run. rewrite Hpost, Hpoll, Hnv.
      destruct (Z.ltb_spec optionIndex 0); [lia|].
      destruct (Z.leb_spec (Z.of_nat (length (poll_options poll))) optionIndex);
        [lia|].
      fs_run. rewrite Hdoc. fs_run. unfold upd_post.
      rewrite Hs. cbn [store]. rewrite Hpost. reflexivity. }
    rewrite Hrun. cbn [fst snd store].
    exists (vote userId optionIndex poll).
    split; [done|]. split.
    { unfold pollOf. cbn. by rewrite lookup_insert_eq. }
    split; [done|]. split; [unfold vote; cbn; by rewrite length_imap|].
    split; [intros i opt Hi; by apply vote_lookup|].
    eexists. split; [reflexivity|].
    destruct Hclient as (Hid & Ha & Hcap & Hiso & Hr & Hcs & Hcount & Hp).
    split; [done|]. split; [done|].
    unfold clientPost. cbn. repeat split; done.
  - intros [Hnone | [(postData & Hpost & Hnopoll)
                    | (postData & poll & Hpost & Hpoll & Hfresh & Hrange)]].
    + unfold voteOnPoll. fs_run. rewrite Hnone. done.
    + unfold voteOnPoll. fs_run. rewrite Hpost, Hnopoll. done.
    + assert (hasVoted userId poll = false) as Hnv.
      { destruct (hasVoted userId poll) eqn:E; [|done].
        apply hasVoted_spec in E. done. }
      unfold voteOnPoll. fs_run. rewrite Hpost, Hpoll, Hnv.
      destruct (Z.ltb_spec optionIndex 0); [done|].
      destruct (Z.leb_spec (Z.of_nat (length (poll_options poll))) optionIndex);
        [done|lia].
Qed.

Lemma voteOnPoll_spec_witness :
  exists poll',
    pollOf (store (voteOnPoll "u1" "p2" 1 (worldOf withPoll 0)).2) "p2"
    = Some poll'
    /\ poll_options poll' !! 1%nat = Some (mkPollOption "coffee" 1 ["u1"]).
Proof.
  destruct (proj1 (proj2 (voteOnPoll_spec "u1" "p2" 1 (worldOf withPoll 0)))
              pollPost samplePoll eq_refl eq_refl)
    as (poll' & _ & Hpoll & _ & _ & Hopts & _).
  - intros Hvoted. apply hasVoted_spec in Hvoted.
    vm_compute in Hvoted. discriminate.
  - simpl. lia.
  - exists poll'. split; [exact Hpoll|]. exact (Hopts 1%nat _ eq_refl).
Defined.

(** ** Groups *)

Lemma createGroup_counter creator name description coverPhotoUrl privacy
    requiresApproval category w :
  counterAgrees
    (store (createGroup creator name description coverPhotoUrl privacy
              requiresApproval category w).2)
    (ids w O).
Proof.
  unfold createGroup, serverTimestamp. fs_run. unfold counterAgrees. cbn.
  eexists. split; [apply lookup_insert_eq|]. reflexivity.
Qed.

Lemma joinGroup_run userId groupId answers w u g :
  coll_users (store w) !! userId = Some u ->
  coll_groups (store w) !! groupId = Some g ->
  joinGroup userId groupId answers w
  = (Returned true,
     mkWorld
       (set_groups
          <[groupId :=
              with_membership
                (arrayUnion (memberObject (docToUser userId u)) (g_members g))
                (g_memberCount g + 1) (g_admins g) (g_moderators g) g]>
          (store w))
       (calls w ++ [GetDoc ("users/" +:+ userId);
                    UpdateDoc ("groups/" +:+ groupId)])
       (clock w) (tza w) (ids w)).
Proof.
  intros Hu Hg. unfold joinGroup. fs_steps. rewrite getUserProfileById_run.
  cbn [store calls]. rewrite Hu. cbn [fmap option_fmap option_map]. fs_steps.
  unfold upd_group. rewrite Hg. cbn. by rewrite <- app_assoc.
Qed.

(** What holds: a [joinGroup] by a user whose member object is not yet in
    the list keeps the counter in step. *)
Lemma joinGroup_counter userId groupId answers w u g :
  coll_users (store w) !! userId = Some u ->
  coll_groups (store w) !! groupId = Some g ->
  memberObject (docToUser userId u) ∉ g_members g ->
  g_memberCount g = Z.of_nat (length (g_members g)) ->
  counterAgrees (store (joinGroup userId groupId answers w).2) groupId.
Proof.
  intros Hu Hg Hnew Hcount. rewrite (joinGroup_run _ _ _ _ _ _ Hu Hg).
  eexists. split; [apply lookup_insert_eq|]. cbn.
  unfold arrayUnion. rewrite decide_False by done.
  rewrite length_app. cbn. lia.
Qed.

Lemma length_without userId (l : list Author) :
  NoDup (a_id <$> l) ->
  Z.of_nat (length (without userId l))
  = Z.of_nat (length l)
    - (if existsb (λ m, bool_decide (a_id m = userId)) l then 1 else 0).
Proof.
  unfold without. induction l as [|m l IH]; intros Hnd; [done|].
  apply NoDup_cons in Hnd as [Hm Hnd]. specialize (IH Hnd).
  cbn [existsb]. rewrite filter_cons. case_bool_decide as Hid; cbn [orb].
  - rewrite decide_False by (intros ?; done).
    assert (existsb (λ m0, bool_decide (a_id m0 = userId)) l = false) as Hno.
    { apply not_true_is_false. intros (m' & Hin & Hm')%existsb_exists.
      apply bool_decide_eq_true in Hm'. apply Hm.
      apply list_elem_of_fmap. exists m'. split; [congruence|].
      by apply list_elem_of_In. }
    rewrite Hno in IH. cbn [length]. lia.
  - rewrite decide_True by done. cbn [length]. lia.
Qed.

(** What holds: [removeGroupMember] keeps the counter in step when no two
    members share an id. *)
Lemma removeGroupMember_counter groupId userToRemove w g :
  coll_groups (store w) !! groupId = Some g ->
  NoDup (a_id <$> g_members g) ->
  g_memberCount g = Z.of_nat (length (g_members g)) ->
  counterAgrees (store (removeGroupMember groupId userToRemove w).2) groupId.
Proof.
  intros Hg Hnd Hcount. unfold removeGroupMember. fs_run. rewrite Hg. fs_run.
  unfold upd_group. rewrite Hg. cbn.
  eexists. split; [apply lookup_insert_eq|]. cbn.
  rewrite (length_without _ _ Hnd), Hcount.
  destruct (existsb _ (g_members g)); unfold increment; lia.
Qed.

(** C3 fails on the code.  In a group whose counter agrees with its member
    list, Bob joins twice: the first [joinGroup] adds him and counts him, the
    second adds nothing ([arrayUnion] finds his member object) and counts
    him again.  And a [leaveGroup] by Bob while he is not a member removes
    nobody and still decrements the counter.  Either way the counter no
    longer equals the number of members. *)
Theorem membership_counter_drifts :
  let w := worldOf withGroup 0 in
  let once := joinGroup "u2" "g1" [] w in
  let twice := joinGroup "u2" "g1" [] once.2 in
  let left := leaveGroup "u2" "g1" w in
  counterAgrees (store w) "g1"
  /\ counterAgrees (store once.2) "g1"
  /\ twice.1 = Returned true
  /\ (exists g, coll_groups (store twice.2) !! "g1" = Some g
                /\ g_members g = [aliceMember; bobMember]
                /\ g_memberCount g = 3)
  /\ ¬ counterAgrees (store twice.2) "g1"
  /\ left.1 = Returned true
  /\ (exists g, coll_groups (store left.2) !! "g1" = Some g
                /\ g_members g = [aliceMember] /\ g_memberCount g = 0)
  /\ ¬ counterAgrees (store left.2) "g1".
Proof.
  intros w once twice left.
  assert (coll_groups (store once.2) !! "g1"
          = Some (with_membership [aliceMember; bobMember] 2 [aliceMember] []
                    clubData))
    as Honce by (vm_compute; reflexivity).
  assert (coll_groups (store twice.2) !! "g1"
          = Some (with_membership [aliceMember; bobMember] 3 [aliceMember] []
                    clubData))
    as Htwice by (vm_compute; reflexivity).
  assert (coll_groups (store left.2) !! "g1"
          = Some (with_membership [aliceMember] 0 [aliceMember] [] clubData))
    as Hleft by (vm_compute; reflexivity).
  split.
  { exists clubData. split; [vm_compute; reflexivity|reflexivity]. }
  split; [eexists; split; [exact Honce|reflexivity]|].
  split; [vm_compute; reflexivity|].
  split; [eexists; split; [exact Htwice|split; reflexivity]|].
  split.
  { intros (g & Hg & Hcount). rewrite Htwice in Hg. injection Hg as <-.
    cbn in Hcount. lia. }
  split; [vm_compute; reflexivity|].
  split; [eexists; split; [exact Hleft|split; reflexivity]|].
  intros (g & Hg & Hcount). rewrite Hleft in Hg. injection Hg as <-.
  cbn in Hcount. lia.
Qed.

(** ** Which backend calls an operation issues *)

Lemma issued_app {A} (op : Fs A) w cs :
  calls (op w).2 = calls w ++ cs -> issued op w = cs.
Proof. intros H. unfold issued. rewrite H. apply drop_app_length. Qed.

Lemma issued_nil {A} (op : Fs A) w :
  calls (op w).2 = calls w -> issued op w = [].
Proof.
  intros H. apply issued_app. by rewrite app_nil_r.
Qed.

Lemma reactToPost_calls postId userId r w :
  issued (reactToPost postId userId r) w = [RunTransaction].
Proof.
  apply issued_app. unfold reactToPost. transaction_calls.
Qed.

Lemma reactToComment_calls postId commentId userId r w :
  issued (reactToComment postId commentId userId r) w = [RunTransaction].
Proof.
  apply issued_app. unfold reactToComment. transaction_calls.
Qed.

Lemma acceptFriendRequest_calls currentUserId requestingUserId w :
  issued (acceptFriendRequest currentUserId requestingUserId) w
  = [RunTransaction].
Proof.
  apply issued_app. apply acceptFriendRequest_calls_aux.
Qed.

Lemma joinGroup_calls userId groupId answers w :
  issued (joinGroup userId groupId answers) w
  = GetDoc ("users/" +:+ userId)
    :: (if coll_users (store w) !! userId is Some _
        then [UpdateDoc ("groups/" +:+ groupId)] else []).
Proof.
  apply issued_app. unfold joinGroup. fs_steps.
  rewrite getUserProfileById_run. cbn [store calls].
  destruct (coll_users (store w) !! userId) as [u|];
    cbn [fmap option_fmap option_map].
  - fs_steps. destruct (upd_group _ _ _); cbn; by rewrite <- app_assoc.
  - reflexivity.
Qed.

Lemma addFriend_calls currentUserId targetUserId w :
  issued (addFriend currentUserId targetUserId) w
  = if decide (currentUserId = "") then []
    else [GetDoc ("users/" +:+ currentUserId);
          GetDoc ("users/" +:+ targetUserId)]
         ++ (if coll_users (store w) !! currentUserId is Some _
             then if coll_users (store w) !! targetUserId is Some _
                  then [SetDoc ("friendRequests/" +:+ currentUserId +:+ "_"
                                +:+ targetUserId)]
                  else []
             else []).
Proof.
  unfold addFriend. destruct (decide (currentUserId = "")).
  - by apply issued_nil.
  - apply issued_app. fs_steps. rewrite getUserProfileById_run. cbn [store calls].
    rewrite getUserProfileById_run. cbn [store calls].
    destruct (coll_users (store w) !! currentUserId) as [u|],
      (coll_users (store w) !! targetUserId) as [v|];
      cbn [fmap option_fmap option_map]; unfold serverTimestamp; fs_steps;
      cbn; by rewrite <- ?app_assoc.
Qed.

(** C4, as amended.  [reactToPost], [reactToComment], [acceptFriendRequest],
    [leaveGroup], [removeGroupMember] and [approveJoinRequest] issue one
    backend call each, a transaction.  [joinGroup] and [addFriend] run no
    transaction: [joinGroup] reads the profile with [getDoc] and then writes
    with a plain [updateDoc] (whose fields are the [arrayUnion] and
    [increment] transforms), and [addFriend] reads both profiles with [getDoc]
    and then writes the request with a plain [setDoc]. *)
Theorem write_paths w :
  (forall postId userId r,
      issued (reactToPost postId userId r) w = [RunTransaction])
  /\ (forall postId commentId userId r,
        issued (reactToComment postId commentId userId r) w = [RunTransaction])
  /\ (forall currentUserId requestingUserId,
        issued (acceptFriendRequest currentUserId requestingUserId) w
        = [RunTransaction])
  /\ (forall userId groupId,
        issued (leaveGroup userId groupId) w = [RunTransaction])
  /\ (forall groupId userToRemove,
        issued (removeGroupMember groupId userToRemove) w = [RunTransaction])
  /\ (forall groupId userId,
        issued (approveJoinRequest groupId userId) w = [RunTransaction])
  /\ (forall userId groupId answers,
        issued (joinGroup userId groupId answers) w
        = GetDoc ("users/" +:+ userId)
          :: (if coll_users (store w) !! userId is Some _
              then [UpdateDoc ("groups/" +:+ groupId)] else []))
  /\ (forall currentUserId targetUserId,
        issued (addFriend currentUserId targetUserId) w
        = if decide (currentUserId = "") then []
          else [GetDoc ("users/" +:+ currentUserId);
                GetDoc ("users/" +:+ targetUserId)]
               ++ (if coll_users (store w) !! currentUserId is Some _
                   then if coll_users (store w) !! targetUserId is Some _
                        then [SetDoc ("friendRequests/" +:+ currentUserId
                                      +:+ "_" +:+ targetUserId)]
                        else []
                   else [])).
Proof.
  split; [intros; apply reactToPost_calls|].
  split; [intros; apply reactToComment_calls|].
  split; [intros; apply acceptFriendRequest_calls|].
  split.
  { intros. apply issued_app. unfold leaveGroup. transaction_calls. }
  split.
  { intros. apply issued_app. unfold removeGroupMember. transaction_calls. }
  split.
  { intros. apply issued_app. unfold approveJoinRequest. transaction_calls. }
  split; [intros; apply joinGroup_calls|].
  intros; apply addFriend_calls.
Qed.

(** C4 as first stated fails: [joinGroup] updates the group with a plain
    [updateDoc] and runs no transaction, and [addFriend] writes the request
    with a plain [setDoc] and runs no transaction. *)
Lemma joinGroup_addFriend_not_transactional :
  let w := worldOf withGroup 0 in
  ¬ (Forall (λ c, is_plain_write c = false) (issued (joinGroup "u2" "g1" []) w)
     /\ Exists (λ c, is_transaction c = true) (issued (joinGroup "u2" "g1" []) w))
  /\ ¬ (Forall (λ c, is_plain_write c = false) (issued (addFriend "u1" "u2") w)
        /\ Exists (λ c, is_transaction c = true) (issued (addFriend "u1" "u2") w)).
Proof.
  intros w. split.
  - intros [Hall _].
    assert (issued (joinGroup "u2" "g1" []) w
            = [GetDoc "users/u2"; UpdateDoc "groups/g1"]) as Heq
      by (vm_compute; reflexivity).
    rewrite Heq in Hall. apply Forall_cons in Hall as [_ Hall].
    apply Forall_cons in Hall as [Hw _]. discriminate.
  - intros [Hall _].
    assert (issued (addFriend "u1" "u2") w
            = [GetDoc "users/u1"; GetDoc "users/u2";
               SetDoc "friendRequests/u1_u2"]) as Heq
      by (vm_compute; reflexivity).
    rewrite Heq in Hall. do 2 apply Forall_cons in Hall as [_ Hall].
    apply Forall_cons in Hall as [Hw _]. discriminate.
Qed.

Lemma listenToCurrentUser_calls userId w :
  issued (listenToCurrentUser userId) w = [OnSnapshot ("users/" +:+ userId)].
Proof. by apply issued_app. Qed.

Lemma isUsernameTaken_calls username w :
  issued (isUsernameTaken username) w
  = [GetDoc ("usernames/" +:+ toLowerCase username)].
Proof. by apply issued_app. Qed.

Lemma getUserProfileById_calls uid w :
  issued (getUserProfileById uid) w = [GetDoc ("users/" +:+ uid)].
Proof. by apply issued_app. Qed.

Lemma checkFriendshipStatus_calls currentUserId profileUserId w :
  Forall (λ c, is_one_shot_read c = true)
         (issued (checkFriendshipStatus currentUserId profileUserId) w)
  /\ issued (checkFriendshipStatus currentUserId profileUserId) w ≠ [].
Proof.
  assert (exists cs,
            calls (checkFriendshipStatus currentUserId profileUserId w).2
            = calls w ++ GetDoc ("users/" +:+ currentUserId) :: cs
            /\ Forall (λ c, is_one_shot_read c = true) cs)
    as (cs & Hcalls & Hcs).
  { unfold checkFriendshipStatus. fs_steps. rewrite getUserProfileById_run.
    cbn [store calls]. case_bool_decide.
    - exists []. split; [done|constructor].
    - eexists [_; _]. split.
      + fs_steps.
        destruct (coll_friendRequests (store w)
                  !! (currentUserId +:+ "_" +:+ profileUserId)) as [r|];
          [destruct (decide (fr_status r = "accepted"))
          |destruct (coll_friendRequests (store w)
                     !! (profileUserId +:+ "_" +:+ currentUserId)) as [r|];
            [destruct (decide (fr_status r = "accepted"))|]];
          cbn; rewrite <- ?app_assoc; reflexivity.
      + repeat constructor. }
  rewrite (issued_app _ _ _ Hcalls).
  split; [by constructor|done].
Qed.

Lemma updateGroupSettings_calls groupId settings w :
  issued (updateGroupSettings groupId settings) w
  = [UpdateDoc ("groups/" +:+ groupId)].
Proof.
  apply issued_app. unfold updateGroupSettings. fs_steps.
  by destruct (upd_group _ _ _).
Qed.

Lemma pinPost_calls groupId postId w :
  issued (pinPost groupId postId) w = [UpdateDoc ("groups/" +:+ groupId)].
Proof.
  apply issued_app. unfold pinPost. fs_steps. by destruct (upd_group _ _ _).
Qed.

End ServiceFacts.

(* ===================================================================== *)
(** * Properties of the module with day-sharded notifications             *)
(* ===================================================================== *)

Module ShardedFacts.
Import JsDate Firestore Sharded Observe Samples.

(** ** The name of a daily collection *)

(** The name is a function of the UTC day of the date. *)
Lemma fields_of_Day t1 t2 :
  Day t1 = Day t2 ->
  YearFromTime t1 = YearFromTime t2
  /\ MonthFromTime t1 = MonthFromTime t2
  /\ DateFromTime t1 = DateFromTime t2.
Proof.
  intros Hd.
  assert (YearFromTime t1 = YearFromTime t2) as Hy
    by (unfold YearFromTime; by rewrite Hd).
  assert (DayWithinYear t1 = DayWithinYear t2) as Hw
    by (unfold DayWithinYear; by rewrite Hd, Hy).
  assert (InLeapYear t1 = InLeapYear t2) as Hl
    by (unfold InLeapYear; by rewrite Hy).
  assert (MonthFromTime t1 = MonthFromTime t2) as Hm
    by (unfold MonthFromTime; by rewrite Hw, Hl).
  repeat split; [done..|].
  unfold DateFromTime. by rewrite Hw, Hm, Hl.
Qed.

Lemma getDailyCollectionName_same_day t1 t2 :
  Day t1 = Day t2 ->
  getDailyCollectionName (ADate (ofTime t1))
  = getDailyCollectionName (ADate (ofTime t2)).
Proof.
  intros Hd. destruct (fields_of_Day t1 t2 Hd) as (Hy & Hm & Hdt).
  unfold getDailyCollectionName, ofTime, getUTCFullYear, getUTCMonth,
    getUTCDate. cbn [fmap option_fmap option_map].
  by rewrite Hy, Hm, Hdt.
Qed.

(** Reading back the [createdAt] written by [toISOString] names the day of
    the time written. *)
Lemma getDailyCollectionName_toISOString t :
  four_digit_year t ->
  getDailyCollectionName (AString (toISOString t))
  = getDailyCollectionName (ADate (ofTime t)).
Proof.
  intros Ht. unfold getDailyCollectionName, ofString, ofTime.
  by rewrite JsDateFacts.parse_toISOString.
Qed.

Lemma length_append (s1 s2 : string) :
  String.length (s1 +:+ s2) = (String.length s1 + String.length s2)%nat.
Proof.
  induction s1 as [|c s1 IH]; [done|].
  rewrite JsDateFacts.append_cons. cbn. by rewrite IH.
Qed.

(** Two concatenations with tails of the same length agree part by part. *)
Lemma append_inj_tail (s1 : string) : forall s2 t1 t2,
  String.length t1 = String.length t2 ->
  s1 +:+ t1 = s2 +:+ t2 -> s1 = s2 /\ t1 = t2.
Proof.
  induction s1 as [|c s1 IH]; intros [|c' s2] t1 t2 Hlen Heq.
  - done.
  - exfalso. apply (f_equal String.length) in Heq.
    rewrite JsDateFacts.append_nil, length_append in Heq. cbn in Heq. lia.
  - exfalso. apply (f_equal String.length) in Heq.
    rewrite JsDateFacts.append_nil, length_append in Heq. cbn in Heq. lia.
  - rewrite !JsDateFacts.append_cons in Heq. injection Heq as -> Heq.
    destruct (IH _ _ _ Hlen Heq) as [-> ->]. done.
Qed.

Lemma range_cases (P : Z -> Prop) (lo : Z) (n : nat) :
  Forall P (map (λ i, lo + Z.of_nat i) (seq 0 n)) ->
  forall d, lo <= d < lo + Z.of_nat n -> P d.
Proof.
  intros Hall d Hd. rewrite Forall_forall in Hall. apply Hall.
  apply list_elem_of_fmap. exists (Z.to_nat (d - lo)). split; [lia|].
  apply elem_of_seq. lia.
Qed.

(** On the days of a month and the months of a year, [padStart(2, '0')] of
    the numeral is the two-digit form. *)
Lemma padStart_two d :
  1 <= d <= 31 -> padStart 2 "0" (numToString (Some d)) = fixed 2 d.
Proof.
  intros Hd.
  apply (range_cases
           (λ d, padStart 2 "0" (numToString (Some d)) = fixed 2 d) 1 31);
    [|lia].
  apply (bool_decide_unpack _). vm_compute. exact I.
Qed.

Lemma fixed_inj w n1 n2 :
  0 <= n1 < 10 ^ Z.of_nat w -> 0 <= n2 < 10 ^ Z.of_nat w ->
  fixed w n1 = fixed w n2 -> n1 = n2.
Proof.
  intros H1 H2 Heq.
  pose proof (JsDateFacts.read_digits_small w n1 "" H1) as R1.
  pose proof (JsDateFacts.read_digits_small w n2 "" H2) as R2.
  rewrite Heq in R1. congruence.
Qed.

Lemma length_fixed w n : String.length (fixed w n) = w.
Proof. induction w as [|w IH]; cbn; [done|]. by rewrite IH. Qed.

(** Two days with the same collection name are the same day. *)
Lemma getDailyCollectionName_inj t1 t2 :
  getDailyCollectionName (ADate (ofTime t1))
  = getDailyCollectionName (ADate (ofTime t2)) ->
  Day t1 = Day t2.
Proof.
  unfold getDailyCollectionName, ofTime, getUTCFullYear, getUTCMonth,
    getUTCDate. cbn [fmap option_fmap option_map].
  pose proof (JsDateFacts.MonthFromTime_bounds t1).
  pose proof (JsDateFacts.MonthFromTime_bounds t2).
  pose proof (JsDateFacts.DateFromTime_bounds t1).
  pose proof (JsDateFacts.DateFromTime_bounds t2).
  rewrite !padStart_two by lia. intros Heq.
  apply (inj (String.append "notifications_")) in Heq.
  apply append_inj_tail in Heq as [Hy Heq].
  2:{ by rewrite !length_append, !length_fixed. }
  apply (inj (String.append "_")) in Heq.
  apply append_inj_tail in Heq as [Hm Heq].
  2:{ by rewrite !length_append, !length_fixed. }
  apply (inj (String.append "_")) in Heq.
  cbn [numToString] in Hy. apply pretty_Z_inj in Hy.
  apply fixed_inj in Hm; [|cbn; lia..].
  apply fixed_inj in Heq; [|cbn; lia..].
  pose proof (JsDateFacts.MakeDay_fields t1 0) as D1.
  pose proof (JsDateFacts.MakeDay_fields t2 0) as D2.
  rewrite Z.add_0_r in D1, D2.
  assert (MonthFromTime t1 = MonthFromTime t2) as Hm' by lia.
  rewrite Hy, Hm', Heq in D1. lia.
Qed.

(** ** Creating notifications *)

Lemma isEnabled_switch settings type :
  (type = "like" /\ likes settings = Some false)
  \/ (type = "comment" /\ comments settings = Some false)
  \/ (type = "friend_request" /\ friendRequests settings = Some false)
  \/ ((type = "campaign_approved" \/ type = "campaign_rejected")
      /\ campaignUpdates settings = Some false)
  \/ (type = "group_post" /\ groupPosts settings = Some false) ->
  isEnabled settings type = false.
Proof.
  unfold isEnabled.
  intros [[-> H] | [[-> H] | [[-> H] | [[[-> | ->] H] | [-> H]]]]];
    rewrite H; reflexivity.
Qed.

(** C9. No self-notification: when the recipient is the acting user,
    [_createNotification] returns at once and leaves the world as it is.
    And when the recipient has set to false the switch the notification
    type answers to (likes, comments, friendRequests, campaignUpdates,
    groupPosts), the store is left unchanged: the only backend call is the
    read of the recipient's profile, and no notification document is
    written. *)
Theorem createNotification_suppressed recipientId type actor options w :
  (recipientId = user_id actor ->
   _createNotification recipientId type actor options w = (Returned (), w))
  /\ (forall recipient settings,
        coll_users (store w) !! recipientId = Some recipient ->
        u_notificationSettings recipient = Some settings ->
        (type = "like" /\ likes settings = Some false)
        \/ (type = "comment" /\ comments settings = Some false)
        \/ (type = "friend_request" /\ friendRequests settings = Some false)
        \/ ((type = "campaign_approved" \/ type = "campaign_rejected")
            /\ campaignUpdates settings = Some false)
        \/ (type = "group_post" /\ groupPosts settings = Some false) ->
        (_createNotification recipientId type actor options w).1 = Returned ()
        /\ store (_createNotification recipientId type actor options w).2
           = store w
        /\ (calls (_createNotification recipientId type actor options w).2
            = calls w
            \/ calls (_createNotification recipientId type actor options w).2
               = calls w ++ [GetDoc ("users/" +:+ recipientId)])).
Proof.
  split.
  - intros Hself. unfold _createNotification.
    rewrite decide_True by done. reflexivity.
  - intros recipient settings Hdoc Hsettings Hswitch.
    apply isEnabled_switch in Hswitch.
    unfold _createNotification. destruct (decide (recipientId = user_id actor)).
    + simpl. auto.
    + unfold try_catch, getDoc, mbind, Fs_bind, api, readStore, mret, Fs_ret.
      simpl. rewrite Hdoc, Hsettings. simpl. rewrite Hswitch. simpl. auto.
Qed.

Lemma createNotification_suppressed_witness :
  store (_createNotification "u2" "like" alice noOptions
           (worldOf usersOnly lastMs)).2
  = usersOnly.
Proof.
  refine (proj1 (proj2 (proj2 (createNotification_suppressed "u2" "like" alice
                          noOptions (worldOf usersOnly lastMs))
                          bobData (mkSettings (Some false) None None None None)
                          _ _ _))).
  - reflexivity.
  - reflexivity.
  - left. split; reflexivity.
Defined.

(** ** Marking notifications as read *)

(** What holds: when both readings of the clock in [_createNotification]
    fall on the same UTC day, the [createdAt] it stores names the collection
    it wrote to. *)
Lemma createdAt_names_collection today now :
  Day today = Day now -> four_digit_year now ->
  getDailyCollectionName (AString (toISOString now))
  = getDailyCollectionName (ADate (ofTime today)).
Proof.
  intros Hday Hnow. rewrite getDailyCollectionName_toISOString by done.
  symmetry. by apply getDailyCollectionName_same_day.
Qed.

(** C5 fails on the code, in two ways.

    First, [_createNotification] reads the clock twice, once for the name of
    the collection and once for [createdAt].  With the first reading at
    2024-12-31T23:59:59.999Z and the second one millisecond later, the
    document goes to [notifications_2024_12_31] with a [createdAt] of 1
    January; [markNotificationsAsRead] then updates
    [notifications_2025_01_01/id0], which does not exist: the batch is
    rejected and the stored document stays unread.

    Second, the listener does not hand on the stored [createdAt]: the stored
    value is a string, not a [Timestamp], so [listenToNotifications] replaces
    it by the time of the snapshot.  A notification written on 30 December
    and delivered on 31 December carries a [createdAt] of 31 December, and
    [markNotificationsAsRead] on the delivered object updates
    [notifications_2024_12_31/id0] instead of the stored document. *)
Theorem markAsRead_misses_written_collection :
  let created :=
    _createNotification "u1" "like" bob noOptions (worldOf usersOnly lastMs) in
  let stored :=
    mkShardNotification "u1" "like" bobMember false
      (FsString "2025-01-01T00:00:00.000Z") None None None None None None None in
  let n := mkNotification "id0" "2025-01-01T00:00:00.000Z" stored in
  let marked := markNotificationsAsRead "u1" [n] created.2 in
  let created' :=
    _createNotification "u1" "like" bob noOptions
      (worldOf usersOnly 1735600000000) in
  let stored' :=
    mkShardNotification "u1" "like" bobMember false
      (FsString "2024-12-30T23:06:40.001Z") None None None None None None None in
  let n' := mkNotification "id0" "2024-12-31T23:06:40.000Z" stored' in
  let delivered :=
    onSnapshotNext "notifications_2024_12_30"
      (queryShard "notifications_2024_12_30" "u1" (store created'.2)) []
      (worldOf (store created'.2) 1735686400000) in
  (calls created.2 = [GetDoc "users/u1"; AddDoc "notifications_2024_12_31"]
   /\ storedNotification (store created.2) "notifications_2024_12_31" "id0"
      = Some stored
   /\ markTargets [n] = [("notifications_2025_01_01", "id0")]
   /\ marked.1 = Thrown "not-found"
   /\ storedNotification (store marked.2) "notifications_2024_12_31" "id0"
      = Some stored)
  /\ (storedNotification (store created'.2) "notifications_2024_12_30" "id0"
      = Some stored'
      /\ delivered.1 = Returned ([("notifications_2024_12_30", [n'])], [n'])
      /\ markTargets [n'] = [("notifications_2024_12_31", "id0")]).
Proof.
  vm_compute. repeat split; reflexivity.
Qed.

(** ** The listener *)

Lemma shardOfTurn_run i w :
  shardOfTurn i w
  = (Returned (getDailyCollectionName
                 (ADate (ofTime (clock w O - Z.of_nat i * msPerDay)))),
     mkWorld (store w) (calls w) (λ n, clock w (S n)) (tza w) (ids w)).
Proof.
  unfold shardOfTurn. fs_steps.
  by rewrite JsDateFacts.setDate_getDate_minus.
Qed.

(** The collections the loop subscribes to: turn [i] uses the [k]-th
    reading of the clock. *)
Lemma subscribe_run userId turns : forall w,
  exists w',
    subscribe userId turns w
    = (Returned
         (imap (λ k i, getDailyCollectionName
                         (ADate (ofTime (clock w k - Z.of_nat i * msPerDay))))
               turns), w')
    /\ store w' = store w
    /\ calls w'
       = calls w
         ++ map (λ c, OnSnapshot (c +:+ "?recipientId==" +:+ userId))
              (imap (λ k i, getDailyCollectionName
                              (ADate (ofTime (clock w k - Z.of_nat i * msPerDay))))
                    turns).
Proof.
  induction turns as [|i rest IH]; intros w.
  - exists w. cbn. by rewrite app_nil_r.
  - cbn [subscribe]. fs_steps. rewrite shardOfTurn_run. cbn [store calls].
    match goal with
    | |- context [subscribe userId rest ?w1] =>
        destruct (IH w1) as (w' & Hrun & Hstore & Hcalls)
    end.
    rewrite Hrun. exists w'. cbn [clock calls store] in *.
    split; [reflexivity|]. split; [done|].
    rewrite Hcalls, <- app_assoc. reflexivity.
Qed.

(** What holds: when every reading of the clock made by the loop falls on
    the UTC day of [now], the thirty collections are those of that day and
    of the twenty-nine days before it, all different. *)
Lemma listenToNotifications_same_day userId w now :
  (forall k, (k < 30)%nat -> Day (clock w k) = Day now) ->
  let names :=
    map (λ i, getDailyCollectionName
                (ADate (ofTime (now - Z.of_nat i * msPerDay)))) (seq 0 30) in
  (listenToNotifications userId w).1 = Returned names
  /\ NoDup names
  /\ issued (listenToNotifications userId) w
     = map (λ c, OnSnapshot (c +:+ "?recipientId==" +:+ userId)) names.
Proof.
  intros Hday names. unfold listenToNotifications.
  destruct (subscribe_run userId (seq 0 30) w) as (w' & Hrun & Hstore & Hcalls).
  assert (imap (λ k i, getDailyCollectionName
                         (ADate (ofTime (clock w k - Z.of_nat i * msPerDay))))
               (seq 0 30) = names) as Hnames.
  { subst names. apply list_eq. intros k.
    rewrite list_lookup_imap, list_lookup_fmap.
    destruct (seq 0 30 !! k) as [i|] eqn:Hk; [|done]. cbn.
    f_equal. apply getDailyCollectionName_same_day.
    apply lookup_lt_Some in Hk as Hlt. rewrite length_seq in Hlt.
    rewrite !JsDateFacts.Day_shift, (Hday k) by done. reflexivity. }
  rewrite Hnames in Hrun, Hcalls. rewrite Hrun. split; [done|]. split.
  - subst names. apply NoDup_fmap_2_strong; [|apply NoDup_seq].
    intros i j _ _ Heq. apply getDailyCollectionName_inj in Heq.
    rewrite !JsDateFacts.Day_shift in Heq. lia.
  - apply ServiceFacts.issued_app. by rewrite Hrun.
Qed.

Lemma listenToNotifications_calls userId w :
  Forall (λ c, is_listener c = true) (issued (listenToNotifications userId) w)
  /\ length (issued (listenToNotifications userId) w) = 30%nat.
Proof.
  unfold listenToNotifications.
  destruct (subscribe_run userId (seq 0 30) w) as (w' & Hrun & Hstore & Hcalls).
  rewrite (ServiceFacts.issued_app _ _ _ ltac:(by rewrite Hrun)). split.
  - apply Forall_forall. intros c Hc.
    apply list_elem_of_fmap in Hc as (name & -> & _). reflexivity.
  - by rewrite length_map, length_imap, length_seq.
Qed.

(** *** Sorting *)

Lemma sort_insert_perm {A} (cmp : A -> A -> option Z) x l :
  sort_insert cmp x l ≡ₚ x :: l.
Proof.
  induction l as [|y l IH]; cbn; [done|].
  destruct (precedes cmp x y); [done|].
  rewrite IH. apply Permutation_swap.
Qed.

Lemma sort_perm {A} (cmp : A -> A -> option Z) l : sort cmp l ≡ₚ l.
Proof.
  induction l as [|x l IH]; cbn; [done|].
  by rewrite sort_insert_perm, IH.
Qed.





(** *** Snapshots *)



Lemma elem_of_concat {A} (x : A) (ls : list (list A)) :
  x ∈ concat ls <-> exists l, x ∈ l /\ l ∈ ls.
Proof.
  induction ls as [|l ls IH]; cbn.
  - split; [by intros ?%elem_of_nil|by intros (? & _ & ?%elem_of_nil)].
  - rewrite elem_of_app, IH. split.
    + intros [Hx|(l' & Hx & Hl)]; [exists l|exists l'];
        (split; [done|]); apply elem_of_cons; auto.
    + intros (l' & Hx & Hl). apply elem_of_cons in Hl as [->|Hl]; eauto.
Qed.



(** C8 fails on the code.

    Alice is notified of a like on 30 December and of a comment on 31
    December.  Her listener receives the snapshot of the collection of 31
    December and then that of 30 December.  The stored [createdAt] values are
    strings, so the listener replaces each by the time it handles the
    snapshot; the like, handled last, becomes the newest, and the callback
    receives the like of 30 December before the comment of 31 December.

    And when the clock passes midnight UTC while the thirty listeners are
    being registered, one collection is subscribed to twice: the thirty
    subscriptions do not cover thirty days. *)
Theorem listener_delivers_older_first :
  (sn_createdAt
     <$> storedNotification (store afterComment) "notifications_2024_12_30" "id0"
   = Some (FsString "2024-12-30T10:00:00.001Z")
   /\ sn_createdAt
        <$> storedNotification (store afterComment) "notifications_2024_12_31"
              "id1"
      = Some (FsString "2024-12-31T10:00:00.001Z")
   /\ summary twoSnapshots
      = Some [("id0", "2024-12-31T12:00:00.001Z", "like");
              ("id1", "2024-12-31T12:00:00.000Z", "comment")])
  /\ (listenToNotifications "u1" (worldOf usersOnly lastMs)).1
     = Returned
         ("notifications_2024_12_31"
          :: map (λ i, getDailyCollectionName
                         (ADate (ofTime (lastMs - Z.of_nat i * msPerDay))))
                 (seq 0 29)).
Proof.
  vm_compute. repeat split; reflexivity.
Qed.

End ShardedFacts.

(* ===================================================================== *)
(** * How the service reaches the document database                       *)
(* ===================================================================== *)

Module AccessFacts.
Import JsDate Firestore Observe Samples.

Lemma sharded_isUsernameTaken_calls username w :
  issued (Sharded.isUsernameTaken username) w
  = [GetDoc ("usernames/" +:+ Service.toLowerCase username)].
Proof. by apply ServiceFacts.issued_app. Qed.

Lemma sharded_getUserProfileById_calls uid w :
  issued (Sharded.getUserProfileById uid) w = [GetDoc ("users/" +:+ uid)].
Proof. by apply ServiceFacts.issued_app. Qed.

(** C6, as amended.  The service reaches the document database in four
    ways: through real-time listeners ([listenToCurrentUser], the thirty
    listeners of [listenToNotifications]), through one-shot reads
    ([isUsernameTaken], [getUserProfileById] and [checkFriendshipStatus] call
    [getDoc]), through transactions ([reactToPost]), and through plain
    writes outside any transaction ([updateGroupSettings] and [pinPost] call
    [updateDoc]). *)
Theorem access_paths w :
  (forall userId,
      issued (Service.listenToCurrentUser userId) w
      = [OnSnapshot ("users/" +:+ userId)])
  /\ (forall userId,
        Forall (λ c, is_listener c = true)
               (issued (Sharded.listenToNotifications userId) w)
        /\ length (issued (Sharded.listenToNotifications userId) w) = 30%nat)
  /\ (forall username,
        issued (Sharded.isUsernameTaken username) w
        = [GetDoc ("usernames/" +:+ Service.toLowerCase username)])
  /\ (forall uid,
        issued (Sharded.getUserProfileById uid) w = [GetDoc ("users/" +:+ uid)])
  /\ (forall currentUserId profileUserId,
        Forall (λ c, is_one_shot_read c = true)
          (issued (Service.checkFriendshipStatus currentUserId profileUserId) w)
        /\ issued (Service.checkFriendshipStatus currentUserId profileUserId) w
           ≠ [])
  /\ (forall postId userId r,
        issued (Service.reactToPost postId userId r) w = [RunTransaction])
  /\ (forall groupId settings,
        issued (Service.updateGroupSettings groupId settings) w
        = [UpdateDoc ("groups/" +:+ groupId)])
  /\ (forall groupId postId,
        issued (Service.pinPost groupId postId) w
        = [UpdateDoc ("groups/" +:+ groupId)]).
Proof.
  split; [intros; apply ServiceFacts.listenToCurrentUser_calls|].
  split; [intros; apply ShardedFacts.listenToNotifications_calls|].
  split; [intros; apply sharded_isUsernameTaken_calls|].
  split; [intros; apply sharded_getUserProfileById_calls|].
  split; [intros; apply ServiceFacts.checkFriendshipStatus_calls|].
  split; [intros; apply ServiceFacts.reactToPost_calls|].
  split; [intros; apply ServiceFacts.updateGroupSettings_calls|].
  intros; apply ServiceFacts.pinPost_calls.
Qed.

(** C6 as first stated fails: [isUsernameTaken] reads with a one-shot
    [getDoc], and [pinPost] writes with an [updateDoc] outside any
    transaction. *)
Lemma one_shot_read_and_plain_write :
  let w := worldOf withGroup 0 in
  ¬ Forall listenerOrTransaction (issued (Sharded.isUsernameTaken "Bob") w)
  /\ ¬ Forall listenerOrTransaction (issued (Service.pinPost "g1" "p1") w).
Proof.
  intros w. split.
  - rewrite sharded_isUsernameTaken_calls. intros Hall.
    apply Forall_cons in Hall as [[Hl|Ht] _]; discriminate.
  - rewrite ServiceFacts.pinPost_calls. intros Hall.
    apply Forall_cons in Hall as [[Hl|Ht] _]; discriminate.
Qed.

End AccessFacts.

(* ===================================================================== *)
(** * Further properties of the day-sharded notifications                 *)
(* ===================================================================== *)

Module NotificationFacts.
Import JsDate Firestore Sharded Observe Samples.

(** X1. Two dates get the same daily collection exactly when they fall on
    the same UTC day. *)
Theorem daily_collection_is_the_utc_day t1 t2 :
  getDailyCollectionName (ADate (ofTime t1))
  = getDailyCollectionName (ADate (ofTime t2))
  <-> Day t1 = Day t2.
Proof.
  split.
  - apply ShardedFacts.getDailyCollectionName_inj.
  - apply ShardedFacts.getDailyCollectionName_same_day.
Qed.

(** X2. The settings switch a notification off only through the five
    switches: [isEnabled] is false exactly when the type is like, comment,
    friend_request, campaign_approved or campaign_rejected, or group_post and
    the switch it answers to is set to false.  Mentions, approved friend
    requests, admin announcements and warnings, group join requests and
    approvals, and any type outside the table are always on. *)
Theorem isEnabled_false_iff settings type :
  isEnabled settings type = false
  <-> (type = "like" /\ likes settings = Some false)
      \/ (type = "comment" /\ comments settings = Some false)
      \/ (type = "friend_request" /\ friendRequests settings = Some false)
      \/ ((type = "campaign_approved" \/ type = "campaign_rejected")
          /\ campaignUpdates settings = Some false)
      \/ (type = "group_post" /\ groupPosts settings = Some false).
Proof.
  split; [|apply ShardedFacts.isEnabled_switch].
  unfold isEnabled, property.
  repeat (case_decide; [subst type|]); cbn [default];
    try discriminate; unfold notFalse; intros Hoff.
  all: try (left; split; [reflexivity|]; by repeat case_match).
  all: try (right; left; split; [reflexivity|]; by repeat case_match).
  all: try (right; right; left; split; [reflexivity|]; by repeat case_match).
  all: try (right; right; right; left; split; [by left|]; by repeat case_match).
  all: try (right; right; right; left; split; [by right|]; by repeat case_match).
  all: try (right; right; right; right; split; [reflexivity|];
            by repeat case_match).
Qed.

Lemma nested_givenOf (o : option (string * string)) :
  nested ((λ p, (Some p.1, Some p.2)) <$> o) = Some o.
Proof. by destruct o as [[a b]|]. Qed.

(** For a user with all fields and options without [undefined] inside, the
    general function is [_createNotification]. *)
Lemma createNotificationFrom_complete recipientId type actor options w :
  _createNotificationFrom recipientId type (actorOf actor) (givenOf options) w
  = _createNotification recipientId type actor options w.
Proof.
  unfold _createNotificationFrom, _createNotification. cbn [actor_id actorOf].
  destruct (decide (recipientId = user_id actor)) as [->|Hne].
  - by rewrite decide_True.
  - rewrite decide_False by congruence. fs_steps.
    destruct (coll_users (store w) !! recipientId) as [recipient|]; [|done].
    destruct (isEnabled _ type); [|done]. cbn [negb].
    unfold givenOf. cbn [g_post g_comment]. by rewrite !nested_givenOf.
Qed.



Lemma storedNotification_put st name id doc :
  storedNotification (put_shard name id doc st) name id = Some doc.
Proof.
  unfold storedNotification, put_shard. cbn.
  by rewrite !lookup_insert_eq.
Qed.






Lemma markTargets_single n :
  markTargets [n]
  = [(getDailyCollectionName (AString (n_createdAt n)), n_id n)].
Proof.
  unfold markTargets, groupByCollection. cbn.
  by rewrite !decide_True by done.
Qed.




(** A comment without text: the listener of the post's author never hears
    of it.  The options then carry [comment: { id, text: undefined }], the
    document is rejected, and nothing is written. *)
Lemma comment_without_text_is_not_notified :
  _createNotificationFrom "u1" "comment" (actorOf bob) voiceCommentOptions
    (worldOf usersOnly 1735552800000)
  = (Returned (),
     mkWorld usersOnly [GetDoc "users/u1"]
       (λ n, 1735552800000 + Z.of_nat (S (S n))) 21600000 sampleIds).
Proof. reflexivity. Qed.

(** ** The listener *)

Lemma setDateIn_getDateIn_minus zone t i :
  setDateIn zone t (getDateIn zone t - i)
  = UTCIn zone (LocalTimeIn zone t - i * msPerDay).
Proof.
  unfold setDateIn, getDateIn. cbv zeta. f_equal.
  replace (DateFromTime (LocalTimeIn zone t) - i)
    with (DateFromTime (LocalTimeIn zone t) + - i) by lia.
  rewrite JsDateFacts.MakeDay_fields.
  pose proof (JsDateFacts.Day_TimeWithinDay (LocalTimeIn zone t)) as H.
  unfold MakeDate in *. lia.
Qed.

Lemma shardOfTurnIn_run zone i w :
  shardOfTurnIn zone i w
  = (Returned (getDailyCollectionName
                 (ADate (ofTime
                    (UTCIn zone (LocalTimeIn zone (clock w O)
                                 - Z.of_nat i * msPerDay))))),
     mkWorld (store w) (calls w) (λ n, clock w (S n)) (tza w) (ids w)).
Proof.
  unfold shardOfTurnIn. fs_steps.
  by rewrite setDateIn_getDateIn_minus.
Qed.

Lemma subscribeIn_run zone userId turns : forall w,
  exists w',
    subscribeIn zone userId turns w
    = (Returned
         (imap (λ k i, getDailyCollectionName
                         (ADate (ofTime
                            (UTCIn zone (LocalTimeIn zone (clock w k)
                                         - Z.of_nat i * msPerDay)))))
               turns), w')
    /\ store w' = store w
    /\ calls w'
       = calls w
         ++ map (λ c, OnSnapshot (c +:+ "?recipientId==" +:+ userId))
              (imap (λ k i, getDailyCollectionName
                              (ADate (ofTime
                                 (UTCIn zone (LocalTimeIn zone (clock w k)
                                              - Z.of_nat i * msPerDay)))))
                    turns).
Proof.
  induction turns as [|i rest IH]; intros w.
  - exists w. cbn. by rewrite app_nil_r.
  - cbn [subscribeIn]. fs_steps. rewrite shardOfTurnIn_run. cbn [store calls].
    match goal with
    | |- context [subscribeIn zone userId rest ?w1] =>
        destruct (IH w1) as (w' & Hrun & Hstore & Hcalls)
    end.
    rewrite Hrun. exists w'. cbn [clock calls store] in *.
    split; [reflexivity|]. split; [done|].
    rewrite Hcalls, <- app_assoc. reflexivity.
Qed.

(** With local time at a fixed offset from UTC, the listener in the zone
    is the listener of the fixed offset. *)
Lemma subscribeIn_fixed tz userId turns : forall w,
  tza w = tz ->
  subscribeIn (fixedZone tz) userId turns w = subscribe userId turns w.
Proof.
  induction turns as [|i rest IH]; intros w Htz; [done|].
  cbn [subscribeIn subscribe]. fs_steps.
  rewrite shardOfTurnIn_run, ShardedFacts.shardOfTurn_run.
  cbn [store calls clock tza ids].
  unfold UTCIn, LocalTimeIn, fixedZone. cbn [offsetAt offsetOfLocal].
  replace (clock w 0%nat + tz - Z.of_nat i * msPerDay - tz)
    with (clock w 0%nat - Z.of_nat i * msPerDay) by lia.
  rewrite Htz. by rewrite IH.
Qed.

Lemma listenToNotificationsIn_fixed userId w :
  listenToNotificationsIn (fixedZone (tza w)) userId w
  = listenToNotifications userId w.
Proof.
  unfold listenToNotificationsIn, listenToNotifications.
  apply (subscribeIn_fixed (tza w) userId (seq 0 30) w). reflexivity.
Qed.

(** X25. [listenToNotifications] makes the date of turn [i] in the local
    time of the device: it reads the clock, moves the local date back by
    [i] days and reads the result back as an instant.  When every reading
    of the clock made while the listeners are registered falls on the UTC
    day of [now], and the offset by which the local time of [i] days before
    a reading is read back is the offset in effect at the reading (no
    change of daylight saving in between), it listens to thirty different
    collections, those of that day and of the twenty-nine days before it:
    the collection of turn [i] is the daily collection of every date that
    lies [i] UTC days before [now].  Each is listened to through one
    real-time listener restricted to the notifications of the user, and the
    store is not changed. *)
Theorem listener_covers_thirty_days zone userId w now :
  (forall k, (k < 30)%nat -> Day (clock w k) = Day now) ->
  (forall i, (i < 30)%nat ->
     offsetOfLocal zone
       (LocalTimeIn zone (clock w i) - Z.of_nat i * msPerDay)
     = offsetAt zone (clock w i)) ->
  let names :=
    map (λ i, getDailyCollectionName
                (ADate (ofTime (now - Z.of_nat i * msPerDay)))) (seq 0 30) in
  (listenToNotificationsIn zone userId w).1 = Returned names
  /\ NoDup names
  /\ (forall (i : nat) t,
        (i < 30)%nat -> Day t = Day now - Z.of_nat i ->
        names !! i = Some (getDailyCollectionName (ADate (ofTime t))))
  /\ issued (listenToNotificationsIn zone userId) w
     = map (λ c, OnSnapshot (c +:+ "?recipientId==" +:+ userId)) names
  /\ store (listenToNotificationsIn zone userId w).2 = store w.
Proof.
  intros Hday Hzone names. unfold listenToNotificationsIn.
  destruct (subscribeIn_run zone userId (seq 0 30) w)
    as (w' & Hrun & Hstore & Hcalls).
  assert (imap (λ k i, getDailyCollectionName
                         (ADate (ofTime
                            (UTCIn zone (LocalTimeIn zone (clock w k)
                                         - Z.of_nat i * msPerDay)))))
               (seq 0 30) = names) as Hnames.
  { subst names. apply list_eq. intros k.
    rewrite list_lookup_imap, list_lookup_fmap.
    destruct (seq 0 30 !! k) as [i|] eqn:Hk; [|done]. cbn.
    apply lookup_lt_Some in Hk as Hlt. rewrite length_seq in Hlt.
    rewrite lookup_seq_lt in Hk by done. cbn in Hk.
    assert (i = k) as -> by congruence.
    f_equal. apply ShardedFacts.getDailyCollectionName_same_day.
    unfold UTCIn. rewrite (Hzone k Hlt). unfold LocalTimeIn.
    replace (clock w k + offsetAt zone (clock w k) - Z.of_nat k * msPerDay
             - offsetAt zone (clock w k))
      with (clock w k - Z.of_nat k * msPerDay) by lia.
    rewrite !JsDateFacts.Day_shift, (Hday k) by done. reflexivity. }
  rewrite Hnames in Hrun, Hcalls. rewrite Hrun.
  split; [done|]. split; [|split; [|split; [|done]]].
  - subst names. apply NoDup_fmap_2_strong; [|apply NoDup_seq].
    intros i j _ _ Heq. apply ShardedFacts.getDailyCollectionName_inj in Heq.
    rewrite !JsDateFacts.Day_shift in Heq. lia.
  - intros i t Hi Ht. subst names. rewrite list_lookup_fmap.
    rewrite lookup_seq_lt by done. cbn. f_equal.
    apply ShardedFacts.getDailyCollectionName_same_day.
    by rewrite JsDateFacts.Day_shift.
  - apply ServiceFacts.issued_app. by rewrite Hrun.
Qed.

Lemma listener_covers_thirty_days_witness :
  NoDup
    (map (λ i, getDailyCollectionName
                 (ADate (ofTime (1735646400000 - Z.of_nat i * msPerDay))))
         (seq 0 30)).
Proof.
  refine (proj1 (proj2 (listener_covers_thirty_days london2024 "u1"
                          (worldOf usersOnly 1735646400000) 1735646400000
                          _ _))).
  - intros k Hk. unfold Day, msPerDay. cbn [clock worldOf].
    Z.div_mod_to_equations. lia.
  - intros i Hi. unfold LocalTimeIn, london2024, msPerDay.
    cbn [offsetAt offsetOfLocal clock worldOf].
    rewrite (proj2 (Z.ltb_ge (1735646400000 + Z.of_nat i) 1729990800000))
      by lia.
    rewrite andb_false_r.
    rewrite (proj2 (Z.ltb_ge _ 1729994400000)) by lia.
    by rewrite andb_false_r.
Defined.

(** Across a change of daylight saving the listener does repeat a day.  In
    London, with the clock standing at 2 April 2024, 23:30 UTC (00:30 on
    3 April, local summer time), turn 2 gives 1 April 00:30 local summer
    time, which is 31 March 23:30 UTC, and turn 3 gives 31 March 00:30
    local winter time, which is 31 March 00:30 UTC: both listen to the
    collection of 31 March, and no turn listens to that of 4 March, the
    twenty-ninth day before 2 April. *)
Lemma listener_repeats_a_day_across_daylight_saving :
  exists names,
    (listenToNotificationsIn london2024 "u1"
       (frozenAt usersOnly 1712100600000)).1 = Returned names
    /\ names !! 2%nat = Some "notifications_2024_03_31"
    /\ names !! 3%nat = Some "notifications_2024_03_31"
    /\ "notifications_2024_03_04" ∉ names.
Proof.
  eexists. split; [vm_compute; reflexivity|].
  split; [reflexivity|]. split; [reflexivity|].
  apply (bool_decide_unpack _). vm_compute. exact I.
Qed.

Lemma property_map_set {V} (k : string) (v : V) (m : JsMap V) :
  property (map_set k v m) k = Some v.
Proof.
  induction m as [|[k' v'] m IH]; cbn.
  - by rewrite decide_True.
  - destruct (decide (k' = k)) as [->|Hne]; cbn.
    + by rewrite decide_True.
    + by rewrite decide_False.
Qed.





(** X27. What an error does.  When the listener of a collection fails and
    the collection holds no notifications in the listener's state, the
    state is kept and the callback is not called.  When it holds some, the
    collection is dropped from the state, the other collections are kept,
    and the callback receives at most fifty notifications, each from a
    collection other than the failed one. *)
Theorem listener_error collectionName dailyNotifications :
  let result := onSnapshotError collectionName dailyNotifications in
  (property dailyNotifications collectionName = None ->
   result = (dailyNotifications, None))
  /\ (is_Some (property dailyNotifications collectionName) ->
      property result.1 collectionName = None
      /\ (forall other, other ≠ collectionName ->
          property result.1 other = property dailyNotifications other)
      /\ exists delivered,
           result.2 = Some delivered
           /\ (length delivered <= 50)%nat
           /\ forall n, n ∈ delivered ->
                exists other ns,
                  other ≠ collectionName
                  /\ (other, ns) ∈ dailyNotifications
                  /\ n ∈ ns).
Proof.
  intros result. subst result. unfold onSnapshotError, map_has. split.
  - intros Hnone. rewrite bool_decide_eq_false_2; [done|].
    rewrite Hnone. by intros [? ?].
  - intros Hsome. rewrite bool_decide_eq_true_2 by done. cbn [fst snd].
    split; [|split].
    + clear. unfold map_delete, JsMap.
      induction dailyNotifications as [|[k v] m IH]; [done|].
      rewrite filter_cons. cbn [fst]. destruct (decide (k ≠ collectionName)).
      * cbn. by rewrite decide_False.
      * done.
    + intros other Hother. clear Hsome. unfold map_delete, JsMap.
      induction dailyNotifications as [|[k v] m IH]; [done|].
      rewrite filter_cons. cbn [fst property].
      destruct (decide (k ≠ collectionName)) as [Hk|Hk].
      * cbn. by rewrite IH.
      * apply dec_stable in Hk as ->. by rewrite decide_False.
    + eexists. split; [reflexivity|]. unfold processAndCallback. split.
      * rewrite length_take. lia.
      * unfold map_delete, JsMap.
        intros n Hn. apply elem_of_take in Hn as (i & Hn & _).
        apply list_elem_of_lookup_2 in Hn.
        rewrite ShardedFacts.sort_perm in Hn.
        apply ShardedFacts.elem_of_concat in Hn as (ns & Hn & Hns).
        unfold map_values in Hns.
        apply list_elem_of_fmap in Hns as ([other ns'] & -> & Hin).
        apply (list_elem_of_filter (λ e, e.1 ≠ collectionName)) in Hin
          as [Hother Hin].
        exists other, ns'. done.
Qed.

(** ** Marking as read *)

Lemma targets_cons collectionName (docIds : list string)
    (m : JsMap (list string)) :
  ('(c, l) ← (collectionName, docIds) :: m; id ← l; [(c, id)])
  = map (λ id, (collectionName, id)) docIds
    ++ ('(c, l) ← m; id ← l; [(c, id)]).
Proof.
  cbn. f_equal.
Qed.

Lemma targets_new collectionName (m : JsMap (list string)) :
  property m collectionName = None ->
  ('(c, l) ← map_set collectionName [] m; id ← l; [(c, id)])
  = ('(c, l) ← m; id ← l; [(c, id)]).
Proof.
  induction m as [|[k v] m IH]; [done|]. cbn [map_set property].
  destruct (decide (k = collectionName)) as [->|Hne]; [done|].
  intros Hnone. by rewrite !targets_cons, IH.
Qed.

Lemma targets_push collectionName (docIds : list string) id
    (m : JsMap (list string)) :
  property m collectionName = Some docIds ->
  ('(c, l) ← map_set collectionName (docIds ++ [id]) m; id ← l; [(c, id)])
  ≡ₚ ('(c, l) ← m; id ← l; [(c, id)]) ++ [(collectionName, id)].
Proof.
  induction m as [|[k v] m IH]; [done|]. cbn [map_set property].
  destruct (decide (k = collectionName)) as [->|Hne].
  - intros [= ->]. rewrite !targets_cons, map_app. cbn [map].
    rewrite <- !app_assoc. apply Permutation_app_head, Permutation_app_comm.
  - intros Hsome. rewrite !targets_cons, IH by done. by rewrite app_assoc.
Qed.

Lemma targets_step (grouped : JsMap (list string)) n :
  let collectionName := getDailyCollectionName (AString (n_createdAt n)) in
  let grouped' :=
    if map_has collectionName grouped then grouped
    else map_set collectionName [] grouped in
  ('(c, l) ←
     map_set collectionName
       (default [] (property grouped' collectionName) ++ [n_id n]) grouped';
   id ← l; [(c, id)])
  ≡ₚ ('(c, l) ← grouped; id ← l; [(c, id)]) ++ [(collectionName, n_id n)].
Proof.
  intros collectionName grouped'. subst grouped'. unfold map_has.
  destruct (property grouped collectionName) as [docIds|] eqn:Hp.
  - rewrite bool_decide_eq_true_2 by done. rewrite Hp. cbn [default].
    by apply targets_push.
  - rewrite bool_decide_eq_false_2 by (by intros [? ?]).
    rewrite property_map_set. cbn [from_option id].
    rewrite targets_push by apply property_map_set.
    by rewrite targets_new.
Qed.

Lemma targets_fold l : forall grouped : JsMap (list string),
  ('(c, l) ←
     foldl (λ grouped n,
              let collectionName :=
                getDailyCollectionName (AString (n_createdAt n)) in
              let grouped :=
                if map_has collectionName grouped then grouped
                else map_set collectionName [] grouped in
              map_set collectionName
                (default [] (property grouped collectionName) ++ [n_id n])
                grouped)
           grouped l;
   id ← l; [(c, id)])
  ≡ₚ ('(c, l) ← grouped; id ← l; [(c, id)])
     ++ map (λ n, (getDailyCollectionName (AString (n_createdAt n)), n_id n)) l.
Proof.
  induction l as [|n l IH]; intros grouped; cbn [foldl map].
  - by rewrite app_nil_r.
  - rewrite IH. cbv zeta. rewrite targets_step.
    by rewrite <- app_assoc.
Qed.

Lemma commit_from (acc : option Store) (ws : list Write) :
  foldl (λ acc w, acc ≫= w) acc ws = acc ≫= commit ws.
Proof.
  revert acc. induction ws as [|w ws IH]; intros acc; cbn [foldl].
  - by destruct acc.
  - rewrite IH. destruct acc as [st|]; [|done].
    change (Some st ≫= commit (w :: ws))
      with (foldl (λ acc w, acc ≫= w) (Some st ≫= w) ws).
    by rewrite IH.
Qed.

Lemma commit_cons (w : Write) (ws : list Write) st :
  commit (w :: ws) st = w st ≫= commit ws.
Proof. unfold commit at 1. cbn [foldl]. by rewrite commit_from. Qed.

Lemma upd_shard_some collectionName id f st n :
  storedNotification st collectionName id = Some n ->
  exists shard,
    coll_shards st !! collectionName = Some shard
    /\ upd_shard collectionName id f st
       = Some (set_shards <[collectionName := <[id := f n]> shard]> st).
Proof.
  unfold storedNotification, upd_shard.
  destruct (coll_shards st !! collectionName) as [shard|]; [|done].
  intros Hn. exists shard. split; [done|]. cbn. by rewrite Hn.
Qed.

Lemma upd_shard_none collectionName id f st :
  storedNotification st collectionName id = None ->
  upd_shard collectionName id f st = None.
Proof.
  unfold storedNotification, upd_shard.
  destruct (coll_shards st !! collectionName) as [shard|]; [|done].
  intros Hn. cbn. by rewrite Hn.
Qed.

Lemma stored_after_update collectionName id v shard st c i :
  coll_shards st !! collectionName = Some shard ->
  storedNotification
    (set_shards <[collectionName := <[id := v]> shard]> st) c i
  = if decide ((c, i) = (collectionName, id)) then Some v
    else storedNotification st c i.
Proof.
  intros Hshard. unfold storedNotification. cbn.
  destruct (decide (c = collectionName)) as [->|Hc].
  - rewrite lookup_insert_eq, Hshard.
    destruct (decide (i = id)) as [->|Hi].
    + rewrite lookup_insert_eq. by rewrite decide_True.
    + rewrite lookup_insert_ne by done. rewrite decide_False; [done|].
      congruence.
  - rewrite lookup_insert_ne by done. rewrite decide_False; [done|].
    congruence.
Qed.

Lemma commit_reads (targets : list (string * string)) : forall st,
  Forall (λ t, is_Some (storedNotification st t.1 t.2)) targets ->
  exists st',
    commit (map (λ t, upd_shard t.1 t.2 mark_read) targets) st = Some st'
    /\ (forall c i,
          storedNotification st' c i
          = if decide ((c, i) ∈ targets)
            then mark_read <$> storedNotification st c i
            else storedNotification st c i)
    /\ set_shards (λ _, coll_shards st) st' = st.
Proof.
  induction targets as [|[c0 i0] rest IH]; intros st Hall.
  - exists st. split; [done|]. split.
    + intros c i. rewrite decide_False; [done|]. by intros ?%elem_of_nil.
    + by destruct st.
  - apply Forall_cons in Hall as [[n Hn] Hrest]. cbn [fst snd] in Hn.
    destruct (upd_shard_some c0 i0 mark_read st n Hn) as (shard & Hshard & Hupd).
    cbn [map fst snd]. rewrite commit_cons, Hupd. cbn [mbind option_bind].
    set (st1 := set_shards <[c0 := <[i0 := mark_read n]> shard]> st).
    assert (forall c i,
              storedNotification st1 c i
              = if decide ((c, i) = (c0, i0)) then Some (mark_read n)
                else storedNotification st c i) as Hst1.
    { intros c i. by apply stored_after_update. }
    destruct (IH st1) as (st' & Hcommit & Hmarks & Hrest').
    { eapply Forall_impl; [exact Hrest|]. intros [c i] [m Hm]. cbn [fst snd] in *.
      rewrite Hst1. destruct (decide ((c, i) = (c0, i0))); eauto. }
    exists st'. split; [done|]. split.
    + intros c i. rewrite Hmarks, Hst1.
      destruct (decide ((c, i) = (c0, i0))) as [Heq|Hne].
      * injection Heq as -> ->. rewrite Hn.
        rewrite (decide_True (P := (c0, i0) ∈ (c0, i0) :: rest))
          by (apply elem_of_cons; by left).
        by destruct (decide ((c0, i0) ∈ rest)).
      * destruct (decide ((c, i) ∈ rest)) as [Hin|Hout].
        -- rewrite decide_True; [done|]. apply elem_of_cons; by right.
        -- rewrite decide_False; [done|].
           intros [?|?]%elem_of_cons; done.
    + subst st1. destruct st, st'. unfold set_shards in *.
      cbn in *. congruence.
Qed.

Lemma commit_rejects (targets : list (string * string)) : forall st,
  Exists (λ t, storedNotification st t.1 t.2 = None) targets ->
  commit (map (λ t, upd_shard t.1 t.2 mark_read) targets) st = None.
Proof.
  induction targets as [|[c0 i0] rest IH]; intros st Hex.
  - by apply Exists_nil in Hex.
  - cbn [map fst snd]. rewrite commit_cons.
    destruct (storedNotification st c0 i0) as [n|] eqn:Hn;
      [|by rewrite upd_shard_none].
    destruct (upd_shard_some c0 i0 mark_read st n Hn) as (shard & Hshard & Hupd).
    rewrite Hupd. cbn [mbind option_bind]. apply IH.
    apply Exists_cons in Hex as [Hex|Hex]; [cbn in Hex; congruence|].
    eapply Exists_impl; [exact Hex|]. intros [c i] Hnone. cbn [fst snd] in *.
    rewrite (stored_after_update _ _ _ _ _ _ _ Hshard).
    rewrite decide_False; [done|]. intros [= -> ->]. congruence.
Qed.

(** X28. The sharded [markNotificationsAsRead], on notifications whose
    [createdAt] is an ISO string as [toISOString] writes it, updates every
    notification handed to it exactly once, each in the daily collection of
    the UTC day of its [createdAt], all in one write batch.  When every one
    of these documents exists, exactly they are marked as read and nothing
    else in the store changes; when one of them does not exist, the call
    throws and nothing is marked.  With no notifications it returns without
    any backend call. *)
Theorem markNotificationsAsRead_targets userId notificationsToMark w :
  Forall (λ n, exists t, four_digit_year t /\ n_createdAt n = toISOString t)
         notificationsToMark ->
  let targets := markTargets notificationsToMark in
  let result := markNotificationsAsRead userId notificationsToMark w in
  targets
  ≡ₚ map (λ n, (getDailyCollectionName (AString (n_createdAt n)), n_id n))
         notificationsToMark
  /\ (forall n t,
        n ∈ notificationsToMark ->
        four_digit_year t -> n_createdAt n = toISOString t ->
        (getDailyCollectionName (ADate (ofTime t)), n_id n) ∈ targets)
  /\ (notificationsToMark = [] -> result = (Returned (), w))
  /\ (notificationsToMark ≠ [] ->
      issued (markNotificationsAsRead userId notificationsToMark) w
      = [BatchCommit (map (λ t, t.1 +:+ "/" +:+ t.2) targets)])
  /\ (Forall (λ t, is_Some (storedNotification (store w) t.1 t.2)) targets ->
      result.1 = Returned ()
      /\ (forall c i,
            storedNotification (store result.2) c i
            = if decide ((c, i) ∈ targets)
              then mark_read <$> storedNotification (store w) c i
              else storedNotification (store w) c i)
      /\ set_shards (λ _, coll_shards (store w)) (store result.2) = store w)
  /\ (Exists (λ t, storedNotification (store w) t.1 t.2 = None) targets ->
      (exists e, result.1 = Thrown e) /\ store result.2 = store w).
Proof.
  intros Hiso targets result.
  assert (targets
          ≡ₚ map (λ n, (getDailyCollectionName (AString (n_createdAt n)),
                        n_id n)) notificationsToMark) as Htargets.
  { subst targets. unfold markTargets, groupByCollection.
    by rewrite targets_fold. }
  split; [done|]. split.
  { intros n t Hn Ht Hcreated. rewrite Htargets.
    apply list_elem_of_fmap. exists n. split; [|done].
    by rewrite Hcreated, ShardedFacts.getDailyCollectionName_toISOString. }
  subst result. unfold markNotificationsAsRead.
  destruct (decide (length notificationsToMark = 0%nat)) as [He|Hne].
  { apply length_zero_iff_nil in He. subst targets. rewrite He. cbn.
    split; [done|]. split; [done|]. split.
    - intros _. split; [done|]. split.
      + intros c i. rewrite decide_False; [done|]. by intros ?%elem_of_nil.
      + by destruct (store w).
    - by intros ?%Exists_nil. }
  split; [by intros ->|]. fold targets. split.
  { intros _. unfold issued. fs_steps.
    destruct (commit _ (store w)); cbn; apply drop_app_length. }
  split.
  - intros Hall. destruct (commit_reads _ _ Hall) as (st' & Hc & Hm & Hr).
    fs_steps. rewrite Hc. cbn. done.
  - intros Hex. fs_steps. rewrite (commit_rejects _ _ Hex). cbn. eauto.
Qed.

Lemma markNotificationsAsRead_targets_witness :
  let doc :=
    mkShardNotification "u1" "like" bobMember false
      (FsString "2024-12-30T10:00:00.001Z") None None None None None None None in
  sn_read
    <$> storedNotification
          (store (markNotificationsAsRead "u1"
                    [mkNotification "id0" "2024-12-30T10:00:00.001Z" doc]
                    (worldOf (put_shard "notifications_2024_12_30" "id0" doc
                                usersOnly) 0)).2)
          "notifications_2024_12_30" "id0"
  = Some true.
Proof.
  intros doc.
  assert (getDailyCollectionName (AString "2024-12-30T10:00:00.001Z")
          = "notifications_2024_12_30") as Hname by (vm_compute; reflexivity).
  destruct (markNotificationsAsRead_targets "u1"
              [mkNotification "id0" "2024-12-30T10:00:00.001Z" doc]
              (worldOf (put_shard "notifications_2024_12_30" "id0" doc
                          usersOnly) 0)) as (_ & _ & _ & _ & Hall & _).
  - constructor; [|constructor]. exists 1735552800001.
    split; [unfold four_digit_year; lia|vm_compute; reflexivity].
  - rewrite markTargets_single in Hall. cbn [n_createdAt n_id] in Hall.
    rewrite Hname in Hall. destruct Hall as (_ & Hmarked & _).
    + constructor; [|constructor]. cbn [fst snd store worldOf].
      rewrite storedNotification_put. by eexists.
    + rewrite Hmarked. rewrite decide_True by (apply list_elem_of_singleton; done).
      cbn [store worldOf]. by rewrite storedNotification_put.
Defined.

End NotificationFacts.

(* ===================================================================== *)
(** * Further properties of friend requests and friendships               *)
(* ===================================================================== *)

Module FriendFacts.
Import JsDate Firestore Service Observe Samples.

Lemma unfriend_commit st a b ua :
  coll_users st !! a = Some ua ->
  commit [upd_user a (remove_friend b); upd_user b (remove_friend a)] st
  = match <[a := remove_friend b ua]> (coll_users st) !! b with
    | Some ub =>
        Some (set_users
                (λ _, <[b := remove_friend a ub]>
                        (<[a := remove_friend b ua]> (coll_users st)))
                st)
    | None => None
    end.
Proof.
  intros Hua. unfold commit. cbn [foldl mbind option_bind].
  unfold upd_user at 2. rewrite Hua. cbn [mbind option_bind].
  unfold upd_user. cbn [coll_users set_users].
  destruct (<[a:=remove_friend b ua]> (coll_users st) !! b); reflexivity.
Qed.

Lemma unfriend_commit_none st a b :
  coll_users st !! a = None ->
  commit [upd_user a (remove_friend b); upd_user b (remove_friend a)] st = None.
Proof.
  intros Hua. unfold commit. cbn [foldl mbind option_bind].
  unfold upd_user at 2. by rewrite Hua.
Qed.

Lemma elem_of_arrayRemove `{EqDecision A} (x y : A) (l : list A) :
  y ∈ arrayRemove x l <-> y ≠ x /\ y ∈ l.
Proof. unfold arrayRemove. apply (list_elem_of_filter (λ z, z ≠ x)). Qed.

(** X5. [unfriendUser] is one transaction and all or nothing.  When either
    profile is missing it answers [false] and the store is unchanged.  When
    both exist it answers [true]; afterwards neither user is in the other's
    [friendIds], their other friends and the rest of their profiles are
    kept, and nothing else in the store has changed. *)
Theorem unfriendUser_spec currentUserId targetUserId w :
  let result := unfriendUser currentUserId targetUserId w in
  issued (unfriendUser currentUserId targetUserId) w = [RunTransaction]
  /\ (coll_users (store w) !! currentUserId = None
      \/ coll_users (store w) !! targetUserId = None ->
      result.1 = Returned false /\ store result.2 = store w)
  /\ (forall cu tu,
        currentUserId ≠ targetUserId ->
        coll_users (store w) !! currentUserId = Some cu ->
        coll_users (store w) !! targetUserId = Some tu ->
        result.1 = Returned true
        /\ coll_users (store result.2) !! currentUserId
           = Some (remove_friend targetUserId cu)
        /\ coll_users (store result.2) !! targetUserId
           = Some (remove_friend currentUserId tu)
        /\ (targetUserId ∉ u_friendIds (remove_friend targetUserId cu))
        /\ (currentUserId ∉ u_friendIds (remove_friend currentUserId tu))
        /\ (forall x, x ≠ targetUserId -> x ∈ u_friendIds cu ->
            x ∈ u_friendIds (remove_friend targetUserId cu))
        /\ (forall x, x ≠ currentUserId -> x ∈ u_friendIds tu ->
            x ∈ u_friendIds (remove_friend currentUserId tu))
        /\ (forall other, other ≠ currentUserId -> other ≠ targetUserId ->
            coll_users (store result.2) !! other = coll_users (store w) !! other)
        /\ coll_usernames (store result.2) = coll_usernames (store w)
        /\ coll_friendRequests (store result.2) = coll_friendRequests (store w)
        /\ coll_posts (store result.2) = coll_posts (store w)
        /\ coll_groups (store result.2) = coll_groups (store w)
        /\ coll_userNotifications (store result.2)
           = coll_userNotifications (store w)
        /\ coll_shards (store result.2) = coll_shards (store w)).
Proof.
  intros result. subst result. split.
  { apply ServiceFacts.issued_app. unfold unfriendUser.
    ServiceFacts.transaction_calls. }
  unfold unfriendUser. fs_steps.
  destruct (coll_users (store w) !! currentUserId) as [cu|] eqn:Hcu.
  2:{ rewrite (unfriend_commit_none _ _ _ Hcu). cbn. split; [done|].
      intros ????; discriminate. }
  rewrite (unfriend_commit _ _ _ _ Hcu).
  destruct (decide (targetUserId = currentUserId)) as [->|Hne].
  { rewrite lookup_insert_eq. cbn. split; [intros [?|?]; congruence|].
    intros ?? Hne; congruence. }
  rewrite lookup_insert_ne by done.
  destruct (coll_users (store w) !! targetUserId) as [tu|] eqn:Htu.
  2:{ cbn. split; [done|]. intros ?????; discriminate. }
  cbn. split; [intros [?|?]; congruence|].
  intros cu' tu' _ Hcu' Htu'. simplify_eq.
  split; [done|].
  split; [rewrite lookup_insert_ne by done; apply lookup_insert_eq|].
  split; [apply lookup_insert_eq|].
  split; [intros Hin%elem_of_arrayRemove; by destruct Hin|].
  split; [intros Hin%elem_of_arrayRemove; by destruct Hin|].
  split; [intros x ??; by apply elem_of_arrayRemove|].
  split; [intros x ??; by apply elem_of_arrayRemove|].
  split; [intros other ??; by rewrite !lookup_insert_ne|].
  done.
Qed.

Lemma unfriendUser_spec_witness :
  coll_users (store (unfriendUser "u1" "u2" befriended).2) !! "u1"
  = Some aliceData.
Proof.
  refine (proj1 (proj2 (proj2 (proj2 (unfriendUser_spec "u1" "u2" befriended))
                          (add_friend "u2" aliceData) (add_friend "u1" bobData)
                          _ eq_refl eq_refl))).
  discriminate.
Defined.

(** X6. The two copies of [unfriendUser], one with a transaction and one
    with a write batch, answer the same and leave the same store; they
    differ only in the backend call they issue. *)
Theorem unfriendUser_copies_agree currentUserId targetUserId w :
  (unfriendUser currentUserId targetUserId w).1
  = (Sharded.unfriendUser currentUserId targetUserId w).1
  /\ store (unfriendUser currentUserId targetUserId w).2
     = store (Sharded.unfriendUser currentUserId targetUserId w).2
  /\ issued (unfriendUser currentUserId targetUserId) w = [RunTransaction]
  /\ issued (Sharded.unfriendUser currentUserId targetUserId) w
     = [BatchCommit ["users/" +:+ currentUserId; "users/" +:+ targetUserId]].
Proof.
  unfold issued, unfriendUser, Sharded.unfriendUser. fs_steps.
  destruct (commit _ (store w)); cbn; repeat split; apply drop_app_length.
Qed.

Lemma filter_all {A} (P : A -> Prop) `{forall x, Decision (P x)} (l : list A) :
  Forall P l -> filter P l = l.
Proof.
  induction 1 as [|x l Hx Hl IH]; [done|].
  rewrite filter_cons_True by done. by rewrite IH.
Qed.

Lemma arrayRemove_arrayUnion `{EqDecision A} (x : A) (l : list A) :
  x ∉ l -> arrayRemove x (arrayUnion x l) = l.
Proof.
  intros Hx. unfold arrayUnion, arrayRemove. rewrite decide_False by done.
  rewrite filter_app, filter_cons_False, filter_nil, app_nil_r by (by intros ?).
  apply filter_all. apply Forall_forall. intros y Hy ->. done.
Qed.

Lemma remove_add_friend x u :
  x ∉ u_friendIds u -> remove_friend x (add_friend x u) = u.
Proof.
  intros Hx. destruct u. cbn [u_friendIds] in Hx.
  unfold remove_friend, add_friend.
  cbn [u_friendIds u_name u_username u_email u_avatarUrl
       u_notificationSettings u_createdAt u_commentingSuspendedUntil
       u_lastActiveTimestamp].
  by rewrite arrayRemove_arrayUnion.
Qed.

Lemma acceptFriendRequest_run currentUserId requestingUserId w request cu ru :
  let requestId := requestingUserId +:+ "_" +:+ currentUserId in
  coll_friendRequests (store w) !! requestId = Some request ->
  fr_status request = "pending" ->
  coll_users (store w) !! currentUserId = Some cu ->
  coll_users (store w) !! requestingUserId = Some ru ->
  requestingUserId ≠ currentUserId ->
  acceptFriendRequest currentUserId requestingUserId w
  = (Returned (),
     mkWorld
       (set_friendRequests (delete requestId)
          (set_userNotifications
             <[(requestingUserId, ids w O) :=
                 mkUserNotification "friend_request_approved"
                   (mkAuthor currentUserId (u_name cu) (u_avatarUrl cu)
                      (u_username cu))
                   (clock w O) false]>
             (set_users
                (λ _, <[requestingUserId := add_friend currentUserId ru]>
                        (<[currentUserId := add_friend requestingUserId cu]>
                           (coll_users (store w))))
                (store w))))
       (calls w ++ [RunTransaction]) (λ n, clock w (S n)) (tza w)
       (λ n, ids w (S n))).
Proof.
  intros requestId Hreq Hpending Hcu Hru Hne.
  unfold acceptFriendRequest. fold requestId. fs_steps. rewrite Hreq.
  rewrite decide_True by done. fs_steps. rewrite Hcu.
  unfold serverTimestamp. fs_steps.
  rewrite (ServiceFacts.accept_commit _ _ _ _ _ _ _ Hcu).
  rewrite lookup_insert_ne by done. rewrite Hru. reflexivity.
Qed.

(** X7. Accepting a request and then unfriending is a round trip on the
    profiles: when the two users were not yet in each other's [friendIds],
    [unfriendUser] after [acceptFriendRequest] answers [true] and leaves
    every profile as it was before the request was accepted. *)
Theorem accept_then_unfriend currentUserId requestingUserId w request cu ru :
  coll_friendRequests (store w)
    !! (requestingUserId +:+ "_" +:+ currentUserId) = Some request ->
  fr_status request = "pending" ->
  coll_users (store w) !! currentUserId = Some cu ->
  coll_users (store w) !! requestingUserId = Some ru ->
  requestingUserId ≠ currentUserId ->
  requestingUserId ∉ u_friendIds cu ->
  currentUserId ∉ u_friendIds ru ->
  let accepted := (acceptFriendRequest currentUserId requestingUserId w).2 in
  let result := unfriendUser currentUserId requestingUserId accepted in
  result.1 = Returned true
  /\ coll_users (store result.2) = coll_users (store w).
Proof.
  intros Hreq Hpending Hcu Hru Hne Hnew1 Hnew2 accepted result.
  subst result accepted.
  rewrite (acceptFriendRequest_run _ _ _ _ _ _ Hreq Hpending Hcu Hru Hne).
  cbn [snd]. unfold unfriendUser. fs_steps.
  rewrite (unfriend_commit _ _ _ (add_friend requestingUserId cu)).
  2:{ cbn. rewrite lookup_insert_ne by done. apply lookup_insert_eq. }
  cbn [coll_users set_users set_userNotifications set_friendRequests].
  rewrite lookup_insert_ne, lookup_insert_eq by done. cbn. split; [done|].
  rewrite !remove_add_friend by done.
  apply map_eq. intros k.
  destruct (decide (k = requestingUserId)) as [->|Hk1];
    [by rewrite lookup_insert_eq|rewrite lookup_insert_ne by done].
  destruct (decide (k = currentUserId)) as [->|Hk2];
    [by rewrite lookup_insert_eq|by rewrite !lookup_insert_ne by done].
Qed.

Lemma accept_then_unfriend_witness :
  coll_users
    (store (unfriendUser "u1" "u2"
              (acceptFriendRequest "u1" "u2" (worldOf withRequest 0)).2).2)
  = coll_users withRequest.
Proof.
  refine (proj2 (accept_then_unfriend "u1" "u2" (worldOf withRequest 0)
                   pendingRequest aliceData bobData eq_refl eq_refl eq_refl
                   eq_refl _ _ _)).
  - discriminate.
  - apply not_elem_of_nil.
  - apply not_elem_of_nil.
Defined.

Lemma addFriend_run currentUserId targetUserId w sender receiver :
  currentUserId ≠ "" ->
  coll_users (store w) !! currentUserId = Some sender ->
  coll_users (store w) !! targetUserId = Some receiver ->
  let requestId := currentUserId +:+ "_" +:+ targetUserId in
  addFriend currentUserId targetUserId w
  = (Returned (mkAddFriendResult true None),
     mkWorld
       (set_friendRequests
          <[requestId :=
              mkFriendRequest
                (mkAuthor currentUserId (u_name sender) (u_avatarUrl sender)
                   (u_username sender))
                (mkAuthor targetUserId (u_name receiver)
                   (u_avatarUrl receiver) (u_username receiver))
                "pending" (clock w O)]>
          (store w))
       (calls w ++ [GetDoc ("users/" +:+ currentUserId);
                    GetDoc ("users/" +:+ targetUserId);
                    SetDoc ("friendRequests/" +:+ requestId)])
       (λ n, clock w (S n)) (tza w) (ids w)).
Proof.
  intros Hsigned Hsender Hreceiver requestId. unfold addFriend.
  rewrite decide_False by done. unfold getUserProfileById, serverTimestamp.
  fs_steps. rewrite Hsender, Hreceiver. cbn. by rewrite <- !app_assoc.
Qed.

Lemma checkFriendshipStatus_result currentUserId profileUserId w :
  (checkFriendshipStatus currentUserId profileUserId w).1
  = Returned
      (if bool_decide
            (profileUserId
             ∈ from_option u_friendIds []
                 (coll_users (store w) !! currentUserId))
       then FRIENDS
       else
         match coll_friendRequests (store w)
                 !! (currentUserId +:+ "_" +:+ profileUserId),
               coll_friendRequests (store w)
                 !! (profileUserId +:+ "_" +:+ currentUserId) with
         | Some r, _ =>
             if decide (fr_status r = "accepted") then FRIENDS
             else REQUEST_SENT
         | None, Some r =>
             if decide (fr_status r = "accepted") then FRIENDS
             else PENDING_APPROVAL
         | None, None => NOT_FRIENDS
         end).
Proof.
  unfold checkFriendshipStatus, getUserProfileById. fs_steps.
  destruct (coll_users (store w) !! currentUserId) as [cu|]; cbn.
  - destruct (bool_decide (profileUserId ∈ u_friendIds cu)); [done|].
    fs_steps.
    destruct (coll_friendRequests (store w) !! (currentUserId +:+ _))
      as [r|]; [by destruct (decide (fr_status r = "accepted"))|].
    destruct (coll_friendRequests (store w) !! (profileUserId +:+ _))
      as [r|]; [by destruct (decide (fr_status r = "accepted"))|done].
  - rewrite bool_decide_eq_false_2 by apply not_elem_of_nil.
    fs_steps.
    destruct (coll_friendRequests (store w) !! (currentUserId +:+ _))
      as [r|]; [by destruct (decide (fr_status r = "accepted"))|].
    destruct (coll_friendRequests (store w) !! (profileUserId +:+ _))
      as [r|]; [by destruct (decide (fr_status r = "accepted"))|done].
Qed.

(** X8. The life of a friend request.  After [addFriend] from a signed-in
    user with a profile to another user with a profile, neither yet in the
    other's [friendIds] and with no request the other way,
    [checkFriendshipStatus] answers [REQUEST_SENT] to the sender and
    [PENDING_APPROVAL] to the receiver; once the receiver has accepted it
    answers [FRIENDS] to both; and had the sender cancelled instead, it
    answers [NOT_FRIENDS] to both. *)
Theorem friend_request_flow sender receiver w su ru :
  sender ≠ "" ->
  coll_users (store w) !! sender = Some su ->
  coll_users (store w) !! receiver = Some ru ->
  receiver ∉ u_friendIds su ->
  sender ∉ u_friendIds ru ->
  receiver +:+ "_" +:+ sender ≠ sender +:+ "_" +:+ receiver ->
  coll_friendRequests (store w) !! (receiver +:+ "_" +:+ sender) = None ->
  let sent := (addFriend sender receiver w).2 in
  let accepted := (acceptFriendRequest receiver sender sent).2 in
  let cancelled := (cancelFriendRequest sender receiver sent).2 in
  (addFriend sender receiver w).1 = Returned (mkAddFriendResult true None)
  /\ (checkFriendshipStatus sender receiver sent).1 = Returned REQUEST_SENT
  /\ (checkFriendshipStatus receiver sender sent).1 = Returned PENDING_APPROVAL
  /\ (checkFriendshipStatus sender receiver accepted).1 = Returned FRIENDS
  /\ (checkFriendshipStatus receiver sender accepted).1 = Returned FRIENDS
  /\ (checkFriendshipStatus sender receiver cancelled).1 = Returned NOT_FRIENDS
  /\ (checkFriendshipStatus receiver sender cancelled).1 = Returned NOT_FRIENDS.
Proof.
  intros Hsigned Hsu Hru Hnew1 Hnew2 Hids Hnone sent accepted cancelled.
  assert (sender ≠ receiver) as Hne by (intros ->; done).
  pose proof (addFriend_run _ _ _ _ _ Hsigned Hsu Hru) as Hsent.
  cbv zeta in Hsent.
  split; [by rewrite Hsent|].
  assert (coll_users (store sent) = coll_users (store w)) as Husers
    by (subst sent; by rewrite Hsent).
  assert (coll_friendRequests (store sent)
          = <[sender +:+ "_" +:+ receiver :=
                mkFriendRequest
                  (mkAuthor sender (u_name su) (u_avatarUrl su) (u_username su))
                  (mkAuthor receiver (u_name ru) (u_avatarUrl ru)
                     (u_username ru))
                  "pending" (clock w O)]> (coll_friendRequests (store w)))
    as Hrequests by (subst sent; by rewrite Hsent).
  split.
  { rewrite checkFriendshipStatus_result, Husers, Hsu, Hrequests. cbn.
    rewrite bool_decide_eq_false_2 by done.
    rewrite lookup_insert_eq. by rewrite decide_False. }
  split.
  { rewrite checkFriendshipStatus_result, Husers, Hru, Hrequests. cbn.
    rewrite bool_decide_eq_false_2 by done.
    rewrite lookup_insert_ne, Hnone, lookup_insert_eq by done.
    by rewrite decide_False. }
  assert (exists st,
            store accepted = st
            /\ coll_users st
               = <[sender := add_friend receiver su]>
                   (<[receiver := add_friend sender ru]> (coll_users (store w))))
    as (st & Hst & Haccepted).
  { eexists. split; [reflexivity|]. subst accepted.
    erewrite acceptFriendRequest_run.
    - cbn. by rewrite Husers.
    - rewrite Hrequests. apply lookup_insert_eq.
    - done.
    - by rewrite Husers.
    - by rewrite Husers.
    - done. }
  split.
  { rewrite checkFriendshipStatus_result, Hst, Haccepted, lookup_insert_eq. cbn.
    rewrite bool_decide_eq_true_2; [done|]. apply ServiceFacts.elem_of_arrayUnion. }
  split.
  { rewrite checkFriendshipStatus_result, Hst, Haccepted.
    rewrite lookup_insert_ne, lookup_insert_eq by done. cbn.
    rewrite bool_decide_eq_true_2; [done|]. apply ServiceFacts.elem_of_arrayUnion. }
  assert (coll_users (store cancelled) = coll_users (store w)
          /\ coll_friendRequests (store cancelled)
             = delete (sender +:+ "_" +:+ receiver)
                 (coll_friendRequests (store sent)))
    as [Husers' Hrequests'].
  { subst cancelled. unfold cancelFriendRequest, deleteDoc. fs_steps. cbn.
    by rewrite Husers. }
  split.
  { rewrite checkFriendshipStatus_result, Husers', Hsu, Hrequests', Hrequests.
    cbn. rewrite bool_decide_eq_false_2 by done.
    rewrite lookup_delete_eq, lookup_delete_ne, lookup_insert_ne by done.
    by rewrite Hnone. }
  { rewrite checkFriendshipStatus_result, Husers', Hru, Hrequests', Hrequests.
    cbn. rewrite bool_decide_eq_false_2 by done.
    rewrite lookup_delete_ne, lookup_insert_ne, Hnone by done.
    by rewrite lookup_delete_eq. }
Qed.

Lemma friend_request_flow_witness :
  (checkFriendshipStatus "u1" "u2" (addFriend "u1" "u2" (worldOf usersOnly 0)).2).1
  = Returned REQUEST_SENT.
Proof.
  refine (proj1 (proj2 (friend_request_flow "u1" "u2" (worldOf usersOnly 0)
                          aliceData bobData _ eq_refl eq_refl _ _ _ eq_refl))).
  - discriminate.
  - apply not_elem_of_nil.
  - apply not_elem_of_nil.
  - discriminate.
Defined.

(** X9. Withdrawing a request undoes [addFriend].  When there was no
    request from the sender to the receiver, sending one and then
    cancelling it (by the sender) or declining it (by the receiver) leaves
    the store exactly as it was; either way the withdrawal is one
    [deleteDoc] on the request's document. *)
Theorem withdrawn_request_leaves_no_trace sender receiver w su ru :
  sender ≠ "" ->
  coll_users (store w) !! sender = Some su ->
  coll_users (store w) !! receiver = Some ru ->
  coll_friendRequests (store w) !! (sender +:+ "_" +:+ receiver) = None ->
  let sent := (addFriend sender receiver w).2 in
  (cancelFriendRequest sender receiver sent).1 = Returned true
  /\ store (cancelFriendRequest sender receiver sent).2 = store w
  /\ (declineFriendRequest receiver sender sent).1 = Returned ()
  /\ store (declineFriendRequest receiver sender sent).2 = store w
  /\ issued (cancelFriendRequest sender receiver) sent
     = [DeleteDoc ("friendRequests/" +:+ sender +:+ "_" +:+ receiver)]
  /\ issued (declineFriendRequest receiver sender) sent
     = [DeleteDoc ("friendRequests/" +:+ sender +:+ "_" +:+ receiver)].
Proof.
  intros Hsigned Hsu Hru Hnone sent. subst sent.
  rewrite (addFriend_run _ _ _ _ _ Hsigned Hsu Hru). cbn [snd].
  unfold issued, cancelFriendRequest, declineFriendRequest, deleteDoc.
  fs_steps. cbn [fst snd store calls].
  assert (forall r,
            set_friendRequests (delete (sender +:+ "_" +:+ receiver))
              (set_friendRequests <[sender +:+ "_" +:+ receiver := r]> (store w))
            = store w) as Hundo.
  { intros r. destruct (store w). unfold set_friendRequests. cbn in *.
    f_equal. rewrite delete_insert_eq. by apply delete_id. }
  rewrite !Hundo. repeat split; apply drop_app_length.
Qed.

Lemma withdrawn_request_leaves_no_trace_witness :
  store (cancelFriendRequest "u1" "u2"
           (addFriend "u1" "u2" (worldOf usersOnly 0)).2).2
  = usersOnly.
Proof.
  refine (proj1 (proj2 (withdrawn_request_leaves_no_trace "u1" "u2"
                          (worldOf usersOnly 0) aliceData bobData _ eq_refl
                          eq_refl eq_refl))).
  discriminate.
Defined.

(** ** Reading several profiles *)

Lemma chunksFrom_concat userIds : forall turns i,
  (length userIds - i <= turns)%nat ->
  concat (chunksFrom turns i userIds) = drop i userIds.
Proof.
  induction turns as [|turns IH]; intros i Hturns; cbn [chunksFrom].
  - rewrite drop_ge by lia. done.
  - destruct (decide (i < length userIds)%nat) as [Hlt|Hge].
    + cbn [concat]. rewrite IH by lia. unfold slice.
      replace (i + 10 - i)%nat with 10%nat by lia.
      rewrite <- drop_drop. apply take_drop.
    + rewrite drop_ge by lia. done.
Qed.

Lemma chunksFrom_sizes userIds : forall turns i,
  Forall (λ chunk, (1 <= length chunk <= 10)%nat) (chunksFrom turns i userIds).
Proof.
  induction turns as [|turns IH]; intros i; cbn [chunksFrom]; [constructor|].
  destruct (decide (i < length userIds)%nat) as [Hlt|Hge]; [|constructor].
  constructor; [|apply IH].
  unfold slice. rewrite length_take, length_drop. lia.
Qed.

Lemma chunksFrom_length userIds : forall turns i,
  (length userIds - i <= turns)%nat ->
  length (chunksFrom turns i userIds)
  = ((length userIds - i + 9) `div` 10)%nat.
Proof.
  induction turns as [|turns IH]; intros i Hturns; cbn [chunksFrom].
  - replace (length userIds - i + 9)%nat with 9%nat by lia. done.
  - destruct (decide (i < length userIds)%nat) as [Hlt|Hge].
    + cbn [length]. rewrite IH by lia.
      destruct (decide (i + 10 <= length userIds)%nat) as [Hfull|Hlast].
      * replace (length userIds - i + 9)%nat
          with (length userIds - (i + 10) + 9 + 1 * 10)%nat by lia.
        rewrite Nat.div_add by done. lia.
      * replace (length userIds - (i + 10) + 9)%nat with 9%nat by lia.
        apply (Nat.div_unique _ 10 1 (length userIds - i - 1)); lia.
    + replace (length userIds - i + 9)%nat with 9%nat by lia. done.
Qed.

Lemma getDocs_run {A} (target : string) (read : Store -> list A) w :
  getDocs target read w
  = (Returned (read (store w)),
     mkWorld (store w) (calls w ++ [GetDocs target]) (clock w) (tza w) (ids w)).
Proof. reflexivity. Qed.

Lemma mapFs_getDocs_run {A} (target : list string -> string)
    (read : list string -> Store -> list A) cs : forall w,
  mapFs (λ c, getDocs (target c) (read c)) cs w
  = (Returned (map (λ c, read c (store w)) cs),
     mkWorld (store w) (calls w ++ map (λ c, GetDocs (target c)) cs)
       (clock w) (tza w) (ids w)).
Proof.
  induction cs as [|c cs IH]; intros w; cbn [mapFs map].
  - destruct w. cbn. by rewrite app_nil_r.
  - fs_steps. rewrite getDocs_run, IH. cbn. by rewrite <- app_assoc.
Qed.

Lemma getUsersByIds_run userIds w :
  getUsersByIds userIds w
  = (Returned
       (concat (map (λ c, map (λ e, docToUser e.1 e.2) (usersIn c (store w)))
                    (chunks userIds))),
     mkWorld (store w)
       (calls w
        ++ map (λ c, GetDocs ("users?id in " +:+ String.concat "," c))
               (chunks userIds))
       (clock w) (tza w) (ids w)).
Proof.
  unfold getUsersByIds. destruct (decide (length userIds = 0%nat)) as [He|Hne].
  - apply length_zero_iff_nil in He as ->. destruct w. cbn.
    by rewrite app_nil_r.
  - fs_steps.
    rewrite (mapFs_getDocs_run (λ c, "users?id in " +:+ String.concat "," c)
               usersIn).
    by rewrite map_map.
Qed.

Lemma elem_of_chunks userIds x :
  x ∈ userIds <-> exists chunk, x ∈ chunk /\ chunk ∈ chunks userIds.
Proof.
  rewrite <- ShardedFacts.elem_of_concat. unfold chunks.
  rewrite chunksFrom_concat by lia. done.
Qed.

Lemma elem_of_usersIn chunk st e :
  e ∈ usersIn chunk st <-> e.1 ∈ chunk /\ coll_users st !! e.1 = Some e.2.
Proof.
  unfold usersIn. rewrite (list_elem_of_filter (λ e, e.1 ∈ chunk)).
  destruct e as [id d]. by rewrite elem_of_map_to_list.
Qed.

Lemma elem_of_found (cs : list (list string)) st u :
  u ∈ concat (map (λ c, map (λ e, docToUser e.1 e.2) (usersIn c st)) cs)
  <-> (exists chunk, user_id u ∈ chunk /\ chunk ∈ cs)
      /\ exists d, coll_users st !! user_id u = Some d
                   /\ u = docToUser (user_id u) d.
Proof.
  rewrite ShardedFacts.elem_of_concat. split.
  - intros (l & Hu & Hl). apply list_elem_of_fmap in Hl as (c & -> & Hc).
    apply list_elem_of_fmap in Hu as ([id d] & -> & He).
    apply elem_of_usersIn in He as [Hid Hd]. cbn in *. eauto 6.
  - intros [(c & Hid & Hc) (d & Hd & Hu)].
    exists (map (λ e, docToUser e.1 e.2) (usersIn c st)). split.
    + apply list_elem_of_fmap. exists (user_id u, d). split; [done|].
      by apply elem_of_usersIn.
    + apply list_elem_of_fmap. eauto.
Qed.

Lemma found_ids (cs : list (list string)) st :
  NoDup (concat cs) ->
  NoDup (map user_id
           (concat (map (λ c, map (λ e, docToUser e.1 e.2) (usersIn c st)) cs))).
Proof.
  induction cs as [|c cs IH]; cbn [concat map]; [constructor|].
  intros (Hc & Hdisj & Hcs)%NoDup_app. rewrite map_app. apply NoDup_app.
  split; [|split; [|by apply IH]].
  - rewrite map_map. cbn. unfold usersIn.
    eapply (NoDup_fmap_fst (filter _ _)).
    + intros id d1 d2 [_ H1%elem_of_map_to_list]%list_elem_of_filter
                      [_ H2%elem_of_map_to_list]%list_elem_of_filter.
      congruence.
    + apply NoDup_filter, NoDup_map_to_list.
  - intros id Hin1 Hin2.
    apply list_elem_of_fmap in Hin1 as (u1 & -> & Hu1).
    apply list_elem_of_fmap in Hu1 as ([id d] & -> & He).
    apply elem_of_usersIn in He as [Hid _]. cbn in *.
    apply list_elem_of_fmap in Hin2 as (u2 & Heq & Hu2).
    apply elem_of_found in Hu2 as [(c' & Hid' & Hc') _].
    apply (Hdisj id Hid). apply ShardedFacts.elem_of_concat.
    exists c'. by rewrite Heq.
Qed.

(** X10. [getUsersByIds] asks the backend in chunks of ten: the chunks put
    together are the ids asked for, each chunk has between one and ten ids,
    and the calls issued are one [getDocs] per chunk, that is the number of
    ids divided by ten and rounded up; none for an empty list. *)
Theorem getUsersByIds_queries userIds w :
  concat (chunks userIds) = userIds
  /\ Forall (λ chunk, (1 <= length chunk <= 10)%nat) (chunks userIds)
  /\ issued (getUsersByIds userIds) w
     = map (λ chunk, GetDocs ("users?id in " +:+ String.concat "," chunk))
           (chunks userIds)
  /\ length (issued (getUsersByIds userIds) w)
     = ((length userIds + 9) `div` 10)%nat
  /\ store (getUsersByIds userIds w).2 = store w.
Proof.
  assert (issued (getUsersByIds userIds) w
          = map (λ chunk, GetDocs ("users?id in " +:+ String.concat "," chunk))
                (chunks userIds)) as Hissued.
  { apply ServiceFacts.issued_app. by rewrite getUsersByIds_run. }
  split; [unfold chunks; by rewrite chunksFrom_concat by lia|].
  split; [apply chunksFrom_sizes|]. split; [done|].
  split; [|by rewrite getUsersByIds_run].
  rewrite Hissued, length_map. unfold chunks.
  rewrite chunksFrom_length by lia. by rewrite Nat.sub_0_r.
Qed.

(** X11. [getUsersByIds] returns the profiles of exactly those ids asked
    for that have a profile, each under its id; an id asked for once is
    returned at most once. *)
Theorem getUsersByIds_result userIds w :
  exists users,
    (getUsersByIds userIds w).1 = Returned users
    /\ (forall u,
          u ∈ users
          <-> user_id u ∈ userIds
              /\ exists d, coll_users (store w) !! user_id u = Some d
                           /\ u = docToUser (user_id u) d)
    /\ (NoDup userIds -> NoDup (map user_id users)).
Proof.
  rewrite getUsersByIds_run. eexists. split; [reflexivity|]. split.
  - intros u. rewrite elem_of_found, <- elem_of_chunks. done.
  - intros Hnodup. apply found_ids. unfold chunks.
    by rewrite chunksFrom_concat by lia.
Qed.

Lemma getUsersByIds_result_witness :
  NoDup (map user_id (returned (getUsersByIds ["u2"; "u9"; "u1"]
                                  (worldOf usersOnly 0)))).
Proof.
  destruct (getUsersByIds_result ["u2"; "u9"; "u1"] (worldOf usersOnly 0))
    as (users & Hrun & _ & Hnodup).
  unfold returned. rewrite Hrun. apply Hnodup.
  by apply (bool_decide_unpack _).
Defined.





End FriendFacts.

(* ===================================================================== *)
(** * Further properties of the notifications kept under the user         *)
(* ===================================================================== *)

Module InboxFacts.
Import JsDate Firestore Service Observe Samples.

Lemma set_read_twice n : set_read (set_read n) = set_read n.
Proof. reflexivity. Qed.

Lemma upd_userNotification_some uid id f st n :
  coll_userNotifications st !! (uid, id) = Some n ->
  upd_userNotification uid id f st
  = Some (set_userNotifications <[(uid, id) := f n]> st).
Proof. intros Hn. unfold upd_userNotification. by rewrite Hn. Qed.

Lemma upd_userNotification_none uid id f st :
  coll_userNotifications st !! (uid, id) = None ->
  upd_userNotification uid id f st = None.
Proof. intros Hn. unfold upd_userNotification. by rewrite Hn. Qed.

Lemma commit_marks userId notificationIds : forall st,
  Forall (λ id, is_Some (coll_userNotifications st !! (userId, id)))
         notificationIds ->
  exists st',
    commit (map (λ id, upd_userNotification userId id set_read) notificationIds)
           st = Some st'
    /\ (forall uid id,
          coll_userNotifications st' !! (uid, id)
          = if decide (uid = userId /\ id ∈ notificationIds)
            then set_read <$> coll_userNotifications st !! (uid, id)
            else coll_userNotifications st !! (uid, id))
    /\ set_userNotifications (λ _, coll_userNotifications st) st' = st.
Proof.
  induction notificationIds as [|id0 rest IH]; intros st Hall.
  - exists st. split; [done|]. split.
    + intros uid id. rewrite decide_False; [done|].
      intros [_ ?%elem_of_nil]. done.
    + by destruct st.
  - apply Forall_cons in Hall as [[n Hn] Hrest].
    cbn [map]. rewrite NotificationFacts.commit_cons, (upd_userNotification_some _ _ _ _ _ Hn).
    cbn [mbind option_bind].
    set (st1 := set_userNotifications <[(userId, id0) := set_read n]> st).
    destruct (IH st1) as (st' & Hcommit & Hmarks & Hrest').
    { eapply Forall_impl; [exact Hrest|]. intros id [m Hm]. subst st1. cbn.
      destruct (decide (id = id0)) as [->|Hne].
      - rewrite lookup_insert_eq. eauto.
      - rewrite lookup_insert_ne by congruence. eauto. }
    exists st'. split; [done|]. split.
    + intros uid id. rewrite Hmarks. subst st1. cbn.
      destruct (decide ((uid, id) = (userId, id0))) as [Heq|Hne].
      * injection Heq as -> ->. rewrite lookup_insert_eq, Hn.
        rewrite (decide_True (P := userId = userId /\ id0 ∈ id0 :: rest))
          by (split; [done|apply elem_of_cons; by left]).
        by destruct (decide (userId = userId /\ id0 ∈ rest)).
      * rewrite lookup_insert_ne by congruence.
        destruct (decide (uid = userId /\ id ∈ rest)) as [[-> Hin]|Hout].
        -- rewrite decide_True; [done|].
           split; [done|apply elem_of_cons; by right].
        -- rewrite decide_False; [done|].
           intros [-> [->|Hin]%elem_of_cons]; [done|]. by apply Hout.
    + subst st1. destruct st, st'. unfold set_userNotifications in *.
      cbn in *. congruence.
Qed.

Lemma commit_misses userId notificationIds : forall st,
  Exists (λ id, coll_userNotifications st !! (userId, id) = None)
         notificationIds ->
  commit (map (λ id, upd_userNotification userId id set_read) notificationIds)
         st = None.
Proof.
  induction notificationIds as [|id0 rest IH]; intros st Hex.
  - by apply Exists_nil in Hex.
  - cbn [map]. rewrite NotificationFacts.commit_cons.
    destruct (coll_userNotifications st !! (userId, id0)) as [n|] eqn:Hn;
      [|by rewrite upd_userNotification_none].
    rewrite (upd_userNotification_some _ _ _ _ _ Hn).
    cbn [mbind option_bind]. apply IH.
    apply Exists_cons in Hex as [Hex|Hex]; [congruence|].
    eapply Exists_impl; [exact Hex|]. intros id Hnone. cbn.
    rewrite lookup_insert_ne; [done|]. intros [= ->]. congruence.
Qed.

(** X14. [markNotificationsAsRead] on the notifications kept under the
    user is all or nothing.  With no ids it issues no call.  Otherwise it
    is one write batch: when every id names a notification of the user,
    exactly those are marked as read and nothing else changes; when some id
    names none, it throws and no notification is marked. *)
Theorem markNotificationsAsRead_all_or_nothing userId notificationIds w :
  let result := markNotificationsAsRead userId notificationIds w in
  (notificationIds = [] -> result = (Returned (), w))
  /\ (notificationIds ≠ [] ->
      issued (markNotificationsAsRead userId notificationIds) w
      = [BatchCommit
           (map (λ id, "users/" +:+ userId +:+ "/notifications/" +:+ id)
                notificationIds)])
  /\ (Forall (λ id, is_Some (coll_userNotifications (store w) !! (userId, id)))
             notificationIds ->
      result.1 = Returned ()
      /\ (forall uid id,
            coll_userNotifications (store result.2) !! (uid, id)
            = if decide (uid = userId /\ id ∈ notificationIds)
              then set_read <$> coll_userNotifications (store w) !! (uid, id)
              else coll_userNotifications (store w) !! (uid, id))
      /\ set_userNotifications (λ _, coll_userNotifications (store w))
           (store result.2)
         = store w)
  /\ (Exists (λ id, coll_userNotifications (store w) !! (userId, id) = None)
             notificationIds ->
      (exists e, result.1 = Thrown e) /\ store result.2 = store w).
Proof.
  intros result. subst result. unfold markNotificationsAsRead.
  destruct (decide (length notificationIds = 0%nat)) as [He|Hne].
  { apply length_zero_iff_nil in He as ->. split; [done|].
    split; [done|]. split.
    - intros _. split; [done|]. split.
      + intros uid id. rewrite decide_False; [done|].
        intros [_ ?%elem_of_nil]. done.
      + cbn. by destruct (store w).
    - by intros ?%Exists_nil. }
  split; [by intros ->|]. split.
  { intros _. unfold issued. fs_steps.
    destruct (commit _ (store w)); cbn; apply drop_app_length. }
  split.
  - intros Hall. destruct (commit_marks _ _ _ Hall) as (st' & Hc & Hm & Hr).
    fs_steps. rewrite Hc. cbn. done.
  - intros Hex. fs_steps. rewrite (commit_misses _ _ _ Hex). cbn. eauto.
Qed.

Lemma markNotificationsAsRead_all_or_nothing_witness :
  un_read
    <$> coll_userNotifications
          (store (markNotificationsAsRead "u2" ["id0"] befriended).2)
        !! ("u2", "id0")
  = Some true.
Proof.
  destruct (proj1 (proj2 (proj2 (markNotificationsAsRead_all_or_nothing
                                   "u2" ["id0"] befriended))))
    as (_ & Hmarked & _).
  - repeat constructor. by eexists.
  - rewrite Hmarked. reflexivity.
Defined.

End InboxFacts.

(* ===================================================================== *)
(** * Further properties of posts, reactions and polls                    *)
(* ===================================================================== *)

Module PostFacts.
Import JsDate Firestore Service Observe Samples.

(** ** Deleting a post *)

(** X15. [deletePost] deletes a post only for its author.  It answers
    [true] exactly when the post exists and [userId] is the id of its
    author; then the post is gone and nothing else has changed.  In every
    other case the store is unchanged.  It reads the post once and, for the
    author, issues one [deleteDoc]; it does not use a transaction. *)
Theorem deletePost_spec postId userId w :
  let result := deletePost postId userId w in
  let authored :=
    exists postData, coll_posts (store w) !! postId = Some postData
                     /\ a_id (p_author postData) = userId in
  (authored ->
   result.1 = Returned true
   /\ store result.2 = set_posts (delete postId) (store w)
   /\ coll_posts (store result.2) !! postId = None
   /\ issued (deletePost postId userId) w
      = [GetDoc ("posts/" +:+ postId); DeleteDoc ("posts/" +:+ postId)])
  /\ (¬ authored ->
      result.1 = Returned false
      /\ store result.2 = store w
      /\ issued (deletePost postId userId) w = [GetDoc ("posts/" +:+ postId)]).
Proof.
  intros result authored. subst result authored.
  unfold issued, deletePost, deleteDoc. fs_steps.
  destruct (coll_posts (store w) !! postId) as [postData|] eqn:Hpost; cbn.
  2:{ split; [intros (? & ? & _); discriminate|].
      intros _. repeat split. apply drop_app_length. }
  destruct (decide (a_id (p_author postData) ≠ userId)) as [Hother|Hauthor];
    cbn.
  - split; [intros (pd & Heq & Hid); congruence|].
    intros _. repeat split. apply drop_app_length.
  - apply dec_stable in Hauthor. split; [|intros []; eauto].
    intros _. split; [done|]. split; [done|].
    split; [apply lookup_delete_eq|].
    rewrite <- app_assoc. apply drop_app_length.
Qed.

Lemma deletePost_spec_witness :
  coll_posts (store (deletePost "p1" "u1" (worldOf withPost 0)).2) !! "p1"
  = None.
Proof.
  refine (proj1 (proj2 (proj2 (proj1 (deletePost_spec "p1" "u1"
                                        (worldOf withPost 0)) _)))).
  exists likedPost. split; reflexivity.
Defined.

(** ** Reactions *)

Lemma toggle_comm u1 r1 u2 r2 (m : gmap string string) :
  u1 ≠ u2 ->
  toggle u2 r2 (toggle u1 r1 m) = toggle u1 r1 (toggle u2 r2 m).
Proof.
  intros Hne. apply map_eq. intros k.
  destruct (decide (k = u1)) as [->|H1].
  - rewrite (ServiceFacts.toggle_lookup_ne u2 u1) by done.
    rewrite !ServiceFacts.toggle_lookup.
    by rewrite (ServiceFacts.toggle_lookup_ne u2 u1) by done.
  - rewrite (ServiceFacts.toggle_lookup_ne u1 k r1 (toggle u2 r2 m)) by done.
    destruct (decide (k = u2)) as [->|H2].
    + rewrite !ServiceFacts.toggle_lookup.
      by rewrite (ServiceFacts.toggle_lookup_ne u1 u2) by done.
    + by rewrite !ServiceFacts.toggle_lookup_ne by done.
Qed.

Lemma set_posts_twice k (a b : PostData) st :
  set_posts <[k := a]> (set_posts <[k := b]> st) = set_posts <[k := a]> st.
Proof. unfold set_posts. cbn. by rewrite insert_insert_eq. Qed.

Lemma reactToPost_missing postId userId r w :
  coll_posts (store w) !! postId = None ->
  reactToPost postId userId r w
  = (Returned false,
     mkWorld (store w) (calls w ++ [RunTransaction]) (clock w) (tza w) (ids w)).
Proof. intros Hpost. unfold reactToPost. fs_run. by rewrite Hpost. Qed.

(** X16. The reactions of two different users to a post do not interfere:
    whichever of the two [reactToPost] calls comes first, the two calls
    give the same answers and leave the same world. *)
Theorem reactions_of_two_users_commute postId u1 r1 u2 r2 w :
  u1 ≠ u2 ->
  let first := reactToPost postId u1 r1 w in
  let second := reactToPost postId u2 r2 w in
  reactToPost postId u2 r2 first.2 = reactToPost postId u1 r1 second.2
  /\ first.1 = second.1.
Proof.
  intros Hne first second. subst first second.
  destruct (coll_posts (store w) !! postId) as [postData|] eqn:Hpost.
  - rewrite !(ServiceFacts.reactToPost_run _ _ _ _ _ Hpost). cbn [fst snd].
    split; [|done].
    erewrite !ServiceFacts.reactToPost_run
      by (cbn; apply lookup_insert_eq).
    cbn [store calls clock tza ids with_reactions p_reactions default
         p_author p_caption p_createdAt p_comments p_commentCount p_poll].
    unfold id. rewrite !set_posts_twice, (toggle_comm u1 r1 u2 r2) by done.
    reflexivity.
  - rewrite !(reactToPost_missing _ _ _ _ Hpost). cbn [fst snd].
    split; [|done].
    by rewrite !reactToPost_missing by done.
Qed.

Lemma reactions_of_two_users_commute_witness :
  reactToPost "p1" "u2" "like"
    (reactToPost "p1" "u1" "love" (worldOf withPost 0)).2
  = reactToPost "p1" "u1" "love"
      (reactToPost "p1" "u2" "like" (worldOf withPost 0)).2.
Proof.
  refine (proj1 (reactions_of_two_users_commute "p1" "u1" "love" "u2" "like"
                   (worldOf withPost 0) _)).
  discriminate.
Defined.

Lemma reactToComment_run postId commentId userId r w postData i comment :
  coll_posts (store w) !! postId = Some postData ->
  list_find (λ c, c_id c = commentId) (default [] (p_comments postData))
  = Some (i, comment) ->
  reactToComment postId commentId userId r w
  = (Returned true,
     mkWorld
       (set_posts
          <[postId :=
              with_comments
                (<[i := comment_with_reactions
                          (toggle userId r (default ∅ (c_reactions comment)))
                          comment]>
                   (default [] (p_comments postData)))
                postData]> (store w))
       (calls w ++ [RunTransaction]) (clock w) (tza w) (ids w)).
Proof.
  intros Hpost Hfind. unfold reactToComment. fs_run. rewrite Hpost.
  cbv beta iota zeta. rewrite Hfind. fs_run.
  unfold upd_post. rewrite Hpost. reflexivity.
Qed.

Lemma reactToComment_fails postId commentId userId r w :
  Forall (λ c, c_id c ≠ commentId) (commentsOf (store w) postId) ->
  reactToComment postId commentId userId r w
  = (Returned false,
     mkWorld (store w) (calls w ++ [RunTransaction]) (clock w) (tza w) (ids w)).
Proof.
  intros Hnone. unfold reactToComment, commentsOf in *. fs_run.
  destruct (coll_posts (store w) !! postId) as [postData|]; [|done].
  cbn in Hnone. cbv beta iota zeta.
  destruct (list_find _ (default [] (p_comments postData)))
    as [[i comment]|] eqn:Hfind; [|done].
  apply list_find_Some in Hfind as (Hi & Hid & _).
  rewrite Forall_forall in Hnone. exfalso. eapply Hnone; [|exact Hid].
  by eapply list_elem_of_lookup_2.
Qed.

(** X17. [reactToComment] toggles the user's reaction on one comment: the
    first comment of the post with the given id.  That comment keeps its
    id, author, text and date and gets the user's entry in its reactions
    removed when it already was [r] and set to [r] otherwise; every other
    comment, every other field of the post and every other post is kept.
    When the post is missing or has no comment with that id, the answer is
    [false] and the store is unchanged. *)
Theorem reactToComment_spec postId commentId userId r w :
  let result := reactToComment postId commentId userId r w in
  let before := commentsOf (store w) postId in
  let after := commentsOf (store result.2) postId in
  (Forall (λ c, c_id c ≠ commentId) before ->
   result.1 = Returned false /\ store result.2 = store w)
  /\ (forall (i : nat) comment,
        before !! i = Some comment ->
        c_id comment = commentId ->
        (forall (j : nat) c, (j < i)%nat -> before !! j = Some c ->
                             c_id c ≠ commentId) ->
        result.1 = Returned true
        /\ after
           = <[i := mkComment (c_id comment) (c_author comment)
                      (c_text comment) (c_createdAt comment)
                      (Some (toggle userId r
                               (default ∅ (c_reactions comment))))]> before
        /\ (forall j, j ≠ i -> after !! j = before !! j)
        /\ (exists postData postData',
              coll_posts (store w) !! postId = Some postData
              /\ coll_posts (store result.2) !! postId = Some postData'
              /\ p_author postData' = p_author postData
              /\ p_caption postData' = p_caption postData
              /\ p_createdAt postData' = p_createdAt postData
              /\ p_reactions postData' = p_reactions postData
              /\ p_commentCount postData' = p_commentCount postData
              /\ p_poll postData' = p_poll postData)
        /\ (forall other, other ≠ postId ->
            coll_posts (store result.2) !! other
            = coll_posts (store w) !! other)).
Proof.
  intros result before after. subst result before after. split.
  - intros Hnone. by rewrite reactToComment_fails.
  - intros i comment Hi Hid Hfirst.
    unfold commentsOf in Hi, Hfirst.
    destruct (coll_posts (store w) !! postId) as [postData|] eqn:Hpost;
      [|cbn in Hi; by rewrite lookup_nil in Hi].
    cbn in Hi, Hfirst.
    assert (list_find (λ c, c_id c = commentId) (default [] (p_comments postData))
            = Some (i, comment)) as Hfind.
    { apply list_find_Some. split; [done|]. split; [done|].
      intros j c Hj Hlt. by apply (Hfirst j c). }
    rewrite (reactToComment_run _ _ _ _ _ _ _ _ Hpost Hfind). cbn [fst snd store].
    assert (commentsOf
              (set_posts
                 <[postId :=
                     with_comments
                       (<[i := comment_with_reactions
                                 (toggle userId r
                                    (default ∅ (c_reactions comment)))
                                 comment]>
                          (default [] (p_comments postData)))
                       postData]> (store w)) postId
            = <[i := comment_with_reactions
                       (toggle userId r (default ∅ (c_reactions comment)))
                       comment]>
                (default [] (p_comments postData))) as Hafter.
    { unfold commentsOf. cbn. by rewrite lookup_insert_eq. }
    rewrite Hafter. unfold commentsOf. rewrite Hpost. cbn.
    split; [done|]. split; [done|].
    split; [intros j Hj; by apply list_lookup_insert_ne|].
    split.
    + eexists _, _. split; [done|]. split; [apply lookup_insert_eq|]. done.
    + intros other Hother. by rewrite lookup_insert_ne.
Qed.

Lemma reactToComment_spec_witness :
  commentsOf
    (store (reactToComment "p3" "c1" "u1" "love" (worldOf withComment 0)).2)
    "p3"
  = [mkComment "c1" bobMember (Some "nice")
       (Some (FsTimestamp 1735600000000)) (Some (<["u1" := "love"]> ∅))].
Proof.
  refine (proj1 (proj2 (proj2 (reactToComment_spec "p3" "c1" "u1" "love"
                                 (worldOf withComment 0))
                          O sampleComment eq_refl eq_refl _))).
  intros j c Hj. lia.
Defined.

(** ** Polls *)

Lemma vote_alter userId (optionIndex : nat) poll :
  poll_options (vote userId (Z.of_nat optionIndex) poll)
  = alter (λ option, mkPollOption (po_text option) (po_votes option + 1)
                       (po_votedBy option ++ [userId]))
          optionIndex (poll_options poll).
Proof.
  unfold vote. cbn [poll_options]. apply list_eq. intros i.
  rewrite list_lookup_imap.
  destruct (decide (i = optionIndex)) as [->|Hne].
  - rewrite list_lookup_alter_eq.
    destruct (poll_options poll !! optionIndex); [|done]. cbn.
    by rewrite decide_True.
  - rewrite list_lookup_alter_ne by done.
    destruct (poll_options poll !! i); [|done]. cbn.
    rewrite decide_False; [done|lia].
Qed.

Lemma vote_consistent userId (optionIndex : nat) poll :
  (optionIndex < length (poll_options poll))%nat ->
  hasVoted userId poll = false ->
  pollConsistent poll ->
  pollConsistent (vote userId (Z.of_nat optionIndex) poll).
Proof.
  intros Hrange Hfresh [Hcount Hvoters]. unfold pollConsistent.
  rewrite vote_alter.
  destruct (lookup_lt_is_Some_2 _ _ Hrange) as [option Hoption].
  assert (userId ∉ concat (map po_votedBy (poll_options poll))) as Hnew.
  { intros Hin. apply ShardedFacts.elem_of_concat in Hin as (l & Hin & Hl).
    apply list_elem_of_fmap in Hl as (o & -> & Ho).
    assert (hasVoted userId poll = true) as Hv
      by (apply ServiceFacts.hasVoted_spec; eauto).
    congruence. }
  rewrite <- (take_drop_middle _ _ _ Hoption) in Hcount, Hvoters, Hnew |- *.
  rewrite alter_app_r_alt by (rewrite length_take; lia).
  replace (optionIndex - length (take optionIndex (poll_options poll)))%nat
    with O by (rewrite length_take; lia).
  cbn [alter list_alter]. split.
  - apply Forall_app in Hcount as [H1 [Ho H2]%Forall_cons].
    apply Forall_app. split; [done|]. constructor; [|done]. cbn.
    rewrite length_app. cbn. lia.
  - rewrite map_app, concat_app in Hvoters, Hnew |- *.
    cbn [map concat po_votedBy] in *.
    rewrite <- (app_assoc (po_votedBy option) [userId]). cbn [app].
    rewrite app_assoc. apply NoDup_app. rewrite app_assoc in Hvoters, Hnew.
    apply NoDup_app in Hvoters as (H1 & Hdisj & H2).
    split; [done|]. split.
    + intros x Hx [->|Hin]%elem_of_cons.
      * apply Hnew. apply elem_of_app. by left.
      * by apply (Hdisj x).
    + constructor; [|done]. intros Hin. apply Hnew. apply elem_of_app.
      by right.
Qed.

(** X18. [voteOnPoll] keeps a poll consistent.  If in the poll of a post
    every option's [votes] is the length of its [votedBy] and nobody is
    listed as a voter twice, the same holds of the poll after
    [voteOnPoll], whatever the user, the index and the outcome. *)
Theorem voteOnPoll_keeps_poll_consistent userId postId optionIndex w poll :
  pollOf (store w) postId = Some poll ->
  pollConsistent poll ->
  exists poll',
    pollOf (store (voteOnPoll userId postId optionIndex w).2) postId
    = Some poll'
    /\ pollConsistent poll'.
Proof.
  unfold pollOf. intros Hpoll Hconsistent.
  destruct (coll_posts (store w) !! postId) as [postData|] eqn:Hpost;
    [|done].
  cbn in Hpoll.
  destruct (ServiceFacts.docToPost_returns postId postData
              (mkWorld (store w) (calls w ++ [RunTransaction]) (clock w)
                       (tza w) (ids w)))
    as (post & w1 & Hdoc & Hs & Hc & Hid & Hp).
  unfold voteOnPoll. fs_run. rewrite Hpost, Hpoll.
  destruct (hasVoted userId poll) eqn:Hvoted.
  { fs_run. rewrite Hdoc. cbn. rewrite Hs. cbn. rewrite Hpost. cbn. eauto. }
  destruct (Z.ltb_spec optionIndex 0) as [Hneg|Hpos].
  { cbn. rewrite Hpost. cbn. eauto. }
  destruct (Z.leb_spec (Z.of_nat (length (poll_options poll))) optionIndex)
    as [Hbig|Hsmall].
  { cbn. rewrite Hpost. cbn. eauto. }
  fs_run. rewrite Hdoc. fs_run. unfold upd_post.
  rewrite Hs. cbn [store]. rewrite Hpost. cbn.
  rewrite lookup_insert_eq. cbn. eexists. split; [reflexivity|].
  rewrite <- (Z2Nat.id optionIndex) by done.
  apply vote_consistent; [lia|done|done].
Qed.

Lemma voteOnPoll_keeps_poll_consistent_witness :
  exists poll',
    pollOf (store (voteOnPoll "u1" "p2" 1 (worldOf withPoll 0)).2) "p2"
    = Some poll'
    /\ pollConsistent poll'.
Proof.
  apply (voteOnPoll_keeps_poll_consistent "u1" "p2" 1 (worldOf withPoll 0)
           samplePoll eq_refl).
  split.
  - repeat constructor.
  - cbn. apply NoDup_singleton.
Defined.

End PostFacts.

(* ===================================================================== *)
(** * Further properties of groups                                        *)
(* ===================================================================== *)

Module GroupFacts.
Import JsDate Firestore Service Observe Samples.

Lemma elem_of_without userId (l : list Author) a :
  a ∈ without userId l <-> a_id a ≠ userId /\ a ∈ l.
Proof. unfold without. apply (list_elem_of_filter (λ m, a_id m ≠ userId)). Qed.

Lemma without_absent userId (l : list Author) :
  userId ∉ a_id <$> without userId l.
Proof.
  intros (a & Hid & Hin)%list_elem_of_fmap.
  apply elem_of_without in Hin as [Hne _]. done.
Qed.

Lemma without_twice userId (l : list Author) :
  filter (λ m, a_id m ≠ userId) (without userId l) = without userId l.
Proof.
  apply FriendFacts.filter_all. apply Forall_forall.
  intros a Hin. by apply elem_of_without in Hin as [Hne _].
Qed.

Lemma without_id userId (l : list Author) :
  userId ∉ a_id <$> l -> without userId l = l.
Proof.
  intros Hout. apply FriendFacts.filter_all. apply Forall_forall.
  intros a Hin Heq. apply Hout. apply list_elem_of_fmap. eauto.
Qed.

Lemma existsb_member userId (l : list Author) :
  existsb (λ m, bool_decide (a_id m = userId)) l = true
  <-> userId ∈ a_id <$> l.
Proof.
  rewrite existsb_exists, list_elem_of_fmap. split.
  - intros (a & Hin%list_elem_of_In & Hid%bool_decide_eq_true). eauto.
  - intros (a & Hid & Hin%list_elem_of_In). exists a.
    split; [done|]. by apply bool_decide_eq_true.
Qed.

Lemma leaveGroup_run userId groupId w g :
  coll_groups (store w) !! groupId = Some g ->
  leaveGroup userId groupId w
  = (Returned true,
     mkWorld
       (set_groups
          <[groupId :=
              with_membership (without userId (g_members g))
                (g_memberCount g + -1) (without userId (g_admins g))
                (without userId (g_moderators g)) g]> (store w))
       (calls w ++ [RunTransaction]) (clock w) (tza w) (ids w)).
Proof.
  intros Hg. unfold leaveGroup. fs_run. rewrite Hg. fs_run.
  unfold upd_group. rewrite Hg. reflexivity.
Qed.

Lemma removeGroupMember_run groupId userToRemove w g :
  coll_groups (store w) !! groupId = Some g ->
  removeGroupMember groupId userToRemove w
  = (Returned true,
     mkWorld
       (set_groups
          <[groupId :=
              with_membership (without (user_id userToRemove) (g_members g))
                (g_memberCount g
                 + (if existsb (λ m, bool_decide (a_id m = user_id userToRemove))
                                (g_members g)
                    then -1 else 0))
                (without (user_id userToRemove) (g_admins g))
                (without (user_id userToRemove) (g_moderators g)) g]>
          (store w))
       (calls w ++ [RunTransaction]) (clock w) (tza w) (ids w)).
Proof.
  intros Hg. unfold removeGroupMember. fs_run. rewrite Hg. fs_run.
  unfold upd_group. rewrite Hg. cbn.
  by destruct (existsb _ (g_members g)).
Qed.

Lemma group_missing {A} (body : GroupData -> Txn A) groupId w :
  coll_groups (store w) !! groupId = None ->
  try_catch
    (runTransaction (
       groupDoc ← tx_get (λ st, coll_groups st !! groupId);
       match groupDoc with
       | None => tx_throw "Group not found"
       | Some groupData => body groupData
       end);;
     mret true)
    (λ _, mret false) w
  = (Returned false,
     mkWorld (store w) (calls w ++ [RunTransaction]) (clock w) (tza w) (ids w)).
Proof. intros Hg. fs_run. by rewrite Hg. Qed.

Lemma set_groups_twice k (a b : GroupData) st :
  set_groups <[k := a]> (set_groups <[k := b]> st) = set_groups <[k := a]> st.
Proof. unfold set_groups. cbn. by rewrite insert_insert_eq. Qed.

(** X19. [removeGroupMember] removes the user from the members, the admins
    and the moderators of the group at once and keeps everybody else, in
    order; the counter goes down by one exactly when the user was among the
    members.  Removing the same user again changes nothing more.  For a
    group that does not exist the answer is [false] and the store is
    unchanged. *)
Theorem removeGroupMember_spec groupId userToRemove w :
  let result := removeGroupMember groupId userToRemove w in
  let userId := user_id userToRemove in
  (coll_groups (store w) !! groupId = None ->
   result.1 = Returned false /\ store result.2 = store w)
  /\ (forall g,
        coll_groups (store w) !! groupId = Some g ->
        result.1 = Returned true
        /\ (exists g',
              coll_groups (store result.2) !! groupId = Some g'
              /\ absentFrom g' userId
              /\ g_members g' = filter (λ m, a_id m ≠ userId) (g_members g)
              /\ g_admins g' = filter (λ m, a_id m ≠ userId) (g_admins g)
              /\ g_moderators g'
                 = filter (λ m, a_id m ≠ userId) (g_moderators g)
              /\ g_memberCount g'
                 = g_memberCount g
                   - (if bool_decide (userId ∈ a_id <$> g_members g)
                      then 1 else 0))
        /\ store (removeGroupMember groupId userToRemove result.2).2
           = store result.2).
Proof.
  intros result userId. subst result userId. split.
  - intros Hg. unfold removeGroupMember. by rewrite group_missing.
  - intros g Hg. rewrite (removeGroupMember_run _ _ _ _ Hg). cbn [fst snd store].
    split; [done|]. split.
    + eexists. split; [apply lookup_insert_eq|]. cbn.
      split; [repeat split; apply without_absent|].
      split; [done|]. split; [done|]. split; [done|].
      destruct (existsb _ (g_members g)) eqn:Hin.
      * apply existsb_member in Hin. rewrite bool_decide_eq_true_2 by done. lia.
      * rewrite bool_decide_eq_false_2; [lia|].
        intros Hin'%existsb_member. congruence.
    + erewrite removeGroupMember_run by (cbn; apply lookup_insert_eq).
      cbn [snd store]. rewrite set_groups_twice. cbn.
      rewrite !without_twice.
      assert (existsb (λ m, bool_decide (a_id m = user_id userToRemove))
                      (without (user_id userToRemove) (g_members g)) = false)
        as ->.
      { apply not_true_is_false. intros Hin%existsb_member.
        by apply without_absent in Hin. }
      by rewrite Z.add_0_r.
Qed.

Lemma removeGroupMember_spec_witness :
  exists g',
    coll_groups (store (removeGroupMember "g1" alice (worldOf withGroup 0)).2)
    !! "g1" = Some g'
    /\ absentFrom g' "u1".
Proof.
  destruct (proj2 (removeGroupMember_spec "g1" alice (worldOf withGroup 0))
              clubData eq_refl) as (_ & (g' & Hg' & Habsent & _) & _).
  exists g'. split; [exact Hg' | exact Habsent].
Defined.

(** ** Roles *)

Lemma promoteGroupMember_run groupId userToPromote newRole w g :
  coll_groups (store w) !! groupId = Some g ->
  promoteGroupMember groupId userToPromote newRole w
  = (Returned true,
     mkWorld
       (set_groups
          <[groupId :=
              with_membership (g_members g) (g_memberCount g)
                (if decide (newRole = "Admin")
                 then without (user_id userToPromote) (g_admins g)
                      ++ [memberObject userToPromote]
                 else without (user_id userToPromote) (g_admins g))
                (if decide (newRole = "Admin")
                 then without (user_id userToPromote) (g_moderators g)
                 else without (user_id userToPromote) (g_moderators g)
                      ++ [memberObject userToPromote])
                g]> (store w))
       (calls w ++ [RunTransaction]) (clock w) (tza w) (ids w)).
Proof.
  intros Hg. unfold promoteGroupMember. fs_run. rewrite Hg. fs_run.
  unfold upd_group. rewrite Hg. reflexivity.
Qed.

Lemma demoteGroupMember_run groupId userToDemote oldRole w g :
  coll_groups (store w) !! groupId = Some g ->
  demoteGroupMember groupId userToDemote oldRole w
  = (Returned true,
     mkWorld
       (set_groups
          <[groupId :=
              with_membership (g_members g) (g_memberCount g)
                (if decide (oldRole = "Admin")
                 then without (user_id userToDemote) (g_admins g)
                 else g_admins g)
                (if decide (oldRole = "Admin")
                 then g_moderators g
                 else without (user_id userToDemote) (g_moderators g))
                g]> (store w))
       (calls w ++ [RunTransaction]) (clock w) (tza w) (ids w)).
Proof.
  intros Hg. unfold demoteGroupMember. fs_run. rewrite Hg.
  destruct (decide (oldRole = "Admin")); fs_run;
    unfold upd_group; rewrite Hg; reflexivity.
Qed.

Lemma filter_none {A} (P : A -> Prop) `{forall x, Decision (P x)} (l : list A) :
  Forall (λ x, ¬ P x) l -> filter P l = [].
Proof.
  induction 1 as [|x l Hx Hl IH]; [done|].
  by rewrite filter_cons_False.
Qed.

Lemma count_without userId obj (l : list Author) :
  a_id obj = userId ->
  length (filter (λ a, a_id a = userId) (without userId l ++ [obj])) = 1%nat
  /\ length (filter (λ a, a_id a = userId) (without userId l)) = 0%nat.
Proof.
  intros Hid.
  assert (filter (λ a, a_id a = userId) (without userId l) = []) as Hnone.
  { apply filter_none. apply Forall_forall.
    intros a Hin. by apply elem_of_without in Hin as [Hne _]. }
  rewrite filter_app, Hnone, filter_cons_True by done. done.
Qed.

(** X20. [promoteGroupMember] gives the user exactly one role entry, the
    new one: with [newRole] equal to ["Admin"] the user is appended to the
    admins and removed from the moderators, with any other [newRole] the
    other way round.  Nobody else's role changes, and the members and the
    counter are left as they are: whether the user is a member is not
    looked at.  For a group that does not exist the answer is [false] and
    the store is unchanged. *)
Theorem promoteGroupMember_spec groupId userToPromote newRole w :
  let result := promoteGroupMember groupId userToPromote newRole w in
  let userId := user_id userToPromote in
  (coll_groups (store w) !! groupId = None ->
   result.1 = Returned false /\ store result.2 = store w)
  /\ (forall g,
        coll_groups (store w) !! groupId = Some g ->
        result.1 = Returned true
        /\ exists g',
             coll_groups (store result.2) !! groupId = Some g'
             /\ g_members g' = g_members g
             /\ g_memberCount g' = g_memberCount g
             /\ (newRole = "Admin" ->
                 g_admins g'
                 = filter (λ a, a_id a ≠ userId) (g_admins g)
                   ++ [memberObject userToPromote]
                 /\ g_moderators g'
                    = filter (λ a, a_id a ≠ userId) (g_moderators g))
             /\ (newRole ≠ "Admin" ->
                 g_admins g' = filter (λ a, a_id a ≠ userId) (g_admins g)
                 /\ g_moderators g'
                    = filter (λ a, a_id a ≠ userId) (g_moderators g)
                      ++ [memberObject userToPromote])
             /\ length (filter (λ a, a_id a = userId)
                          (g_admins g' ++ g_moderators g')) = 1%nat
             /\ (forall a, a_id a ≠ userId ->
                   (a ∈ g_admins g' <-> a ∈ g_admins g)
                   /\ (a ∈ g_moderators g' <-> a ∈ g_moderators g))
             /\ (rolesDisjoint g -> rolesDisjoint g')).
Proof.
  intros result userId. subst result userId. split.
  - intros Hg. unfold promoteGroupMember. by rewrite group_missing.
  - intros g Hg. rewrite (promoteGroupMember_run _ _ _ _ _ Hg).
    cbn [fst snd store]. split; [done|].
    eexists. split; [apply lookup_insert_eq|].
    cbn [g_members g_memberCount g_admins g_moderators with_membership].
    split; [done|]. split; [done|].
    pose proof (count_without (user_id userToPromote)
                  (memberObject userToPromote) (g_admins g) eq_refl)
      as [Ha1 Ha0].
    pose proof (count_without (user_id userToPromote)
                  (memberObject userToPromote) (g_moderators g) eq_refl)
      as [Hm1 Hm0].
    destruct (decide (newRole = "Admin")) as [Hadmin|Hother].
    + split; [done|]. split; [done|].
      split; [rewrite filter_app, length_app; lia|].
      split.
      * intros a Hne. rewrite elem_of_app, !elem_of_without.
        rewrite list_elem_of_singleton. split; [|tauto]. split; [|tauto].
        intros [[_ ?]| ->]; [done|]. by destruct Hne.
      * intros Hdisj a m Ha Hm.
        apply elem_of_without in Hm as [Hmid Hm].
        apply elem_of_app in Ha as [Ha|Ha].
        -- apply elem_of_without in Ha as [_ Ha]. by apply Hdisj.
        -- apply list_elem_of_singleton in Ha as ->. cbn. congruence.
    + split; [done|]. split; [done|].
      split; [rewrite filter_app, length_app; lia|].
      split.
      * intros a Hne. rewrite elem_of_app, !elem_of_without.
        rewrite list_elem_of_singleton. split; [tauto|]. split; [|tauto].
        intros [[_ ?]| ->]; [done|]. by destruct Hne.
      * intros Hdisj a m Ha Hm.
        apply elem_of_without in Ha as [Haid Ha].
        apply elem_of_app in Hm as [Hm|Hm].
        -- apply elem_of_without in Hm as [_ Hm]. by apply Hdisj.
        -- apply list_elem_of_singleton in Hm as ->. cbn. congruence.
Qed.

Lemma promoteGroupMember_spec_witness :
  exists g',
    coll_groups
      (store (promoteGroupMember "g1" bob "Moderator" (worldOf withGroup 0)).2)
    !! "g1" = Some g'
    /\ g_moderators g' = [bobMember].
Proof.
  destruct (proj2 (promoteGroupMember_spec "g1" bob "Moderator"
                     (worldOf withGroup 0)) clubData eq_refl)
    as (_ & g' & Hg' & _ & _ & _ & Hmod & _).
  exists g'. split; [exact Hg'|].
  refine (proj2 (Hmod _)). discriminate.
Defined.

Lemma with_membership_same g :
  with_membership (g_members g) (g_memberCount g) (g_admins g)
    (g_moderators g) g = g.
Proof. by destruct g. Qed.

Lemma with_membership_twice m c a mo m' c' a' mo' g :
  with_membership m c a mo (with_membership m' c' a' mo' g)
  = with_membership m c a mo g.
Proof. reflexivity. Qed.

(** X21. Promoting a user who holds no role and then demoting them from
    that role is a round trip: the group is exactly as before, and so is
    the rest of the store. *)
Theorem promote_then_demote groupId user role w g :
  coll_groups (store w) !! groupId = Some g ->
  user_id user ∉ a_id <$> g_admins g ->
  user_id user ∉ a_id <$> g_moderators g ->
  let promoted := (promoteGroupMember groupId user role w).2 in
  (demoteGroupMember groupId user role promoted).1 = Returned true
  /\ store (demoteGroupMember groupId user role promoted).2 = store w.
Proof.
  intros Hg Hadmin Hmod promoted. subst promoted.
  rewrite (promoteGroupMember_run _ _ _ _ _ Hg). cbn [snd].
  erewrite demoteGroupMember_run by (cbn; apply lookup_insert_eq).
  cbn [fst snd store]. split; [done|]. rewrite set_groups_twice.
  cbn [g_members g_memberCount g_admins g_moderators with_membership].
  assert (forall l,
            user_id user ∉ a_id <$> l ->
            without (user_id user) (without (user_id user) l ++ [memberObject user])
            = l) as Hundo.
  { intros l Hl. unfold without at 1.
    rewrite filter_app, filter_cons_False, filter_nil, app_nil_r
      by (cbn; intros ?; done).
    rewrite without_twice. by apply without_id. }
  destruct (decide (role = "Admin")).
  - rewrite Hundo, (without_id _ (g_moderators g)) by done.
    rewrite with_membership_twice, with_membership_same.
    destruct (store w). unfold set_groups. cbn in *. f_equal.
    by apply insert_id.
  - rewrite Hundo, (without_id _ (g_admins g)) by done.
    rewrite with_membership_twice, with_membership_same.
    destruct (store w). unfold set_groups. cbn in *. f_equal.
    by apply insert_id.
Qed.

Lemma promote_then_demote_witness :
  store (demoteGroupMember "g1" bob "Moderator"
           (promoteGroupMember "g1" bob "Moderator" (worldOf withGroup 0)).2).2
  = withGroup.
Proof.
  refine (proj2 (promote_then_demote "g1" bob "Moderator" (worldOf withGroup 0)
                   clubData eq_refl _ _)).
  - by apply (bool_decide_unpack _).
  - apply not_elem_of_nil.
Defined.

(** ** Join requests *)

Lemma approveJoinRequest_run groupId userId w g i request :
  coll_groups (store w) !! groupId = Some g ->
  list_find (λ r, a_id (jr_user r) = userId) (default [] (g_joinRequests g))
  = Some (i, request) ->
  approveJoinRequest groupId userId w
  = (Returned true,
     mkWorld
       (set_groups
          <[groupId :=
              with_joinRequests
                (filter (λ r, a_id (jr_user r) ≠ userId)
                        (default [] (g_joinRequests g)))
                (with_membership (arrayUnion (jr_user request) (g_members g))
                   (g_memberCount g + 1) (g_admins g) (g_moderators g) g)]>
          (store w))
       (calls w ++ [RunTransaction]) (clock w) (tza w) (ids w)).
Proof.
  intros Hg Hfind. unfold approveJoinRequest. fs_run. rewrite Hg.
  cbv beta iota zeta. rewrite Hfind. fs_run.
  unfold upd_group. rewrite Hg. cbn. by destruct (jr_user request).
Qed.

Lemma approveJoinRequest_handled groupId userId w g :
  coll_groups (store w) !! groupId = Some g ->
  Forall (λ r, a_id (jr_user r) ≠ userId) (default [] (g_joinRequests g)) ->
  approveJoinRequest groupId userId w
  = (Returned true,
     mkWorld (store w) (calls w ++ [RunTransaction]) (clock w) (tza w) (ids w)).
Proof.
  intros Hg Hnone. unfold approveJoinRequest. fs_run. rewrite Hg.
  cbv beta iota zeta.
  destruct (list_find _ (default [] (g_joinRequests g)))
    as [[i request]|] eqn:Hfind.
  - apply list_find_Some in Hfind as (Hi & Hid & _).
    rewrite Forall_forall in Hnone. exfalso. eapply Hnone; [|exact Hid].
    by eapply list_elem_of_lookup_2.
  - fs_run. by destruct (store w).
Qed.

Lemma rejectJoinRequest_run groupId userId w g :
  coll_groups (store w) !! groupId = Some g ->
  rejectJoinRequest groupId userId w
  = (Returned true,
     mkWorld
       (set_groups
          <[groupId :=
              with_joinRequests
                (filter (λ r, a_id (jr_user r) ≠ userId)
                        (default [] (g_joinRequests g))) g]> (store w))
       (calls w ++ [RunTransaction]) (clock w) (tza w) (ids w)).
Proof.
  intros Hg. unfold rejectJoinRequest. fs_run. rewrite Hg. fs_run.
  unfold upd_group. rewrite Hg. reflexivity.
Qed.

Lemma no_request_left userId (requests : list JoinRequest) :
  Forall (λ r, a_id (jr_user r) ≠ userId)
         (filter (λ r, a_id (jr_user r) ≠ userId) requests).
Proof.
  apply Forall_forall. intros r Hin.
  by apply (list_elem_of_filter (λ r, a_id (jr_user r) ≠ userId)) in Hin
    as [Hne _].
Qed.

(** X22. [approveJoinRequest] admits the user of the first join request
    with the given user id: that user object is added to the members
    unless an equal one is already there, the counter goes up by one, every
    request of that user id is dropped and the other requests are kept; the
    admins and moderators are untouched.  When the group has no request of
    that user, for instance because it was handled before, the answer is
    [true] and the store is unchanged; when the group does not exist the
    answer is [false] and the store is unchanged. *)
Theorem approveJoinRequest_spec groupId userId w :
  let result := approveJoinRequest groupId userId w in
  (coll_groups (store w) !! groupId = None ->
   result.1 = Returned false /\ store result.2 = store w)
  /\ (forall g,
        coll_groups (store w) !! groupId = Some g ->
        Forall (λ r, a_id (jr_user r) ≠ userId) (default [] (g_joinRequests g)) ->
        result.1 = Returned true /\ store result.2 = store w)
  /\ (forall g (i : nat) request,
        coll_groups (store w) !! groupId = Some g ->
        default [] (g_joinRequests g) !! i = Some request ->
        a_id (jr_user request) = userId ->
        (forall (j : nat) r, (j < i)%nat ->
           default [] (g_joinRequests g) !! j = Some r ->
           a_id (jr_user r) ≠ userId) ->
        result.1 = Returned true
        /\ exists g',
             coll_groups (store result.2) !! groupId = Some g'
             /\ g_members g' = arrayUnion (jr_user request) (g_members g)
             /\ jr_user request ∈ g_members g'
             /\ g_memberCount g' = g_memberCount g + 1
             /\ g_joinRequests g'
                = Some (filter (λ r, a_id (jr_user r) ≠ userId)
                               (default [] (g_joinRequests g)))
             /\ Forall (λ r, a_id (jr_user r) ≠ userId)
                       (default [] (g_joinRequests g'))
             /\ g_admins g' = g_admins g
             /\ g_moderators g' = g_moderators g).
Proof.
  intros result. subst result. split; [|split].
  - intros Hg. unfold approveJoinRequest. by rewrite group_missing.
  - intros g Hg Hnone. by rewrite (approveJoinRequest_handled _ _ _ _ Hg Hnone).
  - intros g i request Hg Hi Hid Hfirst.
    assert (list_find (λ r, a_id (jr_user r) = userId)
                      (default [] (g_joinRequests g)) = Some (i, request))
      as Hfind.
    { apply list_find_Some. split; [done|]. split; [done|].
      intros j r Hj Hlt. by apply (Hfirst j r). }
    rewrite (approveJoinRequest_run _ _ _ _ _ _ Hg Hfind). cbn [fst snd store].
    split; [done|]. eexists. split; [apply lookup_insert_eq|]. cbn.
    split; [done|]. split; [apply ServiceFacts.elem_of_arrayUnion|].
    split; [done|]. split; [done|]. split; [apply no_request_left|]. done.
Qed.

(** X23. [rejectJoinRequest] drops every join request of the given user
    id and nothing else: the other requests, the members, the counter and
    the roles are kept.  After it, [approveJoinRequest] for the same user
    answers [true] and changes nothing: a rejected request cannot be
    approved. *)
Theorem rejectJoinRequest_spec groupId userId w :
  let result := rejectJoinRequest groupId userId w in
  (coll_groups (store w) !! groupId = None ->
   result.1 = Returned false /\ store result.2 = store w)
  /\ (forall g,
        coll_groups (store w) !! groupId = Some g ->
        result.1 = Returned true
        /\ store result.2
           = set_groups
               <[groupId :=
                   with_joinRequests
                     (filter (λ r, a_id (jr_user r) ≠ userId)
                             (default [] (g_joinRequests g))) g]> (store w)
        /\ (exists g',
              coll_groups (store result.2) !! groupId = Some g'
              /\ Forall (λ r, a_id (jr_user r) ≠ userId)
                        (default [] (g_joinRequests g'))
              /\ (forall r, a_id (jr_user r) ≠ userId ->
                    r ∈ default [] (g_joinRequests g')
                    <-> r ∈ default [] (g_joinRequests g))
              /\ g_members g' = g_members g
              /\ g_memberCount g' = g_memberCount g
              /\ g_admins g' = g_admins g
              /\ g_moderators g' = g_moderators g)
        /\ (approveJoinRequest groupId userId result.2).1 = Returned true
        /\ store (approveJoinRequest groupId userId result.2).2
           = store result.2).
Proof.
  intros result. subst result. split.
  - intros Hg. unfold rejectJoinRequest. by rewrite group_missing.
  - intros g Hg. rewrite (rejectJoinRequest_run _ _ _ _ Hg). cbn [fst snd store].
    split; [done|]. split; [done|]. split.
    + eexists. split; [apply lookup_insert_eq|]. cbn.
      split; [apply no_request_left|]. split; [|done].
      intros r Hne.
      rewrite (list_elem_of_filter (λ r, a_id (jr_user r) ≠ userId)). tauto.
    + erewrite approveJoinRequest_handled.
      * done.
      * cbn. apply lookup_insert_eq.
      * cbn. apply no_request_left.
Qed.

Lemma approveJoinRequest_spec_witness :
  exists g',
    coll_groups (store (approveJoinRequest "g1" "u2"
                          (worldOf withJoinRequest 0)).2) !! "g1" = Some g'
    /\ g_members g' = [aliceMember; bobMember]
    /\ g_memberCount g' = 2.
Proof.
  destruct (proj2 (proj2 (approveJoinRequest_spec "g1" "u2"
                            (worldOf withJoinRequest 0)))
              askedClub O (mkJoinRequest bobMember ["hello"])
              eq_refl eq_refl eq_refl)
    as (_ & g' & Hg' & Hmembers & _ & Hcount & _).
  - intros j r Hj. lia.
  - exists g'. split; [exact Hg'|]. split; [exact Hmembers | exact Hcount].
Defined.

Lemma rejectJoinRequest_spec_witness :
  store (approveJoinRequest "g1" "u2"
           (rejectJoinRequest "g1" "u2" (worldOf withJoinRequest 0)).2).2
  = store (rejectJoinRequest "g1" "u2" (worldOf withJoinRequest 0)).2.
Proof.
  exact (proj2 (proj2 (proj2 (proj2 (proj2 (rejectJoinRequest_spec "g1" "u2"
                                              (worldOf withJoinRequest 0))
                                       askedClub eq_refl))))).
Defined.

(** ** The counter of members *)

(** X24. When the counter of a group equals the number of its members and
    no two members share an id, it still does after [joinGroup] by a user
    whose member object is not yet in the list, after [leaveGroup] by a
    user who is among the members, after any [removeGroupMember], and after
    [approveJoinRequest] when the user objects of that user's requests are
    not yet in the list. *)
Theorem membership_counter_kept groupId w g :
  coll_groups (store w) !! groupId = Some g ->
  g_memberCount g = Z.of_nat (length (g_members g)) ->
  NoDup (a_id <$> g_members g) ->
  (forall userId answers u,
     coll_users (store w) !! userId = Some u ->
     memberObject (docToUser userId u) ∉ g_members g ->
     counterAgrees (store (joinGroup userId groupId answers w).2) groupId)
  /\ (forall userId,
        userId ∈ a_id <$> g_members g ->
        counterAgrees (store (leaveGroup userId groupId w).2) groupId)
  /\ (forall userToRemove,
        counterAgrees (store (removeGroupMember groupId userToRemove w).2)
                      groupId)
  /\ (forall userId,
        (forall r, r ∈ default [] (g_joinRequests g) ->
                   a_id (jr_user r) = userId -> jr_user r ∉ g_members g) ->
        counterAgrees (store (approveJoinRequest groupId userId w).2) groupId).
Proof.
  intros Hg Hcount Hnd. split; [|split; [|split]].
  - intros userId answers u Hu Hnew.
    by apply (ServiceFacts.joinGroup_counter _ _ _ _ u g).
  - intros userId Hin. rewrite (leaveGroup_run _ _ _ _ Hg).
    eexists. split; [apply lookup_insert_eq|]. cbn.
    rewrite (ServiceFacts.length_without _ _ Hnd), Hcount.
    apply existsb_member in Hin. rewrite Hin. lia.
  - intros userToRemove. by apply (ServiceFacts.removeGroupMember_counter _ _ _ g).
  - intros userId Hfresh.
    destruct (list_find (λ r, a_id (jr_user r) = userId)
                        (default [] (g_joinRequests g)))
      as [[i request]|] eqn:Hfind.
    + rewrite (approveJoinRequest_run _ _ _ _ _ _ Hg Hfind).
      apply list_find_Some in Hfind as (Hi & Hid & _).
      eexists. split; [apply lookup_insert_eq|]. cbn.
      unfold arrayUnion. rewrite decide_False.
      * rewrite length_app. cbn. lia.
      * apply Hfresh; [|done]. by eapply list_elem_of_lookup_2.
    + rewrite (approveJoinRequest_handled _ _ _ _ Hg).
      * exists g. done.
      * apply list_find_None in Hfind. done.
Qed.

Lemma membership_counter_kept_witness :
  counterAgrees (store (leaveGroup "u1" "g1" (worldOf withGroup 0)).2) "g1".
Proof.
  refine (proj1 (proj2 (membership_counter_kept "g1" (worldOf withGroup 0)
                          clubData eq_refl eq_refl _)) "u1" _).
  - by apply (bool_decide_unpack _).
  - by apply (bool_decide_unpack _).
Defined.

End GroupFacts.

(* ===================================================================== *)
(** * Further properties of mentions and chat ids                         *)
(* ===================================================================== *)

Module MentionFacts.
Import JsDate Firestore Sharded Observe Samples.

Lemma unique_from (l : list string) : forall seen,
  NoDup seen ->
  NoDup (foldl (λ seen x, if decide (x ∈ seen) then seen else seen ++ [x])
               seen l)
  /\ forall x,
       x ∈ foldl (λ seen x, if decide (x ∈ seen) then seen else seen ++ [x])
                 seen l
       <-> x ∈ seen \/ x ∈ l.
Proof.
  induction l as [|y l IH]; intros seen Hseen; cbn [foldl].
  - split; [done|]. intros x. rewrite elem_of_nil. tauto.
  - destruct (decide (y ∈ seen)) as [Hin|Hout].
    + destruct (IH seen Hseen) as [Hnd Hel]. split; [done|].
      intros x. rewrite Hel, elem_of_cons. split; [tauto|].
      intros [?|[->|?]]; tauto.
    + destruct (IH (seen ++ [y])) as [Hnd Hel].
      { apply NoDup_app. split; [done|]. split; [|apply NoDup_singleton].
        intros x Hx ->%list_elem_of_singleton. done. }
      split; [done|]. intros x.
      rewrite Hel, elem_of_app, list_elem_of_singleton, elem_of_cons. tauto.
Qed.

Lemma lookupUsernames_run usernames : forall w,
  lookupUsernames usernames w
  = (Returned (omap (λ username, coll_usernames (store w) !! username)
                    usernames),
     mkWorld (store w)
       (calls w ++ map (λ username, GetDoc ("usernames/" +:+ username))
                       usernames)
       (clock w) (tza w) (ids w)).
Proof.
  induction usernames as [|username rest IH]; intros w; cbn [lookupUsernames].
  - destruct w. cbn. by rewrite app_nil_r.
  - fs_steps. rewrite IH. cbn.
    destruct (coll_usernames (store w) !! username);
      cbn; by rewrite <- app_assoc.
Qed.

Lemma no_at_no_mention text :
  (forall c, c ∈ list_ascii_of_string text -> c ≠ "@"%char) ->
  matchMentions None text = [].
Proof.
  induction text as [|c rest IH]; intros Hno; [done|]. cbn.
  assert (matchMentions None rest = []) as Hrest.
  { apply IH. intros c' Hc'. apply Hno. cbn. by apply elem_of_cons; right. }
  destruct (isWordChar c); [done|]. cbn.
  rewrite decide_False; [done|].
  apply Hno. cbn. by apply elem_of_cons; left.
Qed.

Lemma append_empty (s : string) : s +:+ "" = s.
Proof.
  induction s as [|c s IH]; [done|].
  by rewrite JsDateFacts.append_cons, IH.
Qed.

Lemma append_char (acc : string) c (name : string) :
  (acc +:+ String c "") +:+ name = acc +:+ String c name.
Proof.
  induction acc as [|a acc IH].
  - by rewrite !JsDateFacts.append_nil, JsDateFacts.append_cons,
      JsDateFacts.append_nil.
  - by rewrite !JsDateFacts.append_cons, IH.
Qed.

Lemma matchMentions_stop acc rest :
  endsWord rest ->
  matchMentions (Some acc) rest = emit (Some acc) ++ matchMentions None rest.
Proof.
  destruct rest as [|c rest]; cbn.
  - intros _. by rewrite app_nil_r.
  - intros ->. done.
Qed.

Lemma matchMentions_word name : forall acc rest,
  wordChars name -> endsWord rest ->
  matchMentions (Some acc) (name +:+ rest)
  = emit (Some (acc +:+ name)) ++ matchMentions None rest.
Proof.
  induction name as [|c name IH]; intros acc rest Hword Hend.
  - rewrite JsDateFacts.append_nil, append_empty.
    by apply matchMentions_stop.
  - apply Forall_cons in Hword as [Hc Hword].
    rewrite JsDateFacts.append_cons. cbn [matchMentions]. rewrite Hc.
    cbn [fmap option_fmap option_map]. rewrite IH by done.
    by rewrite append_char.
Qed.

Lemma unique_snoc (l : list string) x :
  unique (l ++ [x])
  = if decide (x ∈ l) then unique l else unique l ++ [x].
Proof.
  unfold unique. rewrite foldl_app. cbn [foldl].
  destruct (unique_from l [] NoDup_nil_2) as [_ Hel].
  destruct (decide (x ∈ l)) as [Hin|Hout].
  - rewrite decide_True; [done|]. apply Hel. by right.
  - rewrite decide_False; [done|]. intros [?%elem_of_nil|?]%Hel; done.
Qed.

(** X29. [_parseMentions] looks up each mentioned name once.

    What is matched: scanning from the left, an [@] followed by word
    characters gives a match made of the [@] and of all the word characters
    that follow, and the scan goes on after them; any other character,
    also an [@] with no word character after it, is passed over.

    The names are the matches without the [@] and in lower case, each kept
    at its first mention only.  Each name is looked up with one [getDoc]
    on [usernames/<name>], in that order, and the result lists the user
    ids of the names that are registered.  The store is not changed, and a
    text without [@] causes no call. *)
Theorem parseMentions_spec text w :
  let mentioned :=
    map (λ m, Service.toLowerCase (substring1 m)) (matchMentions None text) in
  let names := unique mentioned in
  (matchMentions None "" = []
   /\ (forall c rest,
         c ≠ "@"%char ->
         matchMentions None (String c rest) = matchMentions None rest)
   /\ (forall rest,
         endsWord rest ->
         matchMentions None (String "@" rest) = matchMentions None rest)
   /\ (forall c name rest,
         isWordChar c = true -> wordChars name -> endsWord rest ->
         matchMentions None (String "@" (String c name +:+ rest))
         = ("@" +:+ String c name) :: matchMentions None rest))
  /\ (unique [] = []
      /\ forall l x,
           unique (l ++ [x])
           = if decide (x ∈ l) then unique l else unique l ++ [x])
  /\ NoDup names
  /\ (forall name, name ∈ names <-> name ∈ mentioned)
  /\ (_parseMentions text w).1
     = Returned (omap (λ name, coll_usernames (store w) !! name) names)
  /\ issued (_parseMentions text) w
     = map (λ name, GetDoc ("usernames/" +:+ name)) names
  /\ store (_parseMentions text w).2 = store w
  /\ ((forall c, c ∈ list_ascii_of_string text -> c ≠ "@"%char) ->
      _parseMentions text w = (Returned [], w)).
Proof.
  intros mentioned names. split.
  { split; [done|]. split; [|split].
    - intros c rest Hc. cbn [matchMentions].
      destruct (isWordChar c); [done|]. cbn. by rewrite decide_False.
    - intros rest Hend. cbn [matchMentions].
      change (isWordChar "@") with false. cbn [emit app].
      rewrite decide_True by done. by rewrite matchMentions_stop.
    - intros c name rest Hc Hword Hend. cbn [matchMentions].
      change (isWordChar "@") with false. cbn [emit app].
      rewrite decide_True by done.
      change (String c name +:+ rest) with ((String c name) +:+ rest).
      rewrite matchMentions_word; [|by constructor|done].
      by rewrite JsDateFacts.append_nil. }
  split; [split; [done|apply unique_snoc]|].
  destruct (unique_from mentioned [] (NoDup_nil_2)) as [Hnd Hel].
  split; [done|]. split.
  { intros name. subst names. unfold unique. rewrite Hel, elem_of_nil. tauto. }
  assert (_parseMentions text w
          = (Returned (omap (λ name, coll_usernames (store w) !! name) names),
             mkWorld (store w)
               (calls w ++ map (λ name, GetDoc ("usernames/" +:+ name)) names)
               (clock w) (tza w) (ids w))) as Hrun.
  { unfold _parseMentions.
    destruct (decide (matchMentions None text = [])) as [He|Hne].
    - subst names mentioned. rewrite He. destruct w. cbn.
      by rewrite app_nil_r.
    - apply lookupUsernames_run. }
  split; [by rewrite Hrun|]. split.
  { apply ServiceFacts.issued_app. by rewrite Hrun. }
  split; [by rewrite Hrun|].
  intros Hno. unfold _parseMentions.
  by rewrite (no_at_no_mention _ Hno), decide_True.
Qed.

(** X30. Both users of a chat get the same chat id: [getChatId] does not
    depend on the order of the two user ids, and it is the two ids joined
    by an underscore in one of the two orders. *)
Theorem getChatId_symmetric user1Id user2Id :
  getChatId user1Id user2Id = getChatId user2Id user1Id
  /\ (getChatId user1Id user2Id = user1Id +:+ "_" +:+ user2Id
      \/ getChatId user1Id user2Id = user2Id +:+ "_" +:+ user1Id).
Proof.
  unfold getChatId, compareStrings. cbn [sort sort_insert].
  unfold precedes. rewrite (String.compare_antisym user2Id user1Id).
  destruct (String.compare user1Id user2Id) eqn:Hcmp; cbn; auto.
  apply String.compare_eq_iff in Hcmp as ->. auto.
Qed.

End MentionFacts.
